(** * Pycross: the crosshair overlay of [cross.py]

    A shallow embedding of [cross.py]: the settings store
    ([save_settings], [load_settings]), the overlay window
    ([CrosshairOverlay]), the settings dialog ([SettingsWindow]), the tray
    controller ([SystemTrayIcon]) and the entry point.

    Python values are a tagged union ([pyval]); exceptions are an error
    monad ([result]); the objects the program shares (the overlay, the
    dialog, the tray icon, the settings file) live in one explicit state
    ([world]) that every handler threads.  What the program imports
    ([json], [open], the Qt classes it calls) is modelled by the part of its
    documented behaviour that the program relies on. *)

From Stdlib Require Import ZArith NArith List Lia Bool String Ascii.
From Stdlib Require Import Decimal DecimalFacts DecimalN.
Import ListNotations.

Open Scope Z_scope.

(** ** Python strings *)

(** A Python [str] is a sequence of Unicode code points. *)
Definition pystr := list N.

(** [u "abc"] is the Python string of an ASCII literal. *)
Definition u (s : string) : pystr :=
  map N_of_ascii (list_ascii_of_string s).

(** [text "{'a': 1}"] is the same, with every apostrophe of the literal
    standing for a double quote (code point 34); it is only a way of
    writing JSON documents down. *)
Definition text (s : string) : pystr :=
  map (fun c => if N.eqb c 39 then 34%N else c) (u s).

Fixpoint pystr_eqb (a b : pystr) : bool :=
  match a, b with
  | [], [] => true
  | x :: a', y :: b' => N.eqb x y && pystr_eqb a' b'
  | _, _ => false
  end.

(** ** Python values *)

(** The values [json.load] can build, which are all the values the settings
    can hold.  A float is kept as the numeral that denotes it: the program
    does no float arithmetic. *)
#[warnings="-register-all"]
Inductive pyval : Type :=
| PNone
| PBool (b : bool)
| PInt (z : Z)
| PFloat (numeral : pystr)
| PStr (s : pystr)
| PList (l : list pyval)
| PDict (d : list (pystr * pyval)).

(** A [dict] keeps insertion order; assigning to a key that is present
    replaces its value in place. *)
Fixpoint dict_set (d : list (pystr * pyval)) (k : pystr) (v : pyval)
  : list (pystr * pyval) :=
  match d with
  | [] => [(k, v)]
  | (k', v') :: r =>
      if pystr_eqb k k' then (k, v) :: r else (k', v') :: dict_set r k v
  end.

Fixpoint dict_get (d : list (pystr * pyval)) (k : pystr) : option pyval :=
  match d with
  | [] => None
  | (k', v) :: r => if pystr_eqb k k' then Some v else dict_get r k
  end.

(** [dict(pairs)] *)
Definition dict_of_pairs (ps : list (pystr * pyval)) : list (pystr * pyval) :=
  fold_left (fun d kv => dict_set d (fst kv) (snd kv)) ps [].

(** ** Exceptions *)

Inductive exn : Type :=
| FileNotFoundError
| PermissionError
| OSError            (* any other I/O failure, e.g. no space left on device *)
| JSONDecodeError    (* a ValueError *)
| KeyError
| TypeError
| OverflowError
| RecursionError
| SystemExit (code : option Z).

Inductive result (A : Type) : Type :=
| Ok (a : A)
| Raise (e : exn).
Arguments Ok {A} a.
Arguments Raise {A} e.

Definition bind {A B} (m : result A) (k : A -> result B) : result B :=
  match m with
  | Ok a => k a
  | Raise e => Raise e
  end.

Notation "x <- m ;; k" := (bind m (fun x => k))
  (at level 61, m at next level, right associativity).
Notation "' p <- m ;; k" := (bind m (fun x => let p := x in k))
  (at level 61, p pattern, m at next level, right associativity).

(** ** [json.dumps]: the encoder with its default settings
    ([ensure_ascii=True], separators [", "] and [": "]). *)

Fixpoint uint_chars (d : uint) : pystr :=
  match d with
  | Nil => []
  | D0 r => 48%N :: uint_chars r
  | D1 r => 49%N :: uint_chars r
  | D2 r => 50%N :: uint_chars r
  | D3 r => 51%N :: uint_chars r
  | D4 r => 52%N :: uint_chars r
  | D5 r => 53%N :: uint_chars r
  | D6 r => 54%N :: uint_chars r
  | D7 r => 55%N :: uint_chars r
  | D8 r => 56%N :: uint_chars r
  | D9 r => 57%N :: uint_chars r
  end.

(** [str(n)] for an [int].  CPython from 3.11 on refuses to write an
    integer of more than 4300 digits; the properties that take any integer
    keep below that limit ([int_str_ok]). *)
Definition str_of_int (z : Z) : pystr :=
  match z with
  | Z0 => [48%N]
  | Zpos p => uint_chars (N.to_uint (Npos p))
  | Zneg p => 45%N :: uint_chars (N.to_uint (Npos p))
  end.

Definition hex_char (d : N) : N :=
  if (d <? 10)%N then (48 + d)%N else (87 + d)%N.

(** ['\\u{0:04x}'.format(n)] *)
Definition u_escape (n : N) : pystr :=
  [92; 117; hex_char (n / 4096 mod 16); hex_char (n / 256 mod 16);
   hex_char (n / 16 mod 16); hex_char (n mod 16)]%N.

(** The replacement of one code point in [py_encode_basestring_ascii]. *)
Definition escape_char (c : N) : pystr :=
  (if c =? 34 then [92; 34]
   else if c =? 92 then [92; 92]
   else if c =? 10 then [92; 110]
   else if c =? 13 then [92; 114]
   else if c =? 9 then [92; 116]
   else if c =? 12 then [92; 102]
   else if c =? 8 then [92; 98]
   else if (32 <=? c) && (c <=? 126) then [c]
   else if c <? 65536 then u_escape c
   else
     let v := c - 65536 in
     u_escape (55296 + (v / 1024) mod 1024) ++ u_escape (56320 + v mod 1024))%N.

Definition encode_basestring_ascii (s : pystr) : pystr :=
  34%N :: flat_map escape_char s ++ [34%N].

Fixpoint join (sep : pystr) (parts : list pystr) : pystr :=
  match parts with
  | [] => []
  | [p] => p
  | p :: r => p ++ sep ++ join sep r
  end.

(** [json.dumps(v)].  A float is written as the numeral that stands for it
    in [pyval]; the program never writes one: what [save_settings] receives
    comes from the sliders. *)
Fixpoint json_dumps (v : pyval) : pystr :=
  match v with
  | PNone => u "null"
  | PBool true => u "true"
  | PBool false => u "false"
  | PInt z => str_of_int z
  | PFloat numeral => numeral
  | PStr s => encode_basestring_ascii s
  | PList l => 91%N :: join (u ", ") (map json_dumps l) ++ [93%N]
  | PDict d =>
      123%N ::
      join (u ", ")
        (map (fun kv => encode_basestring_ascii (fst kv) ++ u ": "
                        ++ json_dumps (snd kv)) d)
      ++ [125%N]
  end.

(** ** [json.loads]: the decoder ([json.decoder], [json.scanner]) *)

Definition is_ws (c : N) : bool :=
  ((c =? 32) || (c =? 9) || (c =? 10) || (c =? 13))%N.

Fixpoint skip_ws (s : pystr) : pystr :=
  match s with
  | c :: r => if is_ws c then skip_ws r else s
  | [] => []
  end.

Definition is_digit (c : N) : bool := ((48 <=? c) && (c <=? 57))%N.

(** The longest prefix of digits, and what follows it. *)
Fixpoint scan_digits (s : pystr) : pystr * pystr :=
  match s with
  | c :: r =>
      if is_digit c then let (ds, r') := scan_digits r in (c :: ds, r')
      else ([], s)
  | [] => ([], [])
  end.

Definition uint_digit (c : N) (r : uint) : uint :=
  (if c =? 48 then D0 r else if c =? 49 then D1 r
   else if c =? 50 then D2 r else if c =? 51 then D3 r
   else if c =? 52 then D4 r else if c =? 53 then D5 r
   else if c =? 54 then D6 r else if c =? 55 then D7 r
   else if c =? 56 then D8 r else D9 r)%N.

Fixpoint digits_uint (ds : pystr) : uint :=
  match ds with
  | [] => Nil
  | c :: r => uint_digit c (digits_uint r)
  end.

(** [int(digits)] for a string of decimal digits, with the same limit of
    4300 digits in CPython from 3.11 on. *)
Definition int_of_digits (ds : pystr) : Z := Z.of_N (N.of_uint (digits_uint ds)).

(** [NUMBER_RE]: an optional minus sign and either a single 0 or a digit
    from 1 to 9 followed by any digits; then, optionally, a dot and one
    digit or more; then, optionally, e or E, an optional sign and one digit
    or more.  Each part returns what it matched and the rest of the input. *)
Definition match_sign (s : pystr) : bool * pystr :=
  match s with
  | c :: r => if (c =? 45)%N then (true, r) else (false, s)
  | [] => (false, s)
  end.

Definition match_integer (s : pystr) : option (pystr * pystr) :=
  match s with
  | c :: r =>
      if (c =? 48)%N then Some ([48%N], r)
      else if is_digit c then Some (scan_digits s)
      else None
  | [] => None
  end.

Definition match_frac (s : pystr) : pystr * pystr :=
  match s with
  | c :: r =>
      if (c =? 46)%N then
        match scan_digits r with
        | ([], _) => ([], s)
        | (fs, r') => (c :: fs, r')
        end
      else ([], s)
  | [] => ([], s)
  end.

Definition match_exp (s : pystr) : pystr * pystr :=
  match s with
  | c :: r =>
      if ((c =? 101) || (c =? 69))%N then
        let '(sign, r1) :=
          match r with
          | c1 :: r' =>
              if ((c1 =? 43) || (c1 =? 45))%N then ([c1], r') else ([], r)
          | [] => ([], r)
          end in
        match scan_digits r1 with
        | ([], _) => ([], s)
        | (es, r') => (c :: sign ++ es, r')
        end
      else ([], s)
  | [] => ([], s)
  end.

(** The sign, the three groups and the rest of the input, or [None] when
    there is no match at the start of [s]. *)
Definition match_number (s : pystr)
  : option (bool * pystr * pystr * pystr * pystr) :=
  let '(neg, s1) := match_sign s in
  match match_integer s1 with
  | None => None
  | Some (ds, s2) =>
      let '(frac, s3) := match_frac s2 in
      let '(exp, s4) := match_exp s3 in
      Some (neg, ds, frac, exp, s4)
  end.

Definition hex_val (c : N) : option N :=
  (if (48 <=? c) && (c <=? 57) then Some (c - 48)
   else if (97 <=? c) && (c <=? 102) then Some (c - 87)
   else if (65 <=? c) && (c <=? 70) then Some (c - 55)
   else None)%N.

(** [_decode_uXXXX] on the four characters after [\u] *)
Definition decode_uXXXX (a b c d : N) : option N :=
  match hex_val a, hex_val b, hex_val c, hex_val d with
  | Some x, Some y, Some z, Some w => Some (((x * 16 + y) * 16 + z) * 16 + w)%N
  | _, _, _, _ => None
  end.

Definition escape_value (e : N) : option N :=
  (if e =? 34 then Some 34 else if e =? 92 then Some 92
   else if e =? 47 then Some 47 else if e =? 98 then Some 8
   else if e =? 102 then Some 12 else if e =? 110 then Some 10
   else if e =? 114 then Some 13 else if e =? 116 then Some 9
   else None)%N.

(** [scanstring] in strict mode, started after the opening quote: the
    decoded string and the input after the closing quote. *)
Fixpoint scanstring (s : pystr) : option (pystr * pystr) :=
  match s with
  | [] => None
  | c :: r =>
      if (c =? 34)%N then Some ([], r)
      else if (c =? 92)%N then
        match r with
        | [] => None
        | e :: r1 =>
            if (e =? 117)%N then
              match r1 with
              | h1 :: h2 :: h3 :: h4 :: r2 =>
                  match decode_uXXXX h1 h2 h3 h4 with
                  | None => None
                  | Some uni =>
                      let plain :=
                        match scanstring r2 with
                        | Some (str, rest) => Some (uni :: str, rest)
                        | None => None
                        end in
                      if ((55296 <=? uni) && (uni <=? 56319))%N then
                        match r2 with
                        | b1 :: b2 :: l1 :: l2 :: l3 :: l4 :: r3 =>
                            if ((b1 =? 92) && (b2 =? 117))%N then
                              match decode_uXXXX l1 l2 l3 l4 with
                              | None => None
                              | Some uni2 =>
                                  if ((56320 <=? uni2) && (uni2 <=? 57343))%N
                                  then
                                    match scanstring r3 with
                                    | Some (str, rest) =>
                                        Some ((65536 + ((uni - 55296) * 1024
                                                + (uni2 - 56320)))%N :: str,
                                              rest)
                                    | None => None
                                    end
                                  else plain
                              end
                            else plain
                        | _ => plain
                        end
                      else plain
                  end
              | _ => None
              end
            else
              match escape_value e with
              | None => None
              | Some x =>
                  match scanstring r1 with
                  | Some (str, rest) => Some (x :: str, rest)
                  | None => None
                  end
              end
        end
      else if (c <? 32)%N then None
      else
        match scanstring r with
        | Some (str, rest) => Some (c :: str, rest)
        | None => None
        end
  end.

(** [s] starts with [p]: what follows it. *)
Fixpoint strip_prefix (p s : pystr) : option pystr :=
  match p, s with
  | [], _ => Some s
  | x :: p', y :: s' => if (x =? y)%N then strip_prefix p' s' else None
  | _ :: _, [] => None
  end.

(** What a scanner returns: a value and the rest of the input, or the
    refusal of the input ([JSONDecodeError]); [OutOfFuel] is the recursion
    bound of this model, which [json_loads] never reaches
    ([scan_once_fuel]). *)
Inductive scanned : Type :=
| Scanned (v : pyval) (rest : pystr)
| Invalid
| OutOfFuel.

(** The constants and the numbers of [scan_once]. *)
Definition scan_literal (s : pystr) : scanned :=
  match strip_prefix (u "null") s, strip_prefix (u "true") s,
        strip_prefix (u "false") s with
  | Some rest, _, _ => Scanned PNone rest
  | _, Some rest, _ => Scanned (PBool true) rest
  | _, _, Some rest => Scanned (PBool false) rest
  | None, None, None =>
      match match_number s with
      | Some (neg, ds, [], [], rest) =>
          Scanned (PInt (if neg then - int_of_digits ds
                         else int_of_digits ds)) rest
      | Some (neg, ds, frac, exp, rest) =>
          Scanned (PFloat ((if neg then [45%N] else []) ++ ds ++ frac ++ exp))
                  rest
      | None =>
          match strip_prefix (u "NaN") s, strip_prefix (u "Infinity") s,
                strip_prefix (u "-Infinity") s with
          | Some rest, _, _ => Scanned (PFloat (u "NaN")) rest
          | _, Some rest, _ => Scanned (PFloat (u "Infinity")) rest
          | _, _, Some rest => Scanned (PFloat (u "-Infinity")) rest
          | None, None, None => Invalid
          end
      end
  end.

(** [scan_once], [JSONObject] and [JSONArray].  The three call each other;
    [fuel] bounds the number of nested calls. *)
Fixpoint scan_once (fuel : nat) (s : pystr) : scanned :=
  match fuel with
  | O => OutOfFuel
  | S fuel' =>
      match s with
      | [] => Invalid
      | c :: r =>
          if (c =? 34)%N then
            match scanstring r with
            | Some (str, rest) => Scanned (PStr str) rest
            | None => Invalid
            end
          else if (c =? 123)%N then
            match skip_ws r with
            | c1 :: r1 =>
                if (c1 =? 125)%N then Scanned (PDict []) r1
                else if (c1 =? 34)%N then object_pairs fuel' r1 []
                else Invalid
            | [] => Invalid
            end
          else if (c =? 91)%N then
            match skip_ws r with
            | c1 :: r1 =>
                if (c1 =? 93)%N then Scanned (PList []) r1
                else array_items fuel' (c1 :: r1) []
            | [] => Invalid
            end
          else scan_literal s
      end
  end

(** the loop of [JSONObject], entered after the opening quote of a key;
    [acc] holds the pairs read so far, last first *)
with object_pairs (fuel : nat) (s : pystr) (acc : list (pystr * pyval))
  : scanned :=
  match fuel with
  | O => OutOfFuel
  | S fuel' =>
      match scanstring s with
      | None => Invalid
      | Some (key, s1) =>
          match skip_ws s1 with
          | c :: s2 =>
              if (c =? 58)%N then
                match scan_once fuel' (skip_ws s2) with
                | Scanned value s3 =>
                    match skip_ws s3 with
                    | c1 :: s4 =>
                        if (c1 =? 125)%N then
                          Scanned (PDict (dict_of_pairs
                                            (List.rev ((key, value) :: acc))))
                                  s4
                        else if (c1 =? 44)%N then
                          match skip_ws s4 with
                          | c2 :: s5 =>
                              if (c2 =? 34)%N then
                                object_pairs fuel' s5 ((key, value) :: acc)
                              else Invalid
                          | [] => Invalid
                          end
                        else Invalid
                    | [] => Invalid
                    end
                | other => other
                end
              else Invalid
          | [] => Invalid
          end
      end
  end

(** the loop of [JSONArray], entered at the first character of a value *)
with array_items (fuel : nat) (s : pystr) (acc : list pyval) : scanned :=
  match fuel with
  | O => OutOfFuel
  | S fuel' =>
      match scan_once fuel' s with
      | Scanned value s1 =>
          match skip_ws s1 with
          | c :: s2 =>
              if (c =? 93)%N then Scanned (PList (List.rev (value :: acc))) s2
              else if (c =? 44)%N then
                array_items fuel' (skip_ws s2) (value :: acc)
              else Invalid
          | [] => Invalid
          end
      | other => other
      end
  end.

(** [json.loads(s)]: one value, surrounded by optional white space, and
    nothing else.  The fuel is enough for any document of this length; the
    limit that the interpreter puts on the nesting of arrays and objects
    (about a thousand levels) is not part of this model. *)
Definition json_loads (s : pystr) : result pyval :=
  match scan_once (S (2 * List.length s)) (skip_ws s) with
  | Scanned v rest =>
      match skip_ws rest with
      | [] => Ok v
      | _ :: _ => Raise JSONDecodeError
      end
  | Invalid => Raise JSONDecodeError
  | OutOfFuel => Raise RecursionError
  end.

(** ** Programs with state and exceptions *)

(** A Python exception leaves the state as it was when it was raised: a
    program over a state [S] returns the final state next to its result. *)
Definition prog (S A : Type) : Type := S -> S * result A.

Definition ret {S A} (a : A) : prog S A := fun s => (s, Ok a).

Definition raise {S A} (e : exn) : prog S A := fun s => (s, Raise e).

Definition pbind {S A B} (m : prog S A) (k : A -> prog S B) : prog S B :=
  fun s =>
    match m s with
    | (s', Ok a) => k a s'
    | (s', Raise e) => (s', Raise e)
    end.

Definition lift {S A} (r : result A) : prog S A := fun s => (s, r).

Definition get_state {S} : prog S S := fun s => (s, Ok s).

Definition modify {S} (f : S -> S) : prog S unit := fun s => (f s, Ok tt).

Notation "x <~ m ;; k" := (pbind m (fun x => k))
  (at level 61, m at next level, right associativity).
Notation "m ;;; k" := (pbind m (fun _ => k))
  (at level 61, right associativity).

(** ** The settings file *)

(** The one file the program touches, [settings.json] in the working
    directory: its text (as [f.read()] decodes it) if it exists, whether it
    may be read, whether it may be written or created, and how many
    characters the device can hold for it. *)
Record disk : Type := {
  file : option pystr;
  readable : bool;
  writable : bool;
  capacity : nat
}.

(** [open("settings.json", "r")] followed by [f.read()].  The file is
    the text it decodes to: bytes that are no text in the encoding of the
    platform are not part of this model. *)
Definition open_r (d : disk) : result pystr :=
  match file d with
  | None => Raise FileNotFoundError
  | Some t => if readable d then Ok t else Raise PermissionError
  end.

(** [open("settings.json", "w")]: creates the file or truncates it. *)
Definition open_w : prog disk unit :=
  fun d =>
    if writable d then
      ({| file := Some [];
          readable := match file d with None => true | Some _ => readable d end;
          writable := writable d;
          capacity := capacity d |}, Ok tt)
    else (d, Raise PermissionError).

(** Writing [t] to the file just opened and closing it: the characters
    that fit reach the file, and the write fails when some do not. *)
Definition write_close (t : pystr) : prog disk unit :=
  fun d =>
    if (List.length t <=? capacity d)%nat then
      ({| file := Some t; readable := readable d; writable := writable d;
          capacity := capacity d |}, Ok tt)
    else
      ({| file := Some (firstn (capacity d) t); readable := readable d;
          writable := writable d; capacity := capacity d |}, Raise OSError).

(** ** Qt values *)

(** What the binding does with a Python argument where Qt expects a C
    [int]: an [int] (or a [bool], which is one) in range is passed on. *)
Definition py_int (v : pyval) : result Z :=
  match v with
  | PInt z => Ok z
  | PBool b => Ok (Z.b2z b)
  | _ => Raise TypeError
  end.

Definition c_int (z : Z) : result Z :=
  if (-2147483648 <=? z) && (z <=? 2147483647) then Ok z
  else Raise OverflowError.

Definition sip_int (v : pyval) : result Z :=
  z <- py_int v ;; c_int z.

Record QColor : Type := {
  isValid : bool;
  red : Z;
  green : Z;
  blue : Z;
  alpha : Z
}.

Definition channel_ok (z : Z) : bool := (0 <=? z) && (z <=? 255).

(** [QColor(r, g, b, a)] on C ints: a colour with a component out of range
    is invalid, and all its components read 0. *)
Definition QColor_rgba (r g b a : Z) : QColor :=
  if channel_ok r && channel_ok g && channel_ok b && channel_ok a then
    {| isValid := true; red := r; green := g; blue := b; alpha := a |}
  else {| isValid := false; red := 0; green := 0; blue := 0; alpha := 0 |}.

(** [QColor(r, g, b)] and [QColor(r, g, b, a)] called from Python *)
Definition QColor3 (r g b : pyval) : result QColor :=
  r' <- sip_int r ;; g' <- sip_int g ;; b' <- sip_int b ;;
  Ok (QColor_rgba r' g' b' 255).

Definition QColor4 (r g b a : pyval) : result QColor :=
  r' <- sip_int r ;; g' <- sip_int g ;; b' <- sip_int b ;; a' <- sip_int a ;;
  Ok (QColor_rgba r' g' b' a').

(** [QSlider]: the range and the value of [QAbstractSlider] *)
Record QSlider : Type := {
  minimum : Z;
  maximum : Z;
  value : Z
}.

Definition qBound (lo v hi : Z) : Z := Z.max lo (Z.min hi v).

(** [QSlider(Qt.Horizontal)] *)
Definition QSlider_new : QSlider :=
  {| minimum := 0; maximum := 99; value := 0 |}.

Definition setRange (lo hi : Z) (s : QSlider) : QSlider :=
  let hi' := Z.max lo hi in
  {| minimum := lo; maximum := hi'; value := qBound lo (value s) hi' |}.

Definition setMinimum (lo : Z) (s : QSlider) : QSlider :=
  setRange lo (Z.max (maximum s) lo) s.

Definition setMaximum (hi : Z) (s : QSlider) : QSlider :=
  setRange (Z.min (minimum s) hi) hi s.

Definition setValue (v : Z) (s : QSlider) : QSlider :=
  {| minimum := minimum s; maximum := maximum s;
     value := qBound (minimum s) v (maximum s) |}.

(** ** The settings store *)

(** [save_settings(size, thickness, color, transparency)] *)
Definition settings_dict (size thickness : pyval) (color : QColor)
  (transparency : pyval) : pyval :=
  PDict [ (u "size", size);
          (u "thickness", thickness);
          (u "color", PDict [ (u "r", PInt (red color));
                              (u "g", PInt (green color));
                              (u "b", PInt (blue color)) ]);
          (u "transparency", transparency) ].

Definition save_settings (size thickness : pyval) (color : QColor)
  (transparency : pyval) : prog disk unit :=
  let settings := settings_dict size thickness color transparency in
  open_w ;;;
  write_close (json_dumps settings).

(** [v[k]] for a string [k] *)
Definition getitem (v : pyval) (k : pystr) : result pyval :=
  match v with
  | PDict d =>
      match dict_get d k with
      | Some x => Ok x
      | None => Raise KeyError
      end
  | _ => Raise TypeError
  end.

Definition default_settings : pyval * pyval * QColor * pyval :=
  (PInt 3, PInt 2, QColor_rgba 255 255 255 255, PInt 255).

(** The body of the [try] of [load_settings] *)
Definition load_settings_try (d : disk)
  : result (pyval * pyval * QColor * pyval) :=
  f <- open_r d ;;
  settings <- json_loads f ;;
  size <- getitem settings (u "size") ;;
  thickness <- getitem settings (u "thickness") ;;
  c1 <- getitem settings (u "color") ;;
  r <- getitem c1 (u "r") ;;
  c2 <- getitem settings (u "color") ;;
  g <- getitem c2 (u "g") ;;
  c3 <- getitem settings (u "color") ;;
  b <- getitem c3 (u "b") ;;
  color <- QColor3 r g b ;;
  transparency <- getitem settings (u "transparency") ;;
  Ok (size, thickness, color, transparency).

(** [load_settings()]: [except (FileNotFoundError, KeyError)] *)
Definition load_settings (d : disk)
  : result (pyval * pyval * QColor * pyval) :=
  match load_settings_try d with
  | Raise FileNotFoundError => Ok default_settings
  | Raise KeyError => Ok default_settings
  | other => other
  end.

(** ** The overlay window *)

Record CrosshairOverlay : Type := {
  size : pyval;
  thickness : pyval;
  color : QColor;
  transparency : pyval;
  width : Z;                 (* the geometry of the widget *)
  height : Z;
  visible : bool
}.

(** [CrosshairOverlay.__init__]: the four attributes, the geometry of the
    primary screen ([update_window_geometry]) and [showFullScreen()]. *)
Definition CrosshairOverlay_init (screen_width screen_height : Z)
  (size thickness : pyval) (color : QColor) (transparency : pyval)
  : CrosshairOverlay :=
  {| size := size; thickness := thickness; color := color;
     transparency := transparency;
     width := screen_width; height := screen_height;
     visible := true |}.

Definition set_visible (b : bool) (o : CrosshairOverlay) : CrosshairOverlay :=
  {| size := size o; thickness := thickness o; color := color o;
     transparency := transparency o; width := width o; height := height o;
     visible := b |}.

(** [QWidget.show()] and [QWidget.hide()] *)
Definition show : CrosshairOverlay -> CrosshairOverlay := set_visible true.
Definition hide : CrosshairOverlay -> CrosshairOverlay := set_visible false.

(** What [paintEvent] asks of the painter *)
Inductive paint_op : Type :=
| setPen (pen_color : QColor) (pen_width : Z)
| setBrush (brush_color : QColor)
| drawEllipse (x y w h : Z).        (* [drawEllipse(QRect(x, y, w, h))] *)

(** [QPen.setWidth(w)] on a pen of width [current]: a width below 0 or
    from 32768 up is refused with a warning and the pen keeps its width. *)
Definition QPen_setWidth (w current : Z) : Z :=
  if (0 <=? w) && (w <? 32768) then w else current.

(** [CrosshairOverlay.paintEvent]; [QPen(color)] is a pen of width 1. *)
Definition paintEvent (o : CrosshairOverlay) : result (list paint_op) :=
  pen_color <- QColor4 (PInt 0) (PInt 0) (PInt 0) (transparency o) ;;
  pen_width <- sip_int (thickness o) ;;
  color_with_transparency <-
    QColor4 (PInt (red (color o))) (PInt (green (color o)))
            (PInt (blue (color o))) (transparency o) ;;
  let screen_width := width o in
  let screen_height := height o in
  let center_x := screen_width / 2 in
  let center_y := screen_height / 2 in
  dot_radius <- py_int (size o) ;;
  x <- c_int (center_x - dot_radius) ;;
  y <- c_int (center_y - dot_radius) ;;
  w <- c_int (dot_radius * 2) ;;
  h <- c_int (dot_radius * 2) ;;
  Ok [ setPen pen_color (QPen_setWidth pen_width 1);
       setBrush color_with_transparency;
       drawEllipse x y w h ].

(** [CrosshairOverlay.set_crosshair_properties]; [self.update()] schedules
    a [paintEvent], which reads the attributes set here. *)
Definition set_crosshair_properties (size thickness : pyval) (color : QColor)
  (transparency : pyval) (o : CrosshairOverlay) : CrosshairOverlay :=
  {| size := size; thickness := thickness; color := color;
     transparency := transparency; width := width o; height := height o;
     visible := visible o |}.

(** ** The settings dialog *)

Record SettingsWindow : Type := {
  ident : nat;               (* which dialog object this is *)
  size_slider : QSlider;
  thickness_slider : QSlider;
  transparency_slider : QSlider;
  held_color : QColor;       (* [self.color] *)
  shown : bool
}.

(** A slider as [SettingsWindow.__init__] sets it up: [setMinimum],
    [setMaximum], then [setValue] with an attribute of the overlay.  The
    slider is connected to [update_settings] after that. *)
Definition make_slider (lo hi : Z) (v : pyval) : result QSlider :=
  let s := setMaximum hi (setMinimum lo QSlider_new) in
  v' <- sip_int v ;;
  Ok (setValue v' s).

(** [SettingsWindow.__init__(overlay)]; a dialog is hidden until shown. *)
Definition SettingsWindow_init (id : nat) (o : CrosshairOverlay)
  : result SettingsWindow :=
  size_slider <- make_slider 1 20 (size o) ;;
  thickness_slider <- make_slider 1 10 (thickness o) ;;
  transparency_slider <- make_slider 0 255 (transparency o) ;;
  Ok {| ident := id;
        size_slider := size_slider;
        thickness_slider := thickness_slider;
        transparency_slider := transparency_slider;
        held_color := color o;
        shown := false |}.

Definition set_shown (b : bool) (d : SettingsWindow) : SettingsWindow :=
  {| ident := ident d; size_slider := size_slider d;
     thickness_slider := thickness_slider d;
     transparency_slider := transparency_slider d;
     held_color := held_color d; shown := b |}.

Definition set_held_color (c : QColor) (d : SettingsWindow) : SettingsWindow :=
  {| ident := ident d; size_slider := size_slider d;
     thickness_slider := thickness_slider d;
     transparency_slider := transparency_slider d;
     held_color := c; shown := shown d |}.

Inductive slider_id : Type := SizeSlider | ThicknessSlider | TransparencySlider.

Definition get_slider (which : slider_id) (d : SettingsWindow) : QSlider :=
  match which with
  | SizeSlider => size_slider d
  | ThicknessSlider => thickness_slider d
  | TransparencySlider => transparency_slider d
  end.

Definition set_slider (which : slider_id) (s : QSlider) (d : SettingsWindow)
  : SettingsWindow :=
  {| ident := ident d;
     size_slider := match which with SizeSlider => s | _ => size_slider d end;
     thickness_slider :=
       match which with ThicknessSlider => s | _ => thickness_slider d end;
     transparency_slider :=
       match which with TransparencySlider => s
                   | _ => transparency_slider d end;
     held_color := held_color d; shown := shown d |}.

(** ** The tray controller and the state of the application *)

Record SystemTrayIcon : Type := {
  is_overlay_visible : bool;
  toggle_action_text : pystr;               (* [self.toggle_action.text()] *)
  settings_window : option SettingsWindow   (* unset until the first open *)
}.

(** The objects of the running program: the settings file, the overlay
    that the dialog and the tray icon both refer to, the tray icon with the
    dialog it holds, the number of dialogs constructed so far, and the code
    given to [QApplication.exit] once the event loop was asked to stop. *)
Record world : Type := {
  fs : disk;
  overlay : CrosshairOverlay;
  tray_icon : SystemTrayIcon;
  dialogs_made : nat;
  exit_requested : option Z
}.

Definition with_fs (d : disk) (w : world) : world :=
  {| fs := d; overlay := overlay w; tray_icon := tray_icon w;
     dialogs_made := dialogs_made w; exit_requested := exit_requested w |}.

Definition with_overlay (o : CrosshairOverlay) (w : world) : world :=
  {| fs := fs w; overlay := o; tray_icon := tray_icon w;
     dialogs_made := dialogs_made w; exit_requested := exit_requested w |}.

Definition with_tray (t : SystemTrayIcon) (w : world) : world :=
  {| fs := fs w; overlay := overlay w; tray_icon := t;
     dialogs_made := dialogs_made w; exit_requested := exit_requested w |}.

Definition with_dialog (d : SettingsWindow) (w : world) : world :=
  with_tray {| is_overlay_visible := is_overlay_visible (tray_icon w);
               toggle_action_text := toggle_action_text (tray_icon w);
               settings_window := Some d |} w.

(** A program on the settings file, run in the application. *)
Definition on_disk {A} (m : prog disk A) : prog world A :=
  fun w => let (d, r) := m (fs w) in (with_fs d w, r).

(** [SettingsWindow.update_settings] *)
Definition update_settings (d : SettingsWindow) : prog world unit :=
  let size := value (size_slider d) in
  let thickness := value (thickness_slider d) in
  let transparency := value (transparency_slider d) in
  modify (fun w =>
    with_overlay (set_crosshair_properties (PInt size) (PInt thickness)
                    (held_color d) (PInt transparency) (overlay w)) w).

(** The user moves a slider of the dialog to [pos]: the slider takes the
    value, within its range, and emits [valueChanged] if the value is new. *)
Definition slider_moved (which : slider_id) (pos : Z) (d : SettingsWindow)
  : prog world unit :=
  let s := get_slider which d in
  let s' := setValue pos s in
  let d' := set_slider which s' d in
  modify (with_dialog d') ;;;
  if value s' =? value s then ret tt else update_settings d'.

(** [SettingsWindow.open_color_dialog], [picked] being what
    [QColorDialog.getColor] returns: the colour chosen, or an invalid one
    when the prompt is dismissed. *)
Definition open_color_dialog (picked : QColor) (d : SettingsWindow)
  : prog world unit :=
  if isValid picked then
    let d' := set_held_color picked d in
    modify (with_dialog d') ;;;
    update_settings d'
  else ret tt.

(** [SettingsWindow.apply_settings] *)
Definition apply_settings (d : SettingsWindow) : prog world unit :=
  update_settings d ;;;
  w <~ get_state ;;
  on_disk (save_settings (size (overlay w)) (thickness (overlay w))
             (color (overlay w)) (transparency (overlay w))) ;;;
  modify (with_dialog (set_shown false d)).

(** [SystemTrayIcon.toggle_overlay] *)
Definition toggle_overlay : prog world unit :=
  modify (fun w =>
    let t := tray_icon w in
    let '(o', label) :=
      if is_overlay_visible t then (hide (overlay w), u "Show Crosshair")
      else (show (overlay w), u "Hide Crosshair") in
    with_tray {| is_overlay_visible := negb (is_overlay_visible t);
                 toggle_action_text := label;
                 settings_window := settings_window t |}
      (with_overlay o' w)).

(** [SystemTrayIcon.open_settings] *)
Definition open_settings : prog world unit :=
  w <~ get_state ;;
  modify (fun w =>
    {| fs := fs w; overlay := overlay w; tray_icon := tray_icon w;
       dialogs_made := S (dialogs_made w);
       exit_requested := exit_requested w |}) ;;;
  d <~ lift (SettingsWindow_init (dialogs_made w) (overlay w)) ;;
  modify (with_dialog d) ;;;
  modify (with_dialog (set_shown true d)).

Inductive ActivationReason : Type :=
| Unknown | Context | DoubleClick | Trigger | MiddleClick.

(** [SystemTrayIcon.on_tray_icon_activated] *)
Definition on_tray_icon_activated (reason : ActivationReason)
  : prog world unit :=
  match reason with
  | Trigger => toggle_overlay
  | _ => ret tt
  end.

(** [SystemTrayIcon.exit_app]; [app.quit()] is [exit(0)]. *)
Definition exit_app : prog world unit :=
  modify (fun w => with_overlay (hide (overlay w)) w) ;;;
  modify (fun w =>
    {| fs := fs w; overlay := overlay w; tray_icon := tray_icon w;
       dialogs_made := dialogs_made w; exit_requested := Some 0 |}).

(** ** The entry point *)

(** What the program finds when it starts. *)
Record env : Type := {
  tray_available : bool;         (* [QSystemTrayIcon.isSystemTrayAvailable()] *)
  icon_exists : bool;            (* [os.path.exists(resource_path("dot.ico"))] *)
  screen_width : Z;
  screen_height : Z;
  initial_disk : disk
}.

(** [SystemTrayIcon.__init__]: the menu, then the icon or [sys.exit(1)]. *)
Definition SystemTrayIcon_init (e : env) : result SystemTrayIcon :=
  let t := {| is_overlay_visible := true;
              toggle_action_text := u "Hide Crosshair";
              settings_window := None |} in
  if icon_exists e then Ok t else Raise (SystemExit (Some 1)).

(** The statements of [__main__] before the event loop.  Showing the
    overlay makes Qt paint it; the painting is kept apart, in
    [paintEvent], and is not a step of [startup]. *)
Definition startup (e : env) : result world :=
  if negb (tray_available e) then Raise (SystemExit None)
  else
    s <- load_settings (initial_disk e) ;;
    let '(size, thickness, color, transparency) := s in
    let overlay :=
      CrosshairOverlay_init (screen_width e) (screen_height e)
        size thickness color transparency in
    let overlay := show overlay in
    tray_icon <- SystemTrayIcon_init e ;;
    Ok {| fs := initial_disk e; overlay := overlay; tray_icon := tray_icon;
          dialogs_made := 0%nat; exit_requested := None |}.

(** What the user does while the event loop runs.  The events of the
    dialog reach the dialog the tray icon holds. *)
Inductive event : Type :=
| ToggleClicked                              (* the first menu item *)
| SettingsClicked                            (* the menu item Settings *)
| ExitClicked                                (* the menu item Exit *)
| TrayActivated (reason : ActivationReason)  (* a click on the tray icon *)
| SliderMoved (which : slider_id) (pos : Z)
| ColorPicked (picked : QColor)              (* the Choose Color button *)
| ApplyClicked.

Definition on_dialog (f : SettingsWindow -> prog world unit)
  : prog world unit :=
  w <~ get_state ;;
  match settings_window (tray_icon w) with
  | Some d => if shown d then f d else ret tt
  | None => ret tt
  end.

(** The slot an event runs. *)
Definition handle (ev : event) : prog world unit :=
  match ev with
  | ToggleClicked => toggle_overlay
  | SettingsClicked => open_settings
  | ExitClicked => exit_app
  | TrayActivated reason => on_tray_icon_activated reason
  | SliderMoved which pos => on_dialog (slider_moved which pos)
  | ColorPicked picked => on_dialog (open_color_dialog picked)
  | ApplyClicked => on_dialog apply_settings
  end.

(** How the process ends, if it does.  An exception that escapes a slot
    does not reach [__main__]: PyQt5 aborts the process. *)
Inductive outcome : Type :=
| Exited (code : Z)        (* [sys.exit] or an exception at top level *)
| Aborted (e : exn)        (* an exception escaped a slot *)
| Running (w : world).     (* still in the event loop *)

(** The exit status of an exception that reaches the top level. *)
Definition exit_status (e : exn) : Z :=
  match e with
  | SystemExit None => 0
  | SystemExit (Some n) => n
  | _ => 1
  end.

(** [app.exec_()]: slots run one after the other until one has asked the
    loop to stop; [exec_] then returns the code it was given.  Between the
    slots Qt paints the visible overlay with [paintEvent], which is kept
    apart: the loop is that of the program as long as the overlay
    paints. *)
Fixpoint exec_ (w : world) (evs : list event) : outcome :=
  match exit_requested w with
  | Some code => Exited (exit_status (SystemExit (Some code)))
  | None =>
      match evs with
      | [] => Running w
      | ev :: rest =>
          match handle ev w with
          | (w', Ok _) => exec_ w' rest
          | (_, Raise e) => Aborted e
          end
      end
  end.

(** [__main__] *)
Definition main (e : env) (evs : list event) : outcome :=
  match startup e with
  | Raise x => Exited (exit_status x)
  | Ok w => exec_ w evs
  end.

(** Slots run one after the other, up to the first exception. *)
Fixpoint run_events (evs : list event) : prog world unit :=
  match evs with
  | [] => ret tt
  | ev :: rest => handle ev ;;; run_events rest
  end.

(** ** The vocabulary of the properties *)

(** A character that cannot continue a number. *)
Definition ends_number (rest : pystr) : Prop :=
  match rest with
  | [] => True
  | c :: _ => is_digit c = false /\ c <> 46%N /\ c <> 101%N /\ c <> 69%N
  end.

(** A character that [scanstring] copies as it is. *)
Definition plain (c : N) : bool :=
  negb (c =? 34)%N && negb (c =? 92)%N && negb (c <? 32)%N.

(** The text of a pair: the key without its opening quote, the colon, the
    space and what follows. *)
Definition pair_text (key : string) (after : pystr) : pystr :=
  u key ++ 34%N :: 58%N :: 32%N :: after.

(** A settings record whose six numbers are integers. *)
Definition int_settings (s t r g b a : Z) : pyval :=
  PDict [ (u "size", PInt s);
          (u "thickness", PInt t);
          (u "color", PDict [ (u "r", PInt r); (u "g", PInt g);
                              (u "b", PInt b) ]);
          (u "transparency", PInt a) ].

(** A settings file that holds [t], on a device with room for [room]
    characters. *)
Definition disk_holding (t : pystr) (room : nat) : disk :=
  {| file := Some t; readable := true; writable := true; capacity := room |}.

(** No settings file yet. *)
Definition empty_disk (room : nat) : disk :=
  {| file := None; readable := true; writable := true; capacity := room |}.

(** The ranges of the appearance: the attribute is an integer between
    [lo] and [hi]. *)
Definition in_range (lo hi : Z) (v : pyval) : bool :=
  match v with
  | PInt z => (lo <=? z) && (z <=? hi)
  | _ => false
  end.

(** The components of a colour are between 0 and 255. *)
Definition QColor_wf (c : QColor) : bool :=
  channel_ok (red c) && channel_ok (green c) && channel_ok (blue c)
  && channel_ok (alpha c).

Definition appearance_ok (o : CrosshairOverlay) : bool :=
  in_range 1 20 (size o) && in_range 1 10 (thickness o)
  && QColor_wf (color o) && in_range 0 255 (transparency o).

(** A slider with the range [lo..hi]. *)
Definition slider_ok (lo hi : Z) (s : QSlider) : Prop :=
  minimum s = lo /\ maximum s = hi /\ lo <= value s <= hi.

(** A dialog as [SettingsWindow.__init__] and its slots leave it. *)
Definition dialog_ok (d : SettingsWindow) : Prop :=
  slider_ok 1 20 (size_slider d) /\ slider_ok 1 10 (thickness_slider d)
  /\ slider_ok 0 255 (transparency_slider d)
  /\ QColor_wf (held_color d) = true.

(** The flag and the label of the tray icon agree with the overlay. *)
Definition tray_synced (w : world) : Prop :=
  is_overlay_visible (tray_icon w) = visible (overlay w)
  /\ toggle_action_text (tray_icon w)
     = (if visible (overlay w) then u "Hide Crosshair"
        else u "Show Crosshair").

(** What the toolkit can deliver: the colour prompt returns a colour
    whose components are in range. *)
Definition event_ok (ev : event) : Prop :=
  match ev with
  | ColorPicked c => QColor_wf c = true
  | _ => True
  end.

(** The states of the running application: the state after start-up, and
    the state after any slot that returned while the event loop was
    running. *)
Inductive reachable : world -> Prop :=
| reachable_startup (e : env) (w : world) :
    startup e = Ok w -> reachable w
| reachable_step (w w' : world) (ev : event) :
    reachable w -> exit_requested w = None -> event_ok ev ->
    handle ev w = (w', Ok tt) -> reachable w'.

(** What holds in every reachable state. *)
Record inv (w : world) : Prop := {
  inv_color : QColor_wf (color (overlay w)) = true;
  inv_tray : exit_requested w = None -> tray_synced w;
  inv_dialog : forall d, settings_window (tray_icon w) = Some d ->
               dialog_ok d /\ (ident d < dialogs_made w)%nat
}.

(** The two ways of toggling the overlay: the menu item, and a click on
    the tray icon. *)
Definition is_toggle (ev : event) : Prop :=
  ev = ToggleClicked \/ ev = TrayActivated Trigger.

(** The events that make the dialog push its values to the overlay. *)
Definition pushes_values (ev : event) (d : SettingsWindow) : Prop :=
  match ev with
  | SliderMoved which pos =>
      value (setValue pos (get_slider which d)) <> value (get_slider which d)
  | ColorPicked c => isValid c = true
  | ApplyClicked => True
  | _ => False
  end.

(** The slots of the dialog. *)
Definition dialog_slot (ev : event) : SettingsWindow -> prog world unit :=
  match ev with
  | SliderMoved which pos => slider_moved which pos
  | ColorPicked picked => open_color_dialog picked
  | ApplyClicked => apply_settings
  | _ => fun _ => ret tt
  end.

(** What fits a C [int]. *)
Definition fits_c_int (z : Z) : Prop := -2147483648 <= z <= 2147483647.

(** An integer that CPython writes as decimal text and reads back: from
    version 3.11 on [int.__repr__] and [int()] refuse more than 4300
    digits, the default of [sys.get_int_max_str_digits()].  Up to that
    limit [str_of_int] and [int_of_digits] are what they do. *)
Definition int_str_ok (z : Z) : Prop := Z.abs z < 10 ^ 4300.

(** The overlay can be painted: [paintEvent] returns. *)
Definition paints (o : CrosshairOverlay) : Prop :=
  exists ops, paintEvent o = Ok ops.

(** The geometry of a screen, as Qt reports it. *)
Definition screen_ok (o : CrosshairOverlay) : Prop :=
  0 <= width o <= 2147483647 /\ 0 <= height o <= 2147483647.

(** The environment of the examples: a tray, the icon, a screen of 1920 by
    1080, and the given settings file. *)
Definition env_with (d : disk) : env :=
  {| tray_available := true; icon_exists := true;
     screen_width := 1920; screen_height := 1080; initial_disk := d |}.

(** The state in which [startup] leaves the application, for a file from
    which [load_settings] returns the given values. *)
Definition started (d : disk) (size thickness : pyval) (color : QColor)
  (transparency : pyval) : world :=
  {| fs := d;
     overlay := show (CrosshairOverlay_init 1920 1080 size thickness color
                        transparency);
     tray_icon := {| is_overlay_visible := true;
                     toggle_action_text := u "Hide Crosshair";
                     settings_window := None |};
     dialogs_made := 0%nat;
     exit_requested := None |}.

(** A settings file whose size is out of range. *)
Definition oversized_disk : disk :=
  disk_holding
    (text "{'size': 500, 'thickness': 2, 'color': {'r': 255, 'g': 255, 'b': 255}, 'transparency': 255}")
    4096.

Definition oversized_world : world :=
  started oversized_disk (PInt 500) (PInt 2) (QColor_rgba 255 255 255 255)
    (PInt 255).

(** No settings file: the defaults. *)
Definition default_world : world :=
  started (empty_disk 4096) (PInt 3) (PInt 2) (QColor_rgba 255 255 255 255)
    (PInt 255).

(** * Properties *)

(** ** The JSON text of a settings record *)

(** *** Decimal numerals *)

Lemma digits_uint_chars (d : uint) : digits_uint (uint_chars d) = d.
Proof. induction d; simpl; unfold uint_digit; simpl; congruence. Qed.

Lemma is_digit_uint_chars (d : uint) :
  Forall (fun c => is_digit c = true) (uint_chars d).
Proof. induction d; simpl; constructor; auto. Qed.

(** The numeral of a positive number starts with a digit that is not 0. *)
Lemma to_uint_pos_head (p : positive) :
  exists c cs, uint_chars (N.to_uint (Npos p)) = c :: cs
               /\ is_digit c = true /\ c <> 48%N.
Proof.
  pose proof (DecimalN.Unsigned.to_of (N.to_uint (Npos p))) as H.
  rewrite DecimalN.Unsigned.of_to in H.
  assert (Hnz : N.to_uint (Npos p) <> zero).
  { intro E. apply (f_equal N.of_uint) in E.
    rewrite DecimalN.Unsigned.of_to in E. discriminate E. }
  destruct (N.to_uint (Npos p)) as [|d|d|d|d|d|d|d|d|d|d] eqn:E;
    try (eexists; eexists; simpl; split;
         [reflexivity|split; [reflexivity|discriminate]]).
  - exfalso. symmetry in H. revert H. apply unorm_nonnil.
  - exfalso. unfold unorm in H. rewrite nzhead_D0 in H.
    destruct (nzhead d) as [|d'|d'|d'|d'|d'|d'|d'|d'|d'|d'] eqn:En;
      try discriminate H.
    + injection H as Hd. subst d. apply Hnz. reflexivity.
    + exact (nzhead_nonzero d d' En).
Qed.

Lemma int_of_digits_to_uint (n : N) :
  int_of_digits (uint_chars (N.to_uint n)) = Z.of_N n.
Proof.
  unfold int_of_digits.
  now rewrite digits_uint_chars, DecimalN.Unsigned.of_to.
Qed.

(** A decimal numeral starts with a digit or a minus sign. *)
Lemma str_of_int_head (z : Z) :
  exists c cs, str_of_int z = c :: cs /\ (is_digit c = true \/ c = 45%N).
Proof.
  destruct z as [|p|p]; simpl.
  - eexists; eexists; split; [reflexivity|left; reflexivity].
  - destruct (to_uint_pos_head p) as (c & cs & E & Hd & _).
    exists c, cs. split; [exact E|left; exact Hd].
  - eexists; eexists; split; [reflexivity|right; reflexivity].
Qed.

Lemma skip_ws_int (z : Z) (rest : pystr) :
  skip_ws (str_of_int z ++ rest) = str_of_int z ++ rest.
Proof.
  destruct (str_of_int_head z) as (c & cs & E & Hc). rewrite E.
  cbn [List.app skip_ws].
  replace (is_ws c) with false; [reflexivity|].
  unfold is_ws, is_digit in *.
  destruct Hc as [Hc| ->]; [|reflexivity].
  apply andb_prop in Hc. destruct Hc as [Hc _]. apply N.leb_le in Hc.
  symmetry. repeat (apply orb_false_intro); apply N.eqb_neq; lia.
Qed.

(** The scanners on [str_of_int z ++ rest], when [rest] cannot continue
    the number. *)
Section Numerals.

Variable rest : pystr.
Hypothesis Hrest : ends_number rest.

Lemma scan_digits_app (ds : pystr) :
  Forall (fun c => is_digit c = true) ds ->
  scan_digits (ds ++ rest) = (ds, rest).
Proof.
  intros Hds. induction Hds as [|c ds Hc _ IH]; simpl.
  - destruct rest as [|c r]; [reflexivity|].
    simpl. destruct Hrest as [-> _]. reflexivity.
  - rewrite Hc, IH. reflexivity.
Qed.

Lemma match_frac_end : match_frac rest = ([], rest).
Proof.
  destruct rest as [|c r]; [reflexivity|]. destruct Hrest as (_ & H & _).
  apply N.eqb_neq in H. simpl. now rewrite H.
Qed.

Lemma match_exp_end : match_exp rest = ([], rest).
Proof.
  destruct rest as [|c r]; [reflexivity|].
  destruct Hrest as (_ & _ & H1 & H2).
  apply N.eqb_neq in H1, H2. simpl. now rewrite H1, H2.
Qed.

Lemma match_integer_pos (p : positive) :
  match_integer (uint_chars (N.to_uint (Npos p)) ++ rest)
  = Some (uint_chars (N.to_uint (Npos p)), rest).
Proof.
  destruct (to_uint_pos_head p) as (c & cs & E & Hd & Hz).
  pose proof (scan_digits_app _ (is_digit_uint_chars (N.to_uint (Npos p))))
    as Hs.
  rewrite E in *. cbn [List.app] in *. unfold match_integer.
  apply N.eqb_neq in Hz. rewrite Hz, Hd, Hs. reflexivity.
Qed.

Lemma match_number_str_of_int (z : Z) :
  exists neg ds,
    match_number (str_of_int z ++ rest) = Some (neg, ds, [], [], rest)
    /\ (if neg then - int_of_digits ds else int_of_digits ds) = z.
Proof.
  unfold match_number. destruct z as [|p|p].
  - exists false, [48%N]. simpl. rewrite match_frac_end, match_exp_end.
    split; reflexivity.
  - exists false, (uint_chars (N.to_uint (Npos p))).
    destruct (to_uint_pos_head p) as (c & cs & E & Hd & Hz).
    assert (Hs : match_sign (str_of_int (Zpos p) ++ rest)
                 = (false, str_of_int (Zpos p) ++ rest)).
    { unfold str_of_int. rewrite E. simpl.
      destruct (N.eqb_spec c 45); [subst c; discriminate Hd|reflexivity]. }
    rewrite Hs. unfold str_of_int.
    rewrite match_integer_pos, match_frac_end, match_exp_end.
    split; [reflexivity|]. now rewrite int_of_digits_to_uint.
  - exists true, (uint_chars (N.to_uint (Npos p))).
    unfold str_of_int. cbn [List.app match_sign]. simpl N.eqb. cbv iota.
    rewrite match_integer_pos, match_frac_end, match_exp_end.
    split; [reflexivity|]. now rewrite int_of_digits_to_uint.
Qed.

(** [scan_once] on a decimal numeral *)
Lemma scan_once_int (fuel : nat) (z : Z) :
  scan_once (S fuel) (str_of_int z ++ rest) = Scanned (PInt z) rest.
Proof.
  destruct (match_number_str_of_int z) as (neg & ds & Hm & Hz).
  destruct (str_of_int_head z) as (c & cs & E & Hc).
  rewrite E in *. cbn [List.app] in *.
  assert (Hne : (c =? 34)%N = false /\ (c =? 123)%N = false
                /\ (c =? 91)%N = false /\ (c =? 110)%N = false
                /\ (c =? 116)%N = false /\ (c =? 102)%N = false).
  { unfold is_digit in Hc.
    repeat split; apply N.eqb_neq; intros ->;
      destruct Hc as [Hc|Hc]; discriminate Hc. }
  destruct Hne as (H1 & H2 & H3 & H4 & H5 & H6).
  cbn [scan_once]. rewrite H1, H2, H3. unfold scan_literal.
  change (strip_prefix (u "null") (c :: cs ++ rest)) with
    (if (110 =? c)%N then strip_prefix (u "ull") (cs ++ rest) else None).
  change (strip_prefix (u "true") (c :: cs ++ rest)) with
    (if (116 =? c)%N then strip_prefix (u "rue") (cs ++ rest) else None).
  change (strip_prefix (u "false") (c :: cs ++ rest)) with
    (if (102 =? c)%N then strip_prefix (u "alse") (cs ++ rest) else None).
  rewrite (N.eqb_sym 110), (N.eqb_sym 116), (N.eqb_sym 102), H4, H5, H6.
  rewrite Hm, Hz. reflexivity.
Qed.

(** the same after the space that follows a colon *)
Lemma scan_int_value (fuel : nat) (z : Z) :
  scan_once (S fuel) (skip_ws (32%N :: str_of_int z ++ rest))
  = Scanned (PInt z) rest.
Proof.
  cbn [skip_ws is_ws N.eqb Pos.eqb orb].
  rewrite skip_ws_int. apply scan_once_int.
Qed.

End Numerals.

Lemma ends_number_comma (r : pystr) : ends_number (44%N :: r).
Proof. simpl. repeat split; discriminate. Qed.

Lemma ends_number_brace (r : pystr) : ends_number (125%N :: r).
Proof. simpl. repeat split; discriminate. Qed.

(** *** Objects *)

Lemma scanstring_plain (key rest : pystr) :
  forallb plain key = true ->
  scanstring (key ++ 34%N :: rest) = Some (key, rest).
Proof.
  induction key as [|c key IH]; intros H; [reflexivity|].
  simpl in H. apply andb_prop in H. destruct H as [Hc Hk].
  unfold plain in Hc.
  apply andb_prop in Hc. destruct Hc as [Hc H3].
  apply andb_prop in Hc. destruct Hc as [H1 H2].
  apply negb_true_iff in H1, H2, H3.
  cbn [List.app scanstring]. rewrite H1, H2, H3, (IH Hk). reflexivity.
Qed.

(** [scan_once] at the start of an object that is not empty *)
Lemma scan_once_object (fuel : nat) (s : pystr) :
  scan_once (S fuel) (123%N :: 34%N :: s) = object_pairs fuel s [].
Proof. reflexivity. Qed.

(** One pair of an object, followed by another pair. *)
Lemma object_pairs_next (fuel : nat) (key vtext : pystr) (v : pyval)
  (more : pystr) (acc : list (pystr * pyval)) :
  forallb plain key = true ->
  scan_once fuel (skip_ws vtext) = Scanned v (44%N :: 32%N :: 34%N :: more) ->
  object_pairs (S fuel) (key ++ 34%N :: 58%N :: vtext) acc
  = object_pairs fuel more ((key, v) :: acc).
Proof.
  intros Hk Hv. cbn [object_pairs]. rewrite (scanstring_plain _ _ Hk).
  cbn [skip_ws is_ws N.eqb Pos.eqb orb]. rewrite Hv. reflexivity.
Qed.

(** The last pair of an object. *)
Lemma object_pairs_last (fuel : nat) (key vtext : pystr) (v : pyval)
  (more : pystr) (acc : list (pystr * pyval)) :
  forallb plain key = true ->
  scan_once fuel (skip_ws vtext) = Scanned v (125%N :: more) ->
  object_pairs (S fuel) (key ++ 34%N :: 58%N :: vtext) acc
  = Scanned (PDict (dict_of_pairs (List.rev ((key, v) :: acc)))) more.
Proof.
  intros Hk Hv. cbn [object_pairs]. rewrite (scanstring_plain _ _ Hk).
  cbn [skip_ws is_ws N.eqb Pos.eqb orb]. rewrite Hv. reflexivity.
Qed.

(** One step of [object_pairs] over a pair whose value [scan] reads. *)
Ltac next_pair key v scan :=
  erewrite (object_pairs_next _ (u key) _ v); [|reflexivity|scan].
Ltac last_pair key v scan :=
  erewrite (object_pairs_last _ (u key) _ v); [|reflexivity|scan].
Ltac scan_int_before c := apply scan_int_value, c.

(** *** The settings record *)

Lemma json_dumps_int_settings (s t r g b a : Z) :
  json_dumps (int_settings s t r g b a)
  = text "{'size': " ++ str_of_int s ++ text ", 'thickness': " ++ str_of_int t
    ++ text ", 'color': {'r': " ++ str_of_int r ++ text ", 'g': "
    ++ str_of_int g ++ text ", 'b': " ++ str_of_int b
    ++ text "}, 'transparency': " ++ str_of_int a ++ text "}".
Proof.
  unfold int_settings. cbn -[str_of_int].
  repeat (rewrite <- ?app_assoc; cbn [List.app]). reflexivity.
Qed.

(** The object of the three channels, as [json_dumps] writes it. *)
Lemma scan_once_channels (fuel : nat) (r g b : Z) (more : pystr) :
  scan_once (5 + fuel)
    (text "{'r': " ++ str_of_int r ++ text ", 'g': " ++ str_of_int g
     ++ text ", 'b': " ++ str_of_int b ++ 125%N :: more)
  = Scanned (PDict [(u "r", PInt r); (u "g", PInt g); (u "b", PInt b)]) more.
Proof.
  change (5 + fuel)%nat with (S (S (S (S (S fuel))))).
  change (text "{'r': " ++ ?x) with (123%N :: 34%N :: pair_text "r" x).
  change (text ", 'g': " ++ ?x)
    with (44%N :: 32%N :: 34%N :: pair_text "g" x).
  change (text ", 'b': " ++ ?x)
    with (44%N :: 32%N :: 34%N :: pair_text "b" x).
  unfold pair_text. rewrite scan_once_object.
  next_pair "r"%string (PInt r) ltac:(scan_int_before ends_number_comma).
  next_pair "g"%string (PInt g) ltac:(scan_int_before ends_number_comma).
  last_pair "b"%string (PInt b) ltac:(scan_int_before ends_number_brace).
  reflexivity.
Qed.

Lemma scan_once_int_settings (fuel : nat) (s t r g b a : Z) :
  scan_once (9 + fuel) (json_dumps (int_settings s t r g b a))
  = Scanned (int_settings s t r g b a) [].
Proof.
  rewrite json_dumps_int_settings.
  change (9 + fuel)%nat with (S (S (S (S (5 + fuel))))).
  change (text "{'size': " ++ ?x) with (123%N :: 34%N :: pair_text "size" x).
  change (text ", 'thickness': " ++ ?x)
    with (44%N :: 32%N :: 34%N :: pair_text "thickness" x).
  change (text ", 'color': {'r': " ++ ?x)
    with (44%N :: 32%N :: 34%N :: pair_text "color" (text "{'r': " ++ x)).
  change (text "}, 'transparency': " ++ ?x)
    with (125%N :: 44%N :: 32%N :: 34%N :: pair_text "transparency" x).
  unfold pair_text. rewrite scan_once_object.
  next_pair "size"%string (PInt s) ltac:(scan_int_before ends_number_comma).
  next_pair "thickness"%string (PInt t) ltac:(scan_int_before ends_number_comma).
  next_pair "color"%string
    (PDict [(u "r", PInt r); (u "g", PInt g); (u "b", PInt b)])
    ltac:(apply scan_once_channels).
  change (5 + fuel)%nat with (S (S (3 + fuel))).
  last_pair "transparency"%string (PInt a) ltac:(scan_int_before ends_number_brace).
  reflexivity.
Qed.

(** [json.loads(json.dumps(d))] is [d] for a settings record of integers. *)
Lemma json_loads_dumps_int_settings (s t r g b a : Z) :
  json_loads (json_dumps (int_settings s t r g b a))
  = Ok (int_settings s t r g b a).
Proof.
  unfold json_loads.
  assert (Hlen : exists n,
             List.length (json_dumps (int_settings s t r g b a))
             = (8 + n)%nat).
  { rewrite json_dumps_int_settings.
    cbn [text u list_ascii_of_string map List.app List.length].
    eexists. reflexivity. }
  destruct Hlen as [n Hn]. rewrite Hn.
  assert (Hws : skip_ws (json_dumps (int_settings s t r g b a))
                = json_dumps (int_settings s t r g b a)) by reflexivity.
  rewrite Hws.
  replace (S (2 * (8 + n))) with (9 + (8 + 2 * n))%nat by lia.
  rewrite scan_once_int_settings. reflexivity.
Qed.

(** *** The fuel of the decoder *)

Lemma skip_ws_length (s : pystr) : (List.length (skip_ws s) <= List.length s)%nat.
Proof.
  induction s as [|c s IH]; simpl; [lia|]. destruct (is_ws c); simpl; lia.
Qed.

Lemma skip_ws_cons_length (s r : pystr) (c : N) :
  skip_ws s = c :: r -> (List.length r < List.length s)%nat.
Proof. intros H. pose proof (skip_ws_length s). rewrite H in *. simpl in *. lia. Qed.

Lemma scan_digits_length (s ds r : pystr) :
  scan_digits s = (ds, r) -> (List.length r <= List.length s)%nat.
Proof.
  revert ds r. induction s as [|c s IH]; simpl; intros ds r H.
  - injection H as <- <-. simpl. lia.
  - destruct (is_digit c).
    + destruct (scan_digits s) as [ds' r'] eqn:E. injection H as <- <-.
      specialize (IH _ _ eq_refl). lia.
    + injection H as <- <-. simpl. lia.
Qed.

Lemma strip_prefix_length (p s r : pystr) :
  strip_prefix p s = Some r -> p <> [] -> (List.length r < List.length s)%nat.
Proof.
  revert s r. induction p as [|x p IH]; intros s r H Hp; [congruence|].
  destruct s as [|y s]; [discriminate H|]. simpl in H.
  destruct (x =? y)%N; [|discriminate H].
  destruct p as [|x' p'].
  - simpl in H. injection H as <-. simpl. lia.
  - specialize (IH s r H ltac:(discriminate)). simpl. lia.
Qed.

Lemma some_pair_snd {A B : Type} (a a' : A) (b b' : B) :
  Some (a, b) = Some (a', b') -> b = b'.
Proof. intros H. now injection H. Qed.

Lemma scanstring_length (s str r : pystr) :
  scanstring s = Some (str, r) -> (List.length r < List.length s)%nat.
Proof.
  remember (List.length s) as n eqn:En. revert s str r En.
  induction n as [n IH] using lt_wf_ind. intros s str r En H.
  destruct s as [|c s1]; [discriminate H|]. cbn [scanstring] in H.
  assert (Hrec : forall s' str' r', (List.length s' < n)%nat ->
            scanstring s' = Some (str', r') -> (List.length r' < List.length s')%nat).
  { intros s' str' r' Hl. exact (IH _ Hl s' str' r' eq_refl). }
  cbn [List.length] in En.
  destruct (c =? 34)%N.
  { apply some_pair_snd in H. subst r. lia. }
  destruct (c =? 92)%N.
  - destruct s1 as [|e s2]; [discriminate H|].
    destruct (e =? 117)%N.
    + destruct s2 as [|h1 [|h2 [|h3 [|h4 s3]]]]; try discriminate H.
      destruct (decode_uXXXX h1 h2 h3 h4) as [uni|]; [|discriminate H].
      assert (Hplain : forall str r,
                match scanstring s3 with
                | Some (str0, rest) => Some (uni :: str0, rest)
                | None => None
                end = Some (str, r) -> (List.length r < n)%nat).
      { intros str0 r0 Hs. destruct (scanstring s3) as [[st rt]|] eqn:E3;
          [|discriminate Hs]. apply some_pair_snd in Hs. subst r0.
        apply Hrec in E3; cbn [List.length] in *; lia. }
      destruct ((55296 <=? uni) && (uni <=? 56319))%N; [|now apply Hplain in H].
      destruct s3 as [|b1 [|b2 [|l1 [|l2 [|l3 [|l4 s4]]]]]];
        try (now apply Hplain in H).
      destruct ((b1 =? 92) && (b2 =? 117))%N; [|now apply Hplain in H].
      destruct (decode_uXXXX l1 l2 l3 l4) as [uni2|]; [|discriminate H].
      destruct ((56320 <=? uni2) && (uni2 <=? 57343))%N;
        [|now apply Hplain in H].
      destruct (scanstring s4) as [[st rt]|] eqn:E4; [|discriminate H].
      apply some_pair_snd in H. subst r. apply Hrec in E4; cbn [List.length] in *; lia.
    + destruct (escape_value e); [|discriminate H].
      destruct (scanstring s2) as [[st rt]|] eqn:E2; [|discriminate H].
      apply some_pair_snd in H. subst r. apply Hrec in E2; cbn [List.length] in *; lia.
  - destruct (c <? 32)%N; [discriminate H|].
    destruct (scanstring s1) as [[st rt]|] eqn:E1; [|discriminate H].
    apply some_pair_snd in H. subst r. apply Hrec in E1; cbn [List.length] in *; lia.
Qed.

Lemma match_number_length (s : pystr) (neg : bool) (ds frac exp rest : pystr) :
  match_number s = Some (neg, ds, frac, exp, rest) -> (List.length rest < List.length s)%nat.
Proof.
  unfold match_number.
  destruct (match_sign s) as [neg' s1] eqn:E1.
  assert (H1 : (List.length s1 <= List.length s)%nat).
  { unfold match_sign in E1. destruct s as [|c r]; [injection E1 as _ <-; lia|].
    destruct (c =? 45)%N; injection E1 as _ <-; simpl; lia. }
  destruct (match_integer s1) as [[ds' s2]|] eqn:E2; [|discriminate].
  assert (H2 : (List.length s2 < List.length s1)%nat).
  { unfold match_integer in E2. destruct s1 as [|c r]; [discriminate E2|].
    destruct (c =? 48)%N; [injection E2 as _ <-; simpl; lia|].
    destruct (is_digit c) eqn:Ed; [|discriminate E2].
    injection E2 as E2. simpl in E2. rewrite Ed in E2.
    destruct (scan_digits r) as [a b] eqn:Er. injection E2 as _ <-.
    apply scan_digits_length in Er. simpl. lia. }
  destruct (match_frac s2) as [frac' s3] eqn:E3.
  assert (H3 : (List.length s3 <= List.length s2)%nat).
  { unfold match_frac in E3. destruct s2 as [|c r]; [injection E3 as _ <-; lia|].
    destruct (c =? 46)%N; [|injection E3 as _ <-; lia].
    destruct (scan_digits r) as [[|f fs] r'] eqn:Er.
    - injection E3 as _ <-. lia.
    - injection E3 as _ <-. apply scan_digits_length in Er. simpl. lia. }
  destruct (match_exp s3) as [exp' s4] eqn:E4.
  assert (H4 : (List.length s4 <= List.length s3)%nat).
  { unfold match_exp in E4. destruct s3 as [|c r]; [injection E4 as _ <-; lia|].
    destruct ((c =? 101) || (c =? 69))%N; [|injection E4 as _ <-; lia].
    destruct (match r with
              | [] => (@nil N, r)
              | c1 :: r' =>
                  if ((c1 =? 43) || (c1 =? 45))%N then ([c1], r') else ([], r)
              end) as [sign r1] eqn:Es.
    assert (Hs : (List.length r1 <= List.length r)%nat).
    { destruct r as [|c1 r']; [injection Es as _ <-; lia|].
      destruct ((c1 =? 43) || (c1 =? 45))%N; injection Es as _ <-; simpl; lia. }
    destruct (scan_digits r1) as [[|e es] r'] eqn:Er.
    - injection E4 as _ <-. lia.
    - injection E4 as _ <-. apply scan_digits_length in Er. simpl. lia. }
  intros H. injection H as _ _ _ _ <-. lia.
Qed.

Lemma scan_literal_length (s : pystr) (v : pyval) (r : pystr) :
  scan_literal s = Scanned v r -> (List.length r < List.length s)%nat.
Proof.
  unfold scan_literal.
  destruct (strip_prefix (u "null") s) eqn:E1.
  { apply strip_prefix_length in E1; [|cbv; discriminate].
    intros H. injection H as _ <-. exact E1. }
  destruct (strip_prefix (u "true") s) eqn:E2.
  { apply strip_prefix_length in E2; [|cbv; discriminate].
    intros H. injection H as _ <-. exact E2. }
  destruct (strip_prefix (u "false") s) eqn:E3.
  { apply strip_prefix_length in E3; [|cbv; discriminate].
    intros H. injection H as _ <-. exact E3. }
  destruct (match_number s) as [[[[[neg ds] frac] exp] rest]|] eqn:Em.
  { apply match_number_length in Em.
    destruct frac, exp; intros H; injection H as _ <-; exact Em. }
  destruct (strip_prefix (u "NaN") s) eqn:E4.
  { apply strip_prefix_length in E4; [|cbv; discriminate].
    intros H. injection H as _ <-. exact E4. }
  destruct (strip_prefix (u "Infinity") s) eqn:E5.
  { apply strip_prefix_length in E5; [|cbv; discriminate].
    intros H. injection H as _ <-. exact E5. }
  destruct (strip_prefix (u "-Infinity") s) eqn:E6.
  { apply strip_prefix_length in E6; [|cbv; discriminate].
    intros H. injection H as _ <-. exact E6. }
  discriminate.
Qed.

Lemma scan_literal_fuel (s : pystr) : scan_literal s <> OutOfFuel.
Proof.
  unfold scan_literal.
  destruct (strip_prefix (u "null") s); [discriminate|].
  destruct (strip_prefix (u "true") s); [discriminate|].
  destruct (strip_prefix (u "false") s); [discriminate|].
  destruct (match_number s) as [[[[[neg ds] frac] exp] rest]|].
  { destruct frac, exp; discriminate. }
  destruct (strip_prefix (u "NaN") s); [discriminate|].
  destruct (strip_prefix (u "Infinity") s); [discriminate|].
  destruct (strip_prefix (u "-Infinity") s); discriminate.
Qed.

(** A scanner that refuses its input has not run out of fuel, and has
    nothing to say about the rest. *)
Ltac refused := split; [discriminate|intros ? ? H; discriminate H].

(** With fuel for twice the length of the input, the decoder never runs
    out of it, and a scanner that succeeds has consumed something. *)
Lemma scan_fuel (fuel : nat) :
  (forall s, (2 * List.length s < fuel)%nat ->
     scan_once fuel s <> OutOfFuel
     /\ forall v r, scan_once fuel s = Scanned v r ->
                    (List.length r < List.length s)%nat)
  /\ (forall s acc, (2 * List.length s < fuel)%nat ->
        object_pairs fuel s acc <> OutOfFuel
        /\ forall v r, object_pairs fuel s acc = Scanned v r ->
                       (List.length r < List.length s)%nat)
  /\ (forall s acc, (2 * List.length s + 1 < fuel)%nat ->
        array_items fuel s acc <> OutOfFuel
        /\ forall v r, array_items fuel s acc = Scanned v r ->
                       (List.length r < List.length s)%nat).
Proof.
  induction fuel as [|f (IHs & IHo & IHa)].
  { repeat split; intros; lia. }
  split; [|split].
  - (* scan_once *)
    intros s Hf. cbn [scan_once].
    destruct s as [|c r]; [refused|]. simpl in Hf.
    destruct (c =? 34)%N.
    { destruct (scanstring r) as [[str rest]|] eqn:E; [|refused].
      split; [discriminate|]. intros v r' H. injection H as _ <-.
      apply scanstring_length in E. simpl. lia. }
    destruct (c =? 123)%N.
    { destruct (skip_ws r) as [|c1 r1] eqn:E; [refused|].
      apply skip_ws_cons_length in E.
      destruct (c1 =? 125)%N.
      { split; [discriminate|]. intros v r' H. injection H as _ <-.
        simpl. lia. }
      destruct (c1 =? 34)%N; [|refused].
      destruct (IHo r1 [] ltac:(lia)) as [Hn Hl]. split; [exact Hn|].
      intros v r' H. apply Hl in H. simpl. lia. }
    destruct (c =? 91)%N.
    { destruct (skip_ws r) as [|c1 r1] eqn:E; [refused|].
      pose proof (skip_ws_length r) as Hle. rewrite E in Hle.
      destruct (c1 =? 93)%N.
      { split; [discriminate|]. intros v r' H. injection H as _ <-.
        simpl in *. lia. }
      destruct (IHa (c1 :: r1) [] ltac:(simpl in *; lia)) as [Hn Hl].
      split; [exact Hn|]. intros v r' H. apply Hl in H. simpl in *. lia. }
    split; [apply scan_literal_fuel|].
    intros v r' H. now apply scan_literal_length in H.
  - (* object_pairs *)
    intros s acc Hf. cbn [object_pairs].
    destruct (scanstring s) as [[key s1]|] eqn:E1; [|refused].
    apply scanstring_length in E1.
    destruct (skip_ws s1) as [|c s2] eqn:E2; [refused|].
    apply skip_ws_cons_length in E2.
    destruct (c =? 58)%N; [|refused].
    pose proof (skip_ws_length s2) as E3.
    destruct (IHs (skip_ws s2) ltac:(lia)) as [Hn Hl].
    destruct (scan_once f (skip_ws s2)) as [value s3| |] eqn:Ev;
      [|refused|exfalso; now apply Hn].
    specialize (Hl _ _ eq_refl).
    destruct (skip_ws s3) as [|c1 s4] eqn:E4; [refused|].
    apply skip_ws_cons_length in E4.
    destruct (c1 =? 125)%N.
    { split; [discriminate|]. intros v r' H. injection H as _ <-. lia. }
    destruct (c1 =? 44)%N; [|refused].
    destruct (skip_ws s4) as [|c2 s5] eqn:E5; [refused|].
    apply skip_ws_cons_length in E5.
    destruct (c2 =? 34)%N; [|refused].
    destruct (IHo s5 ((key, value) :: acc) ltac:(lia)) as [Hn' Hl'].
    split; [exact Hn'|]. intros v r' H. apply Hl' in H. lia.
  - (* array_items *)
    intros s acc Hf. cbn [array_items].
    destruct (IHs s ltac:(lia)) as [Hn Hl].
    destruct (scan_once f s) as [value s1| |] eqn:Ev;
      [|refused|exfalso; now apply Hn].
    specialize (Hl _ _ eq_refl).
    destruct (skip_ws s1) as [|c s2] eqn:E2; [refused|].
    apply skip_ws_cons_length in E2.
    destruct (c =? 93)%N.
    { split; [discriminate|]. intros v r' H. injection H as _ <-. lia. }
    destruct (c =? 44)%N; [|refused].
    pose proof (skip_ws_length s2) as E3.
    destruct (IHa (skip_ws s2) (value :: acc) ltac:(lia)) as [Hn' Hl'].
    split; [exact Hn'|]. intros v r' H. apply Hl' in H. lia.
Qed.

(** [json_loads] gives the decoder enough fuel. *)
Lemma scan_once_fuel (s : pystr) :
  scan_once (S (2 * List.length s)) (skip_ws s) <> OutOfFuel.
Proof.
  pose proof (skip_ws_length s).
  apply (proj1 (scan_fuel (S (2 * List.length s)))). lia.
Qed.

(** [json.loads] ends with a value or with [JSONDecodeError]. *)
Lemma json_loads_total (s : pystr) :
  (exists v, json_loads s = Ok v) \/ json_loads s = Raise JSONDecodeError.
Proof.
  unfold json_loads. pose proof (scan_once_fuel s) as H.
  destruct (scan_once (S (2 * List.length s)) (skip_ws s)) as [v rest| |].
  - destruct (skip_ws rest); [left; now exists v|right; reflexivity].
  - right; reflexivity.
  - now exfalso.
Qed.

(** ** The settings store *)

Lemma settings_dict_int (s t a : Z) (c : QColor) :
  settings_dict (PInt s) (PInt t) c (PInt a)
  = int_settings s t (red c) (green c) (blue c) a.
Proof. reflexivity. Qed.

Lemma c_int_channel (z : Z) : channel_ok z = true -> c_int z = Ok z.
Proof.
  unfold channel_ok, c_int. intros H. apply andb_prop in H.
  destruct H as [H1 H2]. apply Z.leb_le in H1, H2.
  replace (-2147483648 <=? z) with true by (symmetry; apply Z.leb_le; lia).
  replace (z <=? 2147483647) with true by (symmetry; apply Z.leb_le; lia).
  reflexivity.
Qed.

(** Reading back a file that holds the text of a record of integers. *)
Lemma load_settings_int_settings (d : disk) (s t r g b a : Z) :
  file d = Some (json_dumps (int_settings s t r g b a)) ->
  readable d = true ->
  channel_ok r = true -> channel_ok g = true -> channel_ok b = true ->
  load_settings d = Ok (PInt s, PInt t, QColor_rgba r g b 255, PInt a).
Proof.
  intros Hf Hr Hcr Hcg Hcb.
  unfold load_settings, load_settings_try, open_r. rewrite Hf, Hr.
  cbn [bind]. rewrite json_loads_dumps_int_settings.
  cbn -[QColor_rgba c_int]. unfold QColor3, sip_int. cbn [py_int bind].
  rewrite (c_int_channel _ Hcr), (c_int_channel _ Hcg), (c_int_channel _ Hcb).
  reflexivity.
Qed.

Lemma load_settings_missing_file (d : disk) :
  file d = None -> load_settings d = Ok default_settings.
Proof.
  intros H. unfold load_settings, load_settings_try, open_r. now rewrite H.
Qed.

Lemma channel_ok_iff (z : Z) : channel_ok z = true <-> 0 <= z <= 255.
Proof. unfold channel_ok. rewrite andb_true_iff, !Z.leb_le. tauto. Qed.

Lemma QColor_rgba_in_range (r g b a : Z) :
  channel_ok r = true -> channel_ok g = true -> channel_ok b = true ->
  channel_ok a = true ->
  QColor_rgba r g b a
  = {| isValid := true; red := r; green := g; blue := b; alpha := a |}.
Proof. intros Hr Hg Hb Ha. unfold QColor_rgba. now rewrite Hr, Hg, Hb, Ha. Qed.

(** Saving integers and a colour, then loading: the write succeeds when
    the file may be written and the record fits, and the values come
    back. *)
Lemma save_then_load (d : disk) (s t a r g b : Z) :
  channel_ok r = true -> channel_ok g = true -> channel_ok b = true ->
  writable d = true ->
  file d = None \/ readable d = true ->
  (List.length (json_dumps (int_settings s t r g b a)) <= capacity d)%nat ->
  exists d',
    save_settings (PInt s) (PInt t) (QColor_rgba r g b 255) (PInt a) d
    = (d', Ok tt)
    /\ file d' = Some (json_dumps (int_settings s t r g b a))
    /\ load_settings d' = Ok (PInt s, PInt t, QColor_rgba r g b 255, PInt a).
Proof.
  intros Hr Hg Hb Hw Hrd Hcap.
  unfold save_settings, pbind, open_w, write_close. rewrite Hw.
  rewrite settings_dict_int.
  rewrite (QColor_rgba_in_range r g b 255 Hr Hg Hb eq_refl).
  cbn [red green blue capacity readable writable file].
  apply Nat.leb_le in Hcap. rewrite Hcap.
  eexists. split; [reflexivity|]. split; [reflexivity|].
  rewrite <- (QColor_rgba_in_range r g b 255 Hr Hg Hb eq_refl).
  apply load_settings_int_settings; try assumption; [reflexivity|].
  cbn [readable]. destruct Hrd as [-> | Hrd]; [reflexivity|].
  destruct (file d); [exact Hrd|reflexivity].
Qed.

(** C2: on the valid domain (radius in 1..20, thickness in 1..10, alpha
    and the three channels in 0..255), [save_settings] followed by
    [load_settings] returns the four values that were saved, provided the
    file may be written and read and the device has room for the record. *)
Theorem save_load_roundtrip (d : disk) (radius thickness alpha r g b : Z) :
  1 <= radius <= 20 -> 1 <= thickness <= 10 -> 0 <= alpha <= 255 ->
  0 <= r <= 255 -> 0 <= g <= 255 -> 0 <= b <= 255 ->
  writable d = true ->
  file d = None \/ readable d = true ->
  (List.length (json_dumps (settings_dict (PInt radius) (PInt thickness)
                              (QColor_rgba r g b 255) (PInt alpha)))
   <= capacity d)%nat ->
  exists d',
    save_settings (PInt radius) (PInt thickness) (QColor_rgba r g b 255)
      (PInt alpha) d = (d', Ok tt)
    /\ load_settings d'
       = Ok (PInt radius, PInt thickness, QColor_rgba r g b 255, PInt alpha).
Proof.
  intros _ _ _ Hr Hg Hb Hw Hrd Hcap.
  apply channel_ok_iff in Hr, Hg, Hb.
  rewrite settings_dict_int in Hcap.
  rewrite (QColor_rgba_in_range r g b 255 Hr Hg Hb eq_refl) in Hcap.
  cbn [red green blue] in Hcap.
  destruct (save_then_load d radius thickness alpha r g b Hr Hg Hb Hw Hrd Hcap)
    as (d' & Hs & _ & Hl).
  exists d'. split; assumption.
Qed.

Lemma save_load_roundtrip_witness :
  exists d',
    save_settings (PInt 7) (PInt 4) (QColor_rgba 12 200 255 255) (PInt 128)
      (empty_disk 4096) = (d', Ok tt)
    /\ load_settings d'
       = Ok (PInt 7, PInt 4, QColor_rgba 12 200 255 255, PInt 128).
Proof.
  apply (save_load_roundtrip (empty_disk 4096) 7 4 128 12 200 255);
    try lia; try reflexivity.
  - left; reflexivity.
  - vm_compute. lia.
Defined.

(** A file without [settings.json]: the defaults *)
Example load_settings_no_file :
  load_settings (empty_disk 4096)
  = Ok (PInt 3, PInt 2,
        {| isValid := true; red := 255; green := 255; blue := 255;
           alpha := 255 |}, PInt 255).
Proof. reflexivity. Qed.

(** A record without the green channel: [KeyError], hence the defaults *)
Example load_settings_no_green :
  load_settings
    (disk_holding
       (text "{'size': 9, 'thickness': 5, 'color': {'r': 1, 'b': 3}, 'transparency': 40}")
       4096)
  = Ok default_settings.
Proof. vm_compute. reflexivity. Qed.

(** C1: [load_settings] is not total.  It catches [FileNotFoundError] and
    [KeyError] only: a file that is not a JSON document (here a record cut
    short, and an empty file) raises [JSONDecodeError], a file that may not
    be read raises [PermissionError], a document that is not an object, or
    whose colour is not one, raises [TypeError]; and a value of the wrong
    type under a key that is present is returned as it is. *)
Theorem load_settings_corrupt_file_raises :
  load_settings (disk_holding (text "{'size': 3, 'thick") 4096)
  = Raise JSONDecodeError
  /\ load_settings (disk_holding [] 4096) = Raise JSONDecodeError
  /\ load_settings
       {| file := Some (json_dumps (int_settings 3 2 255 255 255 255));
          readable := false; writable := true; capacity := 4096 |}
     = Raise PermissionError
  /\ load_settings (disk_holding (text "[3, 2, 255]") 4096) = Raise TypeError
  /\ load_settings
       (disk_holding
          (text "{'size': 3, 'thickness': 2, 'color': 7, 'transparency': 255}")
          4096)
     = Raise TypeError
  /\ load_settings
       (disk_holding
          (text "{'size': 'big', 'thickness': 2, 'color': {'r': 1, 'g': 2, 'b': 3}, 'transparency': 255}")
          4096)
     = Ok (PStr (u "big"), PInt 2, QColor_rgba 1 2 3 255, PInt 255).
Proof. repeat split; vm_compute; reflexivity. Qed.

(** C5, as stated, fails: with room for ten characters only, saving over
    a good record leaves the first ten characters of the new record, which
    is neither the new record nor the old one. *)
Lemma save_settings_not_atomic :
  let old := json_dumps (int_settings 3 2 255 255 255 255) in
  let d := disk_holding old 10 in
  let new := json_dumps (settings_dict (PInt 5) (PInt 2)
                           (QColor_rgba 255 255 255 255) (PInt 255)) in
  let out := save_settings (PInt 5) (PInt 2) (QColor_rgba 255 255 255 255)
               (PInt 255) d in
  snd out = Raise OSError
  /\ file (fst out) = Some (text "{'size': 5")
  /\ ~ (file (fst out) = Some new \/ file (fst out) = file d).
Proof.
  vm_compute. repeat split. intros [H|H]; discriminate H.
Qed.

(** C5, amended: [save_settings] writes in place.  Either the file may
    not be opened for writing, [PermissionError] is raised and nothing
    changes; or the whole record is written; or the device has no room for
    the whole record, [OSError] is raised, and the file is left with the
    characters that fitted, a strict prefix of the record, the old content
    being lost. *)
Theorem save_settings_outcomes (size thickness : pyval) (color : QColor)
  (transparency : pyval) (d : disk) :
  let record := json_dumps (settings_dict size thickness color transparency) in
  let out := save_settings size thickness color transparency d in
  (writable d = false /\ snd out = Raise PermissionError /\ fst out = d)
  \/ (writable d = true /\ (List.length record <= capacity d)%nat
      /\ snd out = Ok tt /\ file (fst out) = Some record)
  \/ (writable d = true /\ (capacity d < List.length record)%nat
      /\ snd out = Raise OSError
      /\ file (fst out) = Some (firstn (capacity d) record)
      /\ firstn (capacity d) record <> record).
Proof.
  intros record out. subst out.
  unfold save_settings, pbind, open_w, write_close.
  fold record. destruct (writable d) eqn:Hw.
  - cbn [capacity]. destruct (Nat.leb_spec (List.length record) (capacity d)) as [Hc|Hc].
    + right; left. repeat split; assumption.
    + right; right. repeat split; try assumption.
      intros E. apply (f_equal (@List.length N)) in E.
      rewrite length_firstn in E. lia.
  - left. repeat split.
Qed.

(** ** The overlay window *)

Lemma c_int_fits (z : Z) :
  -2147483648 <= z <= 2147483647 -> c_int z = Ok z.
Proof.
  intros H. unfold c_int.
  replace (-2147483648 <=? z) with true by (symmetry; apply Z.leb_le; lia).
  replace (z <=? 2147483647) with true by (symmetry; apply Z.leb_le; lia).
  reflexivity.
Qed.

Lemma QPen_setWidth_in (w current : Z) :
  0 <= w < 32768 -> QPen_setWidth w current = w.
Proof.
  intros H. unfold QPen_setWidth.
  replace (0 <=? w) with true by (symmetry; apply Z.leb_le; lia).
  replace (w <? 32768) with true by (symmetry; apply Z.ltb_lt; lia).
  reflexivity.
Qed.

(** C6: for a window of width [w] and height [h] and an appearance within
    its ranges, [paintEvent] sets a pen that is black with the alpha of the
    overlay and as wide as the thickness, sets a brush of the colour of the
    overlay with the same alpha, and draws the ellipse of the rectangle
    [(w div 2 - size, h div 2 - size, 2 * size, 2 * size)]. *)
Theorem paintEvent_draws_dot (w h sz th a : Z) (c : QColor) (vis : bool) :
  0 <= w <= 2147483647 -> 0 <= h <= 2147483647 ->
  1 <= sz <= 20 -> 1 <= th <= 10 -> 0 <= a <= 255 ->
  0 <= red c <= 255 -> 0 <= green c <= 255 -> 0 <= blue c <= 255 ->
  paintEvent {| size := PInt sz; thickness := PInt th; color := c;
                transparency := PInt a; width := w; height := h;
                visible := vis |}
  = Ok [ setPen {| isValid := true; red := 0; green := 0; blue := 0;
                   alpha := a |} th;
         setBrush {| isValid := true; red := red c; green := green c;
                     blue := blue c; alpha := a |};
         drawEllipse (w / 2 - sz) (h / 2 - sz) (2 * sz) (2 * sz) ].
Proof.
  intros Hw Hh Hsz Hth Ha Hr Hg Hb.
  assert (Hw2 : 0 <= w / 2 <= 1073741823).
  { Z.div_mod_to_equations. lia. }
  assert (Hh2 : 0 <= h / 2 <= 1073741823).
  { Z.div_mod_to_equations. lia. }
  unfold paintEvent, QColor4, sip_int.
  cbn [py_int bind transparency thickness color size width height].
  rewrite !(c_int_fits 0) by lia.
  rewrite (c_int_fits a), (c_int_fits th), (c_int_fits (red c)),
    (c_int_fits (green c)), (c_int_fits (blue c)) by lia.
  cbn [bind].
  rewrite (c_int_fits (w / 2 - sz)), (c_int_fits (h / 2 - sz)),
    (c_int_fits (sz * 2)) by lia.
  cbn [bind].
  rewrite !QColor_rgba_in_range by (apply channel_ok_iff; lia).
  rewrite (QPen_setWidth_in th 1) by lia.
  rewrite (Z.mul_comm sz 2). reflexivity.
Qed.

Lemma paintEvent_draws_dot_witness :
  paintEvent {| size := PInt 3; thickness := PInt 2;
                color := QColor_rgba 255 255 255 255;
                transparency := PInt 255; width := 1921; height := 1080;
                visible := true |}
  = Ok [ setPen {| isValid := true; red := 0; green := 0; blue := 0;
                   alpha := 255 |} 2;
         setBrush {| isValid := true; red := 255; green := 255; blue := 255;
                     alpha := 255 |};
         drawEllipse (1921 / 2 - 3) (1080 / 2 - 3) (2 * 3) (2 * 3) ].
Proof.
  apply (paintEvent_draws_dot 1921 1080 3 2 255 (QColor_rgba 255 255 255 255)
           true); simpl; lia.
Defined.

(** ** Sliders *)

Lemma qBound_in (lo v hi : Z) : lo <= hi -> lo <= qBound lo v hi <= hi.
Proof. unfold qBound. lia. Qed.

Lemma qBound_id (lo v hi : Z) : lo <= v <= hi -> qBound lo v hi = v.
Proof. unfold qBound. lia. Qed.

Lemma setValue_ok (lo hi v : Z) (s : QSlider) :
  lo <= hi -> slider_ok lo hi s -> slider_ok lo hi (setValue v s).
Proof.
  intros Hle (Hmin & Hmax & _). unfold slider_ok, setValue. simpl.
  rewrite Hmin, Hmax. auto using qBound_in.
Qed.

(** The value of a slider of the dialog, for the attribute it was made
    from. *)
Lemma make_slider_value (lo hi z : Z) :
  0 <= lo <= hi ->
  -2147483648 <= z <= 2147483647 ->
  exists s, make_slider lo hi (PInt z) = Ok s
            /\ slider_ok lo hi s /\ value s = qBound lo z hi.
Proof.
  intros Hlo Hz. unfold make_slider, sip_int. cbn [py_int bind].
  rewrite (c_int_fits z Hz). cbn [bind]. eexists. split; [reflexivity|].
  unfold slider_ok, setValue, setMaximum, setMinimum, setRange, QSlider_new,
    qBound.
  cbn [minimum maximum value]. repeat split; lia.
Qed.

Lemma make_slider_ok (lo hi : Z) (v : pyval) (s : QSlider) :
  0 <= lo <= hi ->
  make_slider lo hi v = Ok s -> slider_ok lo hi s.
Proof.
  intros Hlo. unfold make_slider. destruct (sip_int v) as [z|e]; [|discriminate].
  cbn [bind]. intros H. injection H as <-.
  unfold slider_ok, setValue, setMaximum, setMinimum, setRange, QSlider_new,
    qBound.
  cbn [minimum maximum value]. repeat split; lia.
Qed.

(** ** The slots, in closed form *)

Lemma update_settings_eq (d : SettingsWindow) (w : world) :
  update_settings d w
  = (with_overlay
       (set_crosshair_properties (PInt (value (size_slider d)))
          (PInt (value (thickness_slider d))) (held_color d)
          (PInt (value (transparency_slider d))) (overlay w)) w, Ok tt).
Proof. reflexivity. Qed.

Lemma apply_settings_eq (d : SettingsWindow) (w : world) :
  apply_settings d w
  = let w1 := fst (update_settings d w) in
    let out := save_settings (size (overlay w1)) (thickness (overlay w1))
                 (color (overlay w1)) (transparency (overlay w1)) (fs w1) in
    match snd out with
    | Ok _ => (with_dialog (set_shown false d) (with_fs (fst out) w1), Ok tt)
    | Raise e => (with_fs (fst out) w1, Raise e)
    end.
Proof.
  unfold apply_settings, pbind, get_state, on_disk, modify.
  rewrite update_settings_eq. cbn [fst].
  match goal with |- context [save_settings ?a ?b ?c ?e ?f] =>
    destruct (save_settings a b c e f) as [d' [[]|e']] end; reflexivity.
Qed.

Lemma open_settings_eq (w : world) :
  open_settings w
  = let w1 := {| fs := fs w; overlay := overlay w; tray_icon := tray_icon w;
                 dialogs_made := S (dialogs_made w);
                 exit_requested := exit_requested w |} in
    match SettingsWindow_init (dialogs_made w) (overlay w) with
    | Ok d => (with_dialog (set_shown true d) w1, Ok tt)
    | Raise e => (w1, Raise e)
    end.
Proof.
  unfold open_settings, pbind, get_state, modify, lift.
  destruct (SettingsWindow_init (dialogs_made w) (overlay w)); reflexivity.
Qed.

Lemma SettingsWindow_init_ok (id : nat) (o : CrosshairOverlay)
  (d : SettingsWindow) :
  QColor_wf (color o) = true ->
  SettingsWindow_init id o = Ok d ->
  dialog_ok d /\ ident d = id /\ held_color d = color o /\ shown d = false.
Proof.
  intros Hc. unfold SettingsWindow_init.
  destruct (make_slider 1 20 (size o)) as [s1|] eqn:E1; [|discriminate].
  destruct (make_slider 1 10 (thickness o)) as [s2|] eqn:E2; [|discriminate].
  destruct (make_slider 0 255 (transparency o)) as [s3|] eqn:E3; [|discriminate].
  cbn [bind]. intros H. injection H as <-.
  apply make_slider_ok in E1, E2, E3; try lia.
  unfold dialog_ok. cbn. auto.
Qed.

(** ** What holds in every reachable state *)

Lemma QColor_rgba_wf (r g b a : Z) : QColor_wf (QColor_rgba r g b a) = true.
Proof.
  unfold QColor_rgba.
  destruct (channel_ok r && channel_ok g && channel_ok b && channel_ok a)
    eqn:E; [exact E|reflexivity].
Qed.

Lemma QColor3_wf (r g b : pyval) (c : QColor) :
  QColor3 r g b = Ok c -> QColor_wf c = true.
Proof.
  unfold QColor3.
  destruct (sip_int r); [|discriminate].
  destruct (sip_int g); [|discriminate].
  destruct (sip_int b); [|discriminate].
  cbn [bind]. intros H. injection H as <-. apply QColor_rgba_wf.
Qed.

Lemma load_settings_color_wf (d : disk) (s t a : pyval) (c : QColor) :
  load_settings d = Ok (s, t, c, a) -> QColor_wf c = true.
Proof.
  unfold load_settings.
  assert (Hd : QColor_wf (QColor_rgba 255 255 255 255) = true) by reflexivity.
  destruct (load_settings_try d) as [[[[s' t'] c'] a']|e] eqn:E.
  - intros H. injection H as _ _ <- _.
    unfold load_settings_try in E.
    repeat match type of E with
           | bind (QColor3 ?r ?g ?b) _ = _ =>
               destruct (QColor3 r g b) eqn:Hq; cbn [bind] in E;
               [|discriminate E]
           | bind ?m _ = _ => destruct m; cbn [bind] in E; [|discriminate E]
           end.
    injection E as _ _ <- _. exact (QColor3_wf _ _ _ _ Hq).
  - destruct e; try discriminate; intros H; injection H as _ _ <- _; exact Hd.
Qed.

Lemma startup_inv (e : env) (w : world) :
  startup e = Ok w -> inv w /\ exit_requested w = None.
Proof.
  unfold startup. destruct (tray_available e); [|discriminate]. cbn [negb].
  destruct (load_settings (initial_disk e)) as [[[[s t] c] a]|] eqn:El;
    [|discriminate].
  cbn [bind]. unfold SystemTrayIcon_init.
  destruct (icon_exists e); [|discriminate]. cbn [bind].
  intros H. injection H as <-. split; [|reflexivity].
  constructor; cbn.
  - exact (load_settings_color_wf _ _ _ _ _ El).
  - intros _. split; reflexivity.
  - intros d H. discriminate H.
Qed.

(** The overlay keeps its colour well formed, and the dialog its sliders
    within their ranges, through every slot, whether it returns or
    raises. *)
Lemma toggle_overlay_inv (w : world) :
  inv w -> exit_requested w = None -> inv (fst (toggle_overlay w)).
Proof.
  intros [Hc Ht Hd] Hx. unfold toggle_overlay, modify. cbn [fst].
  destruct (is_overlay_visible (tray_icon w)) eqn:Ev; constructor; cbn.
  all: try exact Hc; try exact Hd.
  all: intros _; split; reflexivity.
Qed.

Lemma open_settings_inv (w : world) :
  inv w -> inv (fst (open_settings w)).
Proof.
  intros [Hc Ht Hd]. rewrite open_settings_eq. cbv zeta.
  destruct (SettingsWindow_init (dialogs_made w) (overlay w)) as [d|] eqn:Ed.
  - destruct (SettingsWindow_init_ok _ _ _ Hc Ed) as (Hok & Hid & Hcol & _).
    constructor; cbn.
    + exact Hc.
    + exact Ht.
    + intros d' H. injection H as <-. split.
      * exact Hok.
      * cbn. lia.
  - constructor; cbn.
    + exact Hc.
    + exact Ht.
    + intros d' H. destruct (Hd d' H). split; [assumption|lia].
Qed.

Lemma update_settings_inv (w : world) (d : SettingsWindow) :
  inv w -> dialog_ok d -> settings_window (tray_icon w) = Some d ->
  inv (fst (update_settings d w)).
Proof.
  intros [Hc Ht Hd] Hok Hs. rewrite update_settings_eq. cbn [fst].
  constructor; cbn.
  - apply Hok.
  - exact Ht.
  - exact Hd.
Qed.

Lemma with_dialog_inv (w : world) (d d' : SettingsWindow) :
  inv w -> settings_window (tray_icon w) = Some d ->
  dialog_ok d' -> ident d' = ident d -> inv (with_dialog d' w).
Proof.
  intros [Hc Ht Hd] Hs Hok Hid. constructor; cbn.
  - exact Hc.
  - exact Ht.
  - intros d2 H. injection H as <-. split; [exact Hok|].
    rewrite Hid. apply (Hd d Hs).
Qed.

Lemma with_fs_inv (w : world) (f : disk) : inv w -> inv (with_fs f w).
Proof. intros [Hc Ht Hd]. constructor; assumption. Qed.

Lemma set_slider_ok (which : slider_id) (pos : Z) (d : SettingsWindow) :
  dialog_ok d ->
  dialog_ok (set_slider which (setValue pos (get_slider which d)) d).
Proof.
  intros (H1 & H2 & H3 & H4).
  destruct which; unfold dialog_ok;
    cbn [set_slider get_slider size_slider thickness_slider
         transparency_slider held_color].
  - split; [apply setValue_ok; [lia|exact H1]|]. auto.
  - split; [exact H1|]. split; [apply setValue_ok; [lia|exact H2]|]. auto.
  - split; [exact H1|]. split; [exact H2|].
    split; [apply setValue_ok; [lia|exact H3]|exact H4].
Qed.

(** The overlay keeps its colour well formed, and the dialog its sliders
    within their ranges, through every slot, whether it returns or
    raises. *)
Lemma handle_inv (w : world) (ev : event) :
  inv w -> exit_requested w = None -> event_ok ev ->
  inv (fst (handle ev w)).
Proof.
  intros Hi Hx Hev.
  destruct ev as [| | |reason|which pos|picked|]; cbn [handle].
  - now apply toggle_overlay_inv.
  - now apply open_settings_inv.
  - destruct Hi as [Hc Ht Hd]. constructor; cbn; auto. intros H; discriminate H.
  - destruct reason; cbn [on_tray_icon_activated]; try exact Hi.
    now apply toggle_overlay_inv.
  - (* slider_moved *)
    unfold on_dialog, pbind, get_state.
    destruct (settings_window (tray_icon w)) as [d|] eqn:Ed; [|exact Hi].
    destruct (shown d); [|exact Hi].
    pose proof (proj1 (inv_dialog w Hi d Ed)) as Hok.
    unfold slider_moved, pbind, modify.
    set (d' := set_slider which (setValue pos (get_slider which d)) d).
    assert (Hok' : dialog_ok d') by (apply set_slider_ok; exact Hok).
    assert (Hi' : inv (with_dialog d' w)).
    { apply (with_dialog_inv w d d' Hi Ed Hok'). destruct which; reflexivity. }
    destruct (value (setValue pos (get_slider which d)) =? value (get_slider which d)).
    + exact Hi'.
    + apply update_settings_inv; [exact Hi'|exact Hok'|reflexivity].
  - (* open_color_dialog *)
    unfold on_dialog, pbind, get_state.
    destruct (settings_window (tray_icon w)) as [d|] eqn:Ed; [|exact Hi].
    destruct (shown d); [|exact Hi].
    pose proof (proj1 (inv_dialog w Hi d Ed)) as Hok.
    unfold open_color_dialog. destruct (isValid picked); [|exact Hi].
    unfold pbind, modify.
    assert (Hok' : dialog_ok (set_held_color picked d)).
    { destruct Hok as (H1 & H2 & H3 & H4).
      split; [exact H1|]. split; [exact H2|]. split; [exact H3|exact Hev]. }
    apply update_settings_inv; [|exact Hok'|reflexivity].
    apply (with_dialog_inv w d _ Hi Ed Hok'). reflexivity.
  - (* apply_settings *)
    unfold on_dialog, pbind, get_state.
    destruct (settings_window (tray_icon w)) as [d|] eqn:Ed; [|exact Hi].
    destruct (shown d); [|exact Hi].
    pose proof (proj1 (inv_dialog w Hi d Ed)) as Hok.
    rewrite apply_settings_eq. cbv zeta.
    pose proof (update_settings_inv w d Hi Hok Ed) as Hi1.
    match goal with |- context [snd ?o] => destruct o as [f [[]|e]] end;
      cbn [fst snd].
    + apply (with_dialog_inv _ d);
        [now apply with_fs_inv|exact Ed|exact Hok|reflexivity].
    + now apply with_fs_inv.
Qed.

Lemma reachable_inv (w : world) : reachable w -> inv w.
Proof.
  induction 1 as [e w H|w w' ev _ IH Hx Hev Hh].
  - exact (proj1 (startup_inv e w H)).
  - pose proof (handle_inv w ev IH Hx Hev) as Hi. rewrite Hh in Hi. exact Hi.
Qed.

(** ** The ranges of the appearance *)

Lemma in_range_slider (lo hi : Z) (s : QSlider) :
  slider_ok lo hi s -> in_range lo hi (PInt (value s)) = true.
Proof.
  intros (_ & _ & H). unfold in_range.
  apply andb_true_intro. split; apply Z.leb_le; lia.
Qed.

Lemma update_settings_in_range (d : SettingsWindow) (w : world) :
  dialog_ok d -> appearance_ok (overlay (fst (update_settings d w))) = true.
Proof.
  intros (H1 & H2 & H3 & H4). rewrite update_settings_eq.
  unfold appearance_ok.
  cbn [fst overlay with_overlay set_crosshair_properties size thickness
       color transparency].
  rewrite (in_range_slider _ _ _ H1), (in_range_slider _ _ _ H2),
    (in_range_slider _ _ _ H3), H4. reflexivity.
Qed.

Lemma oversized_world_started :
  startup (env_with oversized_disk) = Ok oversized_world.
Proof. vm_compute. reflexivity. Qed.

Lemma default_world_started :
  startup (env_with (empty_disk 4096)) = Ok default_world.
Proof. vm_compute. reflexivity. Qed.

(** A slot that returns, from a reachable state in which the loop runs,
    leads to a reachable state. *)
Lemma reachable_after (w : world) (ev : event) :
  reachable w -> exit_requested w = None -> event_ok ev ->
  snd (handle ev w) = Ok tt -> reachable (fst (handle ev w)).
Proof.
  intros Hr Hx Hev Hs. apply (reachable_step w _ ev Hr Hx Hev).
  destruct (handle ev w) as [w' r]. cbn in *. now subst r.
Qed.

(** C4, as stated, fails at start-up: [load_settings] returns what the
    file holds, and a file that says 500 gives the overlay a size of 500. *)
Lemma oversized_file_out_of_range :
  load_settings oversized_disk
  = Ok (PInt 500, PInt 2, QColor_rgba 255 255 255 255, PInt 255)
  /\ startup (env_with oversized_disk) = Ok oversized_world
  /\ size (overlay oversized_world) = PInt 500
  /\ appearance_ok (overlay oversized_world) = false.
Proof. repeat split; vm_compute; reflexivity. Qed.

Lemma toggle_overlay_appearance (w : world) :
  let o := overlay (fst (toggle_overlay w)) in
  size o = size (overlay w) /\ thickness o = thickness (overlay w)
  /\ color o = color (overlay w) /\ transparency o = transparency (overlay w).
Proof.
  unfold toggle_overlay, modify. cbn [fst].
  destruct (is_overlay_visible (tray_icon w)); cbn; auto.
Qed.

Lemma appearance_ok_fields (o o' : CrosshairOverlay) :
  size o' = size o -> thickness o' = thickness o -> color o' = color o ->
  transparency o' = transparency o ->
  appearance_ok o' = appearance_ok o.
Proof. unfold appearance_ok. now intros -> -> -> ->. Qed.

Lemma on_dialog_eq (f : SettingsWindow -> prog world unit) (w : world) :
  on_dialog f w
  = match settings_window (tray_icon w) with
    | Some d => if shown d then f d w else (w, Ok tt)
    | None => (w, Ok tt)
    end.
Proof.
  unfold on_dialog, pbind, get_state.
  destruct (settings_window (tray_icon w)) as [d|]; [|reflexivity].
  destruct (shown d); reflexivity.
Qed.

(** What a slot of the dialog does to the overlay: nothing, or the values
    of the dialog. *)
Lemma dialog_slot_in_range (w : world) (ev : event) (d : SettingsWindow) :
  dialog_ok d -> event_ok ev ->
  pushes_values ev d \/ appearance_ok (overlay w) = true ->
  appearance_ok (overlay (fst (dialog_slot ev d w))) = true.
Proof.
  intros Hok Hev Hp.
  destruct ev as [| | |reason|which pos|picked|]; cbn [dialog_slot];
    try (destruct Hp as [[]|Hp]; exact Hp).
  - unfold slider_moved, pbind, modify.
    destruct (Z.eqb_spec (value (setValue pos (get_slider which d)))
                (value (get_slider which d))) as [E|E].
    + destruct Hp as [Hp|Hp]; [exact (False_ind _ (Hp E))|exact Hp].
    + apply update_settings_in_range, set_slider_ok, Hok.
  - unfold open_color_dialog. destruct (isValid picked) eqn:Ev.
    + unfold pbind, modify. apply update_settings_in_range.
      destruct Hok as (H1 & H2 & H3 & H4).
      split; [exact H1|]. split; [exact H2|]. split; [exact H3|exact Hev].
    + destruct Hp as [Hp|Hp]; [|exact Hp].
      cbn [pushes_values] in Hp. rewrite Ev in Hp. discriminate Hp.
  - rewrite apply_settings_eq. cbv zeta.
    pose proof (update_settings_in_range d w Hok) as Hr.
    match goal with |- context [snd ?o] => destruct o as [f [[]|e]] end;
      cbn [fst snd]; exact Hr.
Qed.

(** From a state within range, every slot leaves the overlay within
    range. *)
Lemma handle_keeps_in_range (w : world) (ev : event) :
  inv w -> event_ok ev -> appearance_ok (overlay w) = true ->
  appearance_ok (overlay (fst (handle ev w))) = true.
Proof.
  intros Hi Hev Ha.
  assert (Hdlg : appearance_ok
                   (overlay (fst (on_dialog (dialog_slot ev) w))) = true).
  { rewrite on_dialog_eq.
    destruct (settings_window (tray_icon w)) as [d|] eqn:Ed; [|exact Ha].
    destruct (shown d); [|exact Ha].
    apply dialog_slot_in_range; [apply (inv_dialog w Hi d Ed)|exact Hev|].
    right; exact Ha. }
  assert (Htog : appearance_ok (overlay (fst (toggle_overlay w))) = true).
  { rewrite <- Ha.
    destruct (toggle_overlay_appearance w) as (H1 & H2 & H3 & H4).
    now apply appearance_ok_fields. }
  destruct ev as [| | |reason|which pos|picked|]; cbn [handle];
    try exact Hdlg; try exact Htog; try exact Ha.
  - rewrite open_settings_eq. cbv zeta.
    destruct (SettingsWindow_init (dialogs_made w) (overlay w)); exact Ha.
  - destruct reason; first [exact Htog|exact Ha].
Qed.

(** C4, amended: the ranges are those of the sliders, and nothing else
    checks them.  In every reachable state the channels of the colour of
    the overlay are within 0..255; whenever the dialog pushes its values to
    the overlay (a slider takes a new value, a colour is confirmed, Apply is
    clicked) the four attributes are within their ranges; and once they
    are, every slot leaves them so. *)
Theorem dialog_keeps_appearance_in_range (w : world) :
  reachable w -> exit_requested w = None ->
  QColor_wf (color (overlay w)) = true
  /\ (forall ev d,
        event_ok ev -> settings_window (tray_icon w) = Some d ->
        shown d = true -> pushes_values ev d ->
        appearance_ok (overlay (fst (handle ev w))) = true)
  /\ (forall ev,
        event_ok ev -> appearance_ok (overlay w) = true ->
        appearance_ok (overlay (fst (handle ev w))) = true).
Proof.
  intros Hr Hx. pose proof (reachable_inv w Hr) as Hi.
  split; [exact (inv_color w Hi)|]. split.
  - intros ev d Hev Ed Hs Hp.
    pose proof (dialog_slot_in_range w ev d (proj1 (inv_dialog w Hi d Ed))
                  Hev (or_introl Hp)) as H.
    destruct ev; cbn [pushes_values] in Hp; try contradiction;
      cbn [handle]; rewrite on_dialog_eq, Ed, Hs; exact H.
  - intros ev Hev Ha. now apply handle_keeps_in_range.
Qed.

Lemma dialog_keeps_appearance_in_range_witness :
  let w := fst (handle SettingsClicked oversized_world) in
  appearance_ok (overlay w) = false
  /\ appearance_ok
       (overlay (fst (handle (SliderMoved ThicknessSlider 5) w))) = true.
Proof.
  cbv zeta. split; [reflexivity|].
  assert (R : reachable (fst (handle SettingsClicked oversized_world))).
  { apply reachable_after;
      [exact (reachable_startup _ _ oversized_world_started)
      |reflexivity|exact I|reflexivity]. }
  refine (proj1 (proj2 (dialog_keeps_appearance_in_range _ R eq_refl))
            (SliderMoved ThicknessSlider 5) _ I eq_refl eq_refl _).
  vm_compute. discriminate.
Defined.

(** ** The tray controller *)

Lemma set_visible_same (o : CrosshairOverlay) :
  set_visible (visible o) o = o.
Proof. destruct o; reflexivity. Qed.

Lemma toggle_overlay_twice (w : world) :
  tray_synced w -> fst (toggle_overlay (fst (toggle_overlay w))) = w.
Proof.
  intros [H1 H2]. destruct w as [f o t n x]. destruct t as [v label dlg].
  cbn in H1, H2. subst v label.
  unfold toggle_overlay, modify. cbn.
  destruct o as [s th c a wd ht vis]. destruct vis; reflexivity.
Qed.

Lemma handle_toggle (ev : event) (w : world) :
  is_toggle ev -> handle ev w = toggle_overlay w.
Proof. intros [-> | ->]; reflexivity. Qed.

(** C10: in every state of the running application, toggling the overlay
    (by the menu item or by a click on the tray icon) leaves the four
    attributes of the appearance as they are and flips the flag and the
    visibility; toggling twice restores the flag, the visibility of the
    overlay and the label of the menu item, and indeed the whole state. *)
Theorem toggle_overlay_involution (w : world) (ev1 ev2 : event) :
  reachable w -> exit_requested w = None ->
  is_toggle ev1 -> is_toggle ev2 ->
  let w1 := fst (handle ev1 w) in
  let w2 := fst (handle ev2 w1) in
  (snd (handle ev1 w) = Ok tt /\ snd (handle ev2 w1) = Ok tt)
  /\ (size (overlay w1) = size (overlay w)
      /\ thickness (overlay w1) = thickness (overlay w)
      /\ color (overlay w1) = color (overlay w)
      /\ transparency (overlay w1) = transparency (overlay w))
  /\ (is_overlay_visible (tray_icon w1)
      = negb (is_overlay_visible (tray_icon w))
      /\ visible (overlay w1) = negb (visible (overlay w)))
  /\ (is_overlay_visible (tray_icon w2) = is_overlay_visible (tray_icon w)
      /\ visible (overlay w2) = visible (overlay w)
      /\ toggle_action_text (tray_icon w2) = toggle_action_text (tray_icon w))
  /\ w2 = w.
Proof.
  intros Hr Hx H1 H2. cbv zeta.
  rewrite (handle_toggle ev1 w H1).
  rewrite (handle_toggle ev2 _ H2).
  pose proof (inv_tray w (reachable_inv w Hr) Hx) as Hs.
  pose proof (toggle_overlay_twice w Hs) as E.
  split; [split; reflexivity|].
  split; [exact (toggle_overlay_appearance w)|].
  split.
  - destruct Hs as [Hs _]. unfold toggle_overlay, modify. cbn [fst].
    rewrite <- Hs. destruct (is_overlay_visible (tray_icon w)); split; reflexivity.
  - rewrite E. repeat split.
Qed.

Lemma toggle_overlay_involution_witness :
  let w := default_world in
  let w1 := fst (handle ToggleClicked w) in
  let w2 := fst (handle (TrayActivated Trigger) w1) in
  (toggle_action_text (tray_icon w1) = u "Show Crosshair"
   /\ visible (overlay w1) = false)
  /\ w2 = w.
Proof.
  cbv zeta. split; [split; reflexivity|].
  refine (proj2 (proj2 (proj2 (proj2
    (toggle_overlay_involution default_world ToggleClicked
       (TrayActivated Trigger) _ eq_refl _ _))))).
  - exact (reachable_startup _ _ default_world_started).
  - left; reflexivity.
  - right; reflexivity.
Defined.

(** ** The settings dialog *)

Lemma SettingsWindow_init_int (id : nat) (o : CrosshairOverlay) (s t a : Z) :
  size o = PInt s -> thickness o = PInt t -> transparency o = PInt a ->
  -2147483648 <= s <= 2147483647 ->
  -2147483648 <= t <= 2147483647 ->
  -2147483648 <= a <= 2147483647 ->
  exists d,
    SettingsWindow_init id o = Ok d
    /\ ident d = id /\ shown d = false /\ held_color d = color o
    /\ slider_ok 1 20 (size_slider d)
    /\ slider_ok 1 10 (thickness_slider d)
    /\ slider_ok 0 255 (transparency_slider d)
    /\ value (size_slider d) = qBound 1 s 20
    /\ value (thickness_slider d) = qBound 1 t 10
    /\ value (transparency_slider d) = qBound 0 a 255.
Proof.
  intros Es Et Ea Hs Ht Ha. unfold SettingsWindow_init. rewrite Es, Et, Ea.
  destruct (make_slider_value 1 20 s) as (s1 & E1 & O1 & V1); [lia|exact Hs|].
  destruct (make_slider_value 1 10 t) as (s2 & E2 & O2 & V2); [lia|exact Ht|].
  destruct (make_slider_value 0 255 a) as (s3 & E3 & O3 & V3); [lia|exact Ha|].
  rewrite E1, E2, E3. cbn [bind]. eexists. split; [reflexivity|].
  cbn. repeat split; try assumption; try apply O1; try apply O2; try apply O3.
Qed.

(** Opening the settings on an overlay that holds integers. *)
Lemma open_settings_int (w : world) (s t a : Z) :
  size (overlay w) = PInt s -> thickness (overlay w) = PInt t ->
  transparency (overlay w) = PInt a ->
  -2147483648 <= s <= 2147483647 ->
  -2147483648 <= t <= 2147483647 ->
  -2147483648 <= a <= 2147483647 ->
  exists d,
    SettingsWindow_init (dialogs_made w) (overlay w) = Ok d
    /\ handle SettingsClicked w
       = (with_dialog (set_shown true d)
            {| fs := fs w; overlay := overlay w; tray_icon := tray_icon w;
               dialogs_made := S (dialogs_made w);
               exit_requested := exit_requested w |}, Ok tt)
    /\ ident d = dialogs_made w
    /\ value (size_slider d) = qBound 1 s 20
    /\ value (thickness_slider d) = qBound 1 t 10
    /\ value (transparency_slider d) = qBound 0 a 255
    /\ held_color d = color (overlay w).
Proof.
  intros Es Et Ea Hs Ht Ha.
  destruct (SettingsWindow_init_int (dialogs_made w) (overlay w) s t a
              Es Et Ea Hs Ht Ha)
    as (d & Ed & Hid & _ & Hc & _ & _ & _ & V1 & V2 & V3).
  exists d. split; [exact Ed|]. split; [|repeat split; assumption].
  cbn [handle]. rewrite open_settings_eq. cbv zeta. now rewrite Ed.
Qed.

(** C8: whenever the overlay holds integers, opening the settings gives a
    dialog, shown, whose sliders hold the size, the thickness and the
    transparency of the overlay (brought within the range of the slider,
    hence those very values when they are in range) and whose colour is the
    colour of the overlay; the overlay may be hidden, a dialog may have
    been applied before, and the settings file plays no part: any other
    file gives the same dialog. *)
Theorem open_settings_seeds_from_overlay (w : world) (s t a : Z) :
  size (overlay w) = PInt s -> thickness (overlay w) = PInt t ->
  transparency (overlay w) = PInt a ->
  -2147483648 <= s <= 2147483647 ->
  -2147483648 <= t <= 2147483647 ->
  -2147483648 <= a <= 2147483647 ->
  exists w' d,
    handle SettingsClicked w = (w', Ok tt)
    /\ settings_window (tray_icon w') = Some d /\ shown d = true
    /\ value (size_slider d) = qBound 1 s 20
    /\ value (thickness_slider d) = qBound 1 t 10
    /\ value (transparency_slider d) = qBound 0 a 255
    /\ held_color d = color (overlay w)
    /\ (1 <= s <= 20 -> value (size_slider d) = s)
    /\ (1 <= t <= 10 -> value (thickness_slider d) = t)
    /\ (0 <= a <= 255 -> value (transparency_slider d) = a)
    /\ overlay w' = overlay w /\ fs w' = fs w
    /\ (forall f : disk,
          settings_window (tray_icon (fst (handle SettingsClicked
                                             (with_fs f w)))) = Some d).
Proof.
  intros Es Et Ea Hs Ht Ha.
  destruct (open_settings_int w s t a Es Et Ea Hs Ht Ha)
    as (d & Ed & E & _ & V1 & V2 & V3 & Hc).
  eexists. exists (set_shown true d). split; [exact E|].
  cbn [tray_icon with_dialog with_tray settings_window set_shown shown
       size_slider thickness_slider transparency_slider held_color overlay fs].
  repeat split; try assumption.
  - intros H. rewrite V1. now apply qBound_id.
  - intros H. rewrite V2. now apply qBound_id.
  - intros H. rewrite V3. now apply qBound_id.
  - intros f.
    destruct (open_settings_int (with_fs f w) s t a Es Et Ea Hs Ht Ha)
      as (d' & Ed' & E' & _).
    rewrite E'. cbn in Ed'. rewrite Ed in Ed'. now injection Ed' as <-.
Qed.

Lemma open_settings_seeds_from_overlay_witness :
  let w := fst (toggle_overlay oversized_world) in
  exists w' d,
    handle SettingsClicked w = (w', Ok tt)
    /\ settings_window (tray_icon w') = Some d /\ shown d = true
    /\ visible (overlay w') = false
    /\ value (size_slider d) = 20
    /\ value (thickness_slider d) = 2
    /\ value (transparency_slider d) = 255
    /\ held_color d = QColor_rgba 255 255 255 255.
Proof.
  cbv zeta.
  destruct (open_settings_seeds_from_overlay
              (fst (toggle_overlay oversized_world)) 500 2 255)
    as (w' & d & E & Hd & Hs & V1 & V2 & V3 & Hc & _ & _ & _ & Ho & _);
    try reflexivity; try lia.
  exists w', d. rewrite Ho. repeat split; assumption.
Defined.

(** Apply, when the file may be written and the record fits. *)
Lemma apply_settings_writes (w : world) (d : SettingsWindow) :
  writable (fs w) = true ->
  (List.length
     (json_dumps
        (settings_dict (PInt (value (size_slider d)))
           (PInt (value (thickness_slider d))) (held_color d)
           (PInt (value (transparency_slider d)))))
   <= capacity (fs w))%nat ->
  exists w',
    apply_settings d w = (w', Ok tt)
    /\ overlay w'
       = set_crosshair_properties (PInt (value (size_slider d)))
           (PInt (value (thickness_slider d))) (held_color d)
           (PInt (value (transparency_slider d))) (overlay w)
    /\ file (fs w')
       = Some (json_dumps
                 (settings_dict (size (overlay w')) (thickness (overlay w'))
                    (color (overlay w')) (transparency (overlay w'))))
    /\ tray_icon w'
       = {| is_overlay_visible := is_overlay_visible (tray_icon w);
            toggle_action_text := toggle_action_text (tray_icon w);
            settings_window := Some (set_shown false d) |}
    /\ dialogs_made w' = dialogs_made w
    /\ exit_requested w' = exit_requested w.
Proof.
  intros Hw Hcap. rewrite apply_settings_eq. cbv zeta.
  rewrite update_settings_eq.
  cbn [fst overlay with_overlay fs set_crosshair_properties size thickness
       color transparency].
  unfold save_settings, pbind, open_w, write_close. rewrite Hw.
  cbn [capacity]. apply Nat.leb_le in Hcap. rewrite Hcap. cbn [snd fst].
  eexists. split; [reflexivity|]. repeat split.
Qed.

(** C9, as stated, fails: the dialog of the second opening is another
    object than the dialog that was applied. *)
Lemma reopen_builds_new_dialog :
  let first := fst (run_events [SettingsClicked] default_world) in
  let second :=
    fst (run_events [SettingsClicked; ApplyClicked; SettingsClicked]
           default_world) in
  option_map ident (settings_window (tray_icon first)) = Some 0%nat
  /\ option_map ident (settings_window (tray_icon second)) = Some 1%nat
  /\ settings_window (tray_icon second) <> settings_window (tray_icon first).
Proof.
  vm_compute. repeat split. discriminate.
Qed.

(** C7, as stated, fails when the sliders do not show what the overlay
    holds: on an overlay of size 500, which the dialog shows as 20, a
    change of colour alone followed by Apply persists the size 20, not the
    500 that was active on the overlay. *)
Lemma color_then_apply_saves_slider_values :
  let w := fst (handle SettingsClicked oversized_world) in
  let picked := QColor_rgba 10 20 30 255 in
  let out := run_events [ColorPicked picked; ApplyClicked] w in
  size (overlay w) = PInt 500
  /\ option_map (fun d => value (size_slider d))
       (settings_window (tray_icon w)) = Some 20
  /\ snd out = Ok tt
  /\ file (fs (fst out))
     = Some (text "{'size': 20, 'thickness': 2, 'color': {'r': 10, 'g': 20, 'b': 30}, 'transparency': 255}")
  /\ file (fs (fst out))
     <> Some (json_dumps
                (settings_dict (size (overlay w)) (thickness (overlay w))
                   picked (transparency (overlay w)))).
Proof.
  vm_compute. repeat split. intros H. discriminate H.
Qed.

(** C7, amended: in any state with the dialog open, whatever the overlay
    holds, Apply first pushes the values of the dialog (the three sliders
    and its colour) to the overlay, then writes the appearance of the
    overlay, which is then those values, and hides the dialog.  After a
    change of colour alone, the colour is on the overlay at once and Apply
    writes the values of the sliders with the colour chosen; they are the
    values that were active on the overlay when the sliders show what the
    overlay holds. *)
Theorem apply_pushes_then_saves (w : world) (d : SettingsWindow)
  (picked : QColor) :
  settings_window (tray_icon w) = Some d -> shown d = true ->
  isValid picked = true ->
  writable (fs w) = true ->
  (List.length
     (json_dumps
        (settings_dict (PInt (value (size_slider d)))
           (PInt (value (thickness_slider d))) (held_color d)
           (PInt (value (transparency_slider d)))))
   <= capacity (fs w))%nat ->
  (List.length
     (json_dumps
        (settings_dict (PInt (value (size_slider d)))
           (PInt (value (thickness_slider d))) picked
           (PInt (value (transparency_slider d)))))
   <= capacity (fs w))%nat ->
  (exists w',
     handle ApplyClicked w = (w', Ok tt)
     /\ overlay w'
        = set_crosshair_properties (PInt (value (size_slider d)))
            (PInt (value (thickness_slider d))) (held_color d)
            (PInt (value (transparency_slider d))) (overlay w)
     /\ file (fs w')
        = Some (json_dumps
                  (settings_dict (PInt (value (size_slider d)))
                     (PInt (value (thickness_slider d))) (held_color d)
                     (PInt (value (transparency_slider d)))))
     /\ settings_window (tray_icon w') = Some (set_shown false d))
  /\ (exists w1 w2,
        handle (ColorPicked picked) w = (w1, Ok tt)
        /\ overlay w1
           = set_crosshair_properties (PInt (value (size_slider d)))
               (PInt (value (thickness_slider d))) picked
               (PInt (value (transparency_slider d))) (overlay w)
        /\ settings_window (tray_icon w1) = Some (set_held_color picked d)
        /\ handle ApplyClicked w1 = (w2, Ok tt)
        /\ overlay w2 = overlay w1
        /\ file (fs w2)
           = Some (json_dumps
                     (settings_dict (PInt (value (size_slider d)))
                        (PInt (value (thickness_slider d))) picked
                        (PInt (value (transparency_slider d)))))
        /\ settings_window (tray_icon w2)
           = Some (set_shown false (set_held_color picked d))
        /\ (size (overlay w) = PInt (value (size_slider d)) ->
            thickness (overlay w) = PInt (value (thickness_slider d)) ->
            transparency (overlay w)
            = PInt (value (transparency_slider d)) ->
            file (fs w2)
            = Some (json_dumps
                      (settings_dict (size (overlay w))
                         (thickness (overlay w)) picked
                         (transparency (overlay w)))))).
Proof.
  intros Ed Hs Hv Hw Hcap Hcap'. split.
  - destruct (apply_settings_writes w d Hw Hcap)
      as (w' & E & Ho & Hf & Ht & _).
    exists w'. split.
    { cbn [handle]. now rewrite on_dialog_eq, Ed, Hs. }
    split; [exact Ho|]. split; [|now rewrite Ht].
    rewrite Hf, Ho. reflexivity.
  - set (d1 := set_held_color picked d).
    assert (E1 : handle (ColorPicked picked) w
                 = (fst (update_settings d1 (with_dialog d1 w)), Ok tt)).
    { cbn [handle]. rewrite on_dialog_eq, Ed, Hs.
      unfold open_color_dialog. rewrite Hv. reflexivity. }
    set (w1 := fst (update_settings d1 (with_dialog d1 w))) in *.
    assert (Ho1 : overlay w1
                  = set_crosshair_properties (PInt (value (size_slider d)))
                      (PInt (value (thickness_slider d))) picked
                      (PInt (value (transparency_slider d))) (overlay w)).
    { subst w1. rewrite update_settings_eq. reflexivity. }
    assert (Ed1 : settings_window (tray_icon w1) = Some d1).
    { subst w1. rewrite update_settings_eq. reflexivity. }
    destruct (apply_settings_writes w1 d1 Hw Hcap')
      as (w2 & E2 & Ho2 & Hf & Ht & _).
    assert (Ho : overlay w2 = overlay w1).
    { rewrite Ho2, Ho1. reflexivity. }
    assert (Hf' : file (fs w2)
                  = Some (json_dumps
                            (settings_dict (PInt (value (size_slider d)))
                               (PInt (value (thickness_slider d))) picked
                               (PInt (value (transparency_slider d)))))).
    { rewrite Hf, Ho, Ho1. reflexivity. }
    exists w1, w2. split; [exact E1|]. split; [exact Ho1|].
    split; [exact Ed1|]. split.
    { cbn [handle]. rewrite on_dialog_eq, Ed1. subst d1. cbn [set_held_color shown].
      now rewrite Hs. }
    split; [exact Ho|]. split; [exact Hf'|]. split; [now rewrite Ht|].
    intros Es Et Ea. rewrite Hf', Es, Et, Ea. reflexivity.
Qed.

Lemma apply_pushes_then_saves_witness :
  let w := fst (handle SettingsClicked oversized_world) in
  let picked := QColor_rgba 10 20 30 255 in
  size (overlay w) = PInt 500
  /\ (exists w',
        handle ApplyClicked w = (w', Ok tt)
        /\ size (overlay w') = PInt 20
        /\ file (fs w')
           = Some (text "{'size': 20, 'thickness': 2, 'color': {'r': 255, 'g': 255, 'b': 255}, 'transparency': 255}"))
  /\ (exists w1 w2,
        handle (ColorPicked picked) w = (w1, Ok tt)
        /\ color (overlay w1) = picked
        /\ handle ApplyClicked w1 = (w2, Ok tt)
        /\ file (fs w2)
           = Some (text "{'size': 20, 'thickness': 2, 'color': {'r': 10, 'g': 20, 'b': 30}, 'transparency': 255}")).
Proof.
  cbv zeta. split; [reflexivity|].
  destruct (apply_pushes_then_saves
              (fst (handle SettingsClicked oversized_world))
              _ (QColor_rgba 10 20 30 255) eq_refl eq_refl eq_refl eq_refl)
    as ((w' & E & Ho & Hf & _)
        & (w1 & w2 & E1 & Ho1 & _ & E2 & _ & Hf2 & _)).
  { apply Nat.leb_le. vm_compute. reflexivity. }
  { apply Nat.leb_le. vm_compute. reflexivity. }
  split.
  - exists w'. split; [exact E|]. split; [now rewrite Ho|].
    rewrite Hf. vm_compute. reflexivity.
  - exists w1, w2. split; [exact E1|]. split; [now rewrite Ho1|].
    split; [exact E2|]. rewrite Hf2. vm_compute. reflexivity.
Defined.

(** ** The entry point *)

(** The Exit item of the menu: the loop stops with code 0. *)
Lemma main_exit_clicked (e : env) (w : world) (evs : list event) :
  startup e = Ok w -> main e (ExitClicked :: evs) = Exited 0.
Proof.
  intros H. unfold main. rewrite H.
  destruct (startup_inv e w H) as [_ Hx].
  cbn [exec_]. rewrite Hx. cbn. destruct evs; reflexivity.
Qed.

(** No icon file: [sys.exit(1)]. *)
Lemma main_icon_missing (e : env) (evs : list event) (s : pyval * pyval * QColor * pyval) :
  tray_available e = true -> load_settings (initial_disk e) = Ok s ->
  icon_exists e = false -> main e evs = Exited 1.
Proof.
  intros Ht Hl Hi. unfold main, startup, SystemTrayIcon_init.
  rewrite Ht, Hl, Hi. destruct s as [[[a b] c] d]. reflexivity.
Qed.

(** C3: without a system tray the program prints its message and calls
    [sys.exit()] with no argument: the exit status is 0, as after Exit, and
    not the status of a failure, which the missing icon gets. *)
Theorem main_no_tray_exits_zero (icon : bool) (sw sh : Z) (d : disk)
  (evs : list event) :
  main {| tray_available := false; icon_exists := icon;
          screen_width := sw; screen_height := sh; initial_disk := d |} evs
  = Exited 0.
Proof. reflexivity. Qed.

(** * Further properties *)

(** ** The settings store, beyond the valid domain *)

(** Reading back a record of integers whose channels are C ints. *)
Lemma load_settings_int_doc (d : disk) (s t r g b a : Z) :
  file d = Some (json_dumps (int_settings s t r g b a)) ->
  readable d = true ->
  fits_c_int r -> fits_c_int g -> fits_c_int b ->
  load_settings d = Ok (PInt s, PInt t, QColor_rgba r g b 255, PInt a).
Proof.
  intros Hf Hr Hcr Hcg Hcb.
  unfold load_settings, load_settings_try, open_r. rewrite Hf, Hr.
  cbn [bind]. rewrite json_loads_dumps_int_settings.
  cbn -[QColor_rgba c_int]. unfold QColor3, sip_int. cbn [py_int bind].
  rewrite (c_int_fits _ Hcr), (c_int_fits _ Hcg), (c_int_fits _ Hcb).
  reflexivity.
Qed.

Lemma QColor_wf_channels (c : QColor) :
  QColor_wf c = true ->
  channel_ok (red c) = true /\ channel_ok (green c) = true
  /\ channel_ok (blue c) = true /\ channel_ok (alpha c) = true.
Proof.
  unfold QColor_wf. rewrite !andb_true_iff. tauto.
Qed.

Lemma save_settings_ok (d : disk) (size thickness : pyval) (c : QColor)
  (transparency : pyval) :
  writable d = true ->
  (List.length (json_dumps (settings_dict size thickness c transparency))
   <= capacity d)%nat ->
  save_settings size thickness c transparency d
  = ({| file := Some (json_dumps
                        (settings_dict size thickness c transparency));
        readable := match file d with None => true | Some _ => readable d end;
        writable := true;
        capacity := capacity d |}, Ok tt).
Proof.
  intros Hw Hcap. unfold save_settings, pbind, open_w, write_close.
  rewrite Hw. cbn [capacity readable writable file].
  apply Nat.leb_le in Hcap. rewrite Hcap. reflexivity.
Qed.

(** X1: whatever integers are saved, of at most 4300 digits, and whatever
    the alpha of the colour, loading gives back the three integers and a
    colour with the same red, green and blue and alpha 255: the store
    keeps no alpha, and checks no range. *)
Theorem save_load_keeps_rgb (d : disk) (s t a : Z) (c : QColor) :
  int_str_ok s -> int_str_ok t -> int_str_ok a ->
  QColor_wf c = true ->
  writable d = true ->
  file d = None \/ readable d = true ->
  (List.length (json_dumps (settings_dict (PInt s) (PInt t) c (PInt a)))
   <= capacity d)%nat ->
  exists d',
    save_settings (PInt s) (PInt t) c (PInt a) d = (d', Ok tt)
    /\ load_settings d'
       = Ok (PInt s, PInt t,
             {| isValid := true; red := red c; green := green c;
                blue := blue c; alpha := 255 |}, PInt a).
Proof.
  intros _ _ _ Hc Hw Hrd Hcap.
  destruct (QColor_wf_channels c Hc) as (Hr & Hg & Hb & _).
  rewrite (save_settings_ok d _ _ _ _ Hw Hcap).
  eexists. split; [reflexivity|].
  rewrite <- (QColor_rgba_in_range _ _ _ 255 Hr Hg Hb eq_refl).
  apply load_settings_int_doc; try reflexivity.
  - cbn [readable]. destruct Hrd as [-> | Hrd]; [reflexivity|].
    destruct (file d); [exact Hrd|reflexivity].
  - apply channel_ok_iff in Hr. unfold fits_c_int. lia.
  - apply channel_ok_iff in Hg. unfold fits_c_int. lia.
  - apply channel_ok_iff in Hb. unfold fits_c_int. lia.
Qed.

Lemma save_load_keeps_rgb_witness :
  exists d',
    save_settings (PInt (-4)) (PInt 700)
      {| isValid := true; red := 1; green := 2; blue := 3; alpha := 90 |}
      (PInt 999) (empty_disk 4096) = (d', Ok tt)
    /\ load_settings d'
       = Ok (PInt (-4), PInt 700,
             {| isValid := true; red := 1; green := 2; blue := 3;
                alpha := 255 |}, PInt 999).
Proof.
  apply (save_load_keeps_rgb (empty_disk 4096) (-4) 700 999
           {| isValid := true; red := 1; green := 2; blue := 3;
              alpha := 90 |}); try reflexivity.
  - left; reflexivity.
  - apply Nat.leb_le. vm_compute. reflexivity.
Defined.

(** X2: a settings file whose channels are integers but not all within
    0..255 loads without an error: [QColor] gets the three numbers, finds
    them out of range and is invalid, all its components reading 0; the
    other three values, integers of at most 4300 digits, are returned as
    the file has them. *)
Theorem load_out_of_range_channel (d : disk) (s t r g b a : Z) :
  int_str_ok s -> int_str_ok t -> int_str_ok a ->
  file d = Some (json_dumps (int_settings s t r g b a)) ->
  readable d = true ->
  fits_c_int r -> fits_c_int g -> fits_c_int b ->
  ~ (0 <= r <= 255 /\ 0 <= g <= 255 /\ 0 <= b <= 255) ->
  load_settings d
  = Ok (PInt s, PInt t,
        {| isValid := false; red := 0; green := 0; blue := 0; alpha := 0 |},
        PInt a).
Proof.
  intros _ _ _ Hf Hr Hcr Hcg Hcb Hout.
  rewrite (load_settings_int_doc d s t r g b a Hf Hr Hcr Hcg Hcb).
  unfold QColor_rgba.
  destruct (channel_ok r && channel_ok g && channel_ok b && channel_ok 255)
    eqn:E; [|reflexivity].
  exfalso. apply Hout. rewrite !andb_true_iff in E.
  destruct E as (((E1 & E2) & E3) & _).
  apply channel_ok_iff in E1, E2, E3. tauto.
Qed.

Lemma load_out_of_range_channel_witness :
  load_settings
    (disk_holding
       (text "{'size': 3, 'thickness': 2, 'color': {'r': 300, 'g': 0, 'b': -1}, 'transparency': 255}")
       4096)
  = Ok (PInt 3, PInt 2,
        {| isValid := false; red := 0; green := 0; blue := 0; alpha := 0 |},
        PInt 255).
Proof.
  apply (load_out_of_range_channel _ 3 2 300 0 (-1) 255);
    try reflexivity; unfold fits_c_int; lia.
Defined.

(** X3: [load_settings] never mixes defaults with values of the file: what
    it returns is the default tuple, or else all four values are those the
    document of the file holds under the four keys. *)
Theorem load_settings_all_or_nothing (d : disk) (s t a : pyval) (c : QColor) :
  load_settings d = Ok (s, t, c, a) ->
  (s, t, c, a) = default_settings
  \/ exists txt doc col r g b,
       file d = Some txt /\ json_loads txt = Ok doc
       /\ getitem doc (u "size") = Ok s
       /\ getitem doc (u "thickness") = Ok t
       /\ getitem doc (u "color") = Ok col
       /\ getitem col (u "r") = Ok r /\ getitem col (u "g") = Ok g
       /\ getitem col (u "b") = Ok b /\ QColor3 r g b = Ok c
       /\ getitem doc (u "transparency") = Ok a.
Proof.
  unfold load_settings.
  destruct (load_settings_try d) as [[[[s' t'] c'] a']|e] eqn:E.
  - intros H. injection H as <- <- <- <-. right.
    unfold load_settings_try, open_r in E.
    destruct (file d) as [txt|]; [|discriminate E].
    destruct (readable d); [|discriminate E]. cbn [bind] in E.
    destruct (json_loads txt) as [doc|] eqn:E0; [|discriminate E].
    cbn [bind] in E.
    destruct (getitem doc (u "size")) as [s0|] eqn:E1; [|discriminate E].
    destruct (getitem doc (u "thickness")) as [t0|] eqn:E2;
      [|discriminate E].
    destruct (getitem doc (u "color")) as [col|] eqn:E3; [|discriminate E].
    cbn [bind] in E.
    destruct (getitem col (u "r")) as [r|] eqn:E4; [|discriminate E].
    destruct (getitem col (u "g")) as [g|] eqn:E5; [|discriminate E].
    destruct (getitem col (u "b")) as [b|] eqn:E6; [|discriminate E].
    cbn [bind] in E.
    destruct (QColor3 r g b) as [c0|] eqn:E7; [|discriminate E].
    cbn [bind] in E.
    destruct (getitem doc (u "transparency")) as [a0|] eqn:E8;
      [|discriminate E].
    cbn [bind] in E. injection E as <- <- <- <-.
    exists txt, doc, col, r, g, b. repeat split; assumption.
  - destruct e; try discriminate; intros H; left; congruence.
Qed.

Lemma load_settings_all_or_nothing_witness :
  (PInt 9, PInt 5, QColor_rgba 255 255 255 255, PInt 40) = default_settings
  \/ exists txt doc col r g b,
       file (disk_holding
               (text "{'size': 9, 'thickness': 5, 'color': {'r': 255, 'g': 255, 'b': 255}, 'transparency': 40}")
               4096) = Some txt
       /\ json_loads txt = Ok doc
       /\ getitem doc (u "size") = Ok (PInt 9)
       /\ getitem doc (u "thickness") = Ok (PInt 5)
       /\ getitem doc (u "color") = Ok col
       /\ getitem col (u "r") = Ok r /\ getitem col (u "g") = Ok g
       /\ getitem col (u "b") = Ok b
       /\ QColor3 r g b = Ok (QColor_rgba 255 255 255 255)
       /\ getitem doc (u "transparency") = Ok (PInt 40).
Proof.
  apply (load_settings_all_or_nothing
           (disk_holding
              (text "{'size': 9, 'thickness': 5, 'color': {'r': 255, 'g': 255, 'b': 255}, 'transparency': 40}")
              4096)).
  vm_compute. reflexivity.
Defined.

(** ** Painting, whatever the overlay holds *)

Lemma c_int_spec (z : Z) :
  (fits_c_int z /\ c_int z = Ok z)
  \/ (~ fits_c_int z /\ c_int z = Raise OverflowError).
Proof.
  unfold c_int, fits_c_int.
  destruct (Z.leb_spec (-2147483648) z); destruct (Z.leb_spec z 2147483647);
    cbn [andb]; [left|right|right|right]; split; try reflexivity; lia.
Qed.

Lemma py_int_spec (v : pyval) :
  (exists z, py_int v = Ok z) \/ py_int v = Raise TypeError.
Proof. destruct v; cbn; eauto. Qed.

(** [paintEvent], once the three attributes are known to be integers. *)
Lemma paintEvent_int (o : CrosshairOverlay) (sz th a : Z) :
  QColor_wf (color o) = true ->
  py_int (size o) = Ok sz -> py_int (thickness o) = Ok th ->
  py_int (transparency o) = Ok a ->
  paintEvent o
  = (a1 <- c_int a ;; th' <- c_int th ;; a2 <- c_int a ;;
     x <- c_int (width o / 2 - sz) ;; y <- c_int (height o / 2 - sz) ;;
     w <- c_int (sz * 2) ;; h <- c_int (sz * 2) ;;
     Ok [ setPen (QColor_rgba 0 0 0 a1) (QPen_setWidth th' 1);
          setBrush (QColor_rgba (red (color o)) (green (color o))
                      (blue (color o)) a2);
          drawEllipse x y w h ]).
Proof.
  intros Hc Hs Ht Ha.
  destruct (QColor_wf_channels _ Hc) as (Hr & Hg & Hb & _).
  unfold paintEvent, QColor4, sip_int. cbn [py_int bind].
  rewrite Hs, Ht, Ha. cbn [bind].
  rewrite !(c_int_fits 0) by lia. cbn [bind].
  rewrite (c_int_channel _ Hr), (c_int_channel _ Hg), (c_int_channel _ Hb).
  cbn [bind].
  destruct (c_int a); cbn [bind]; [|reflexivity].
  destruct (c_int th); cbn [bind]; reflexivity.
Qed.

(** X4: [paintEvent] paints exactly when the size, the thickness and the
    transparency of the overlay are integers, the thickness, the
    transparency and the four numbers of the rectangle fit a C [int];
    otherwise it raises [TypeError] or [OverflowError] and paints
    nothing. *)
Theorem paintEvent_succeeds_iff (o : CrosshairOverlay) :
  QColor_wf (color o) = true ->
  ((exists ops, paintEvent o = Ok ops)
   <-> exists sz th a,
         py_int (size o) = Ok sz /\ py_int (thickness o) = Ok th
         /\ py_int (transparency o) = Ok a
         /\ fits_c_int th /\ fits_c_int a
         /\ fits_c_int (width o / 2 - sz) /\ fits_c_int (height o / 2 - sz)
         /\ fits_c_int (sz * 2))
  /\ (forall e, paintEvent o = Raise e -> e = TypeError \/ e = OverflowError).
Proof.
  intros Hc.
  destruct (QColor_wf_channels _ Hc) as (Hr & Hg & Hb & _).
  destruct (py_int_spec (transparency o)) as [[a Ea]|Ea].
  2:{ split.
      - split.
        + intros [ops H]. unfold paintEvent, QColor4, sip_int in H.
          cbn [py_int bind] in H. rewrite !(c_int_fits 0) in H by lia.
          cbn [bind] in H. rewrite Ea in H. discriminate H.
        + intros (sz & th & a & _ & _ & H & _). congruence.
      - intros e H. unfold paintEvent, QColor4, sip_int in H.
        cbn [py_int bind] in H. rewrite !(c_int_fits 0) in H by lia.
        cbn [bind] in H. rewrite Ea in H. injection H as <-. now left. }
  destruct (py_int_spec (thickness o)) as [[th Et]|Et].
  2:{ assert (H0 : exists e, paintEvent o = Raise e
                             /\ (e = TypeError \/ e = OverflowError)).
      { unfold paintEvent, QColor4, sip_int. cbn [py_int bind].
        rewrite !(c_int_fits 0) by lia. cbn [bind]. rewrite Ea, Et.
        cbn [bind]. destruct (c_int_spec a) as [[_ ->]|[_ ->]]; cbn [bind];
          eauto. }
      destruct H0 as (e0 & H0 & He0). split.
      - split.
        + intros [ops H]. congruence.
        + intros (sz & th & a' & _ & H & _). congruence.
      - intros e H. congruence. }
  destruct (py_int_spec (size o)) as [[sz Es]|Es].
  2:{ assert (H0 : exists e, paintEvent o = Raise e
                             /\ (e = TypeError \/ e = OverflowError)).
      { unfold paintEvent, QColor4, sip_int. cbn [py_int bind].
        rewrite !(c_int_fits 0) by lia. cbn [bind]. rewrite Ea, Et, Es.
        cbn [bind].
        rewrite (c_int_channel _ Hr), (c_int_channel _ Hg),
          (c_int_channel _ Hb). cbn [bind].
        destruct (c_int_spec a) as [[_ ->]|[_ ->]]; cbn [bind]; eauto.
        destruct (c_int_spec th) as [[_ ->]|[_ ->]]; cbn [bind]; eauto. }
      destruct H0 as (e0 & H0 & He0). split.
      - split.
        + intros [ops H]. congruence.
        + intros (sz & th' & a' & H & _). congruence.
      - intros e H. congruence. }
  rewrite (paintEvent_int o sz th a Hc Es Et Ea).
  destruct (c_int_spec a) as [[Fa ->]|[Fa ->]];
  destruct (c_int_spec th) as [[Ft ->]|[Ft ->]];
  destruct (c_int_spec (width o / 2 - sz)) as [[Fx ->]|[Fx ->]];
  destruct (c_int_spec (height o / 2 - sz)) as [[Fy ->]|[Fy ->]];
  destruct (c_int_spec (sz * 2)) as [[Fw ->]|[Fw ->]];
  cbn [bind]; (split; [split|]);
  try (intros [ops H]; discriminate H);
  try (intros e H; first [discriminate H|injection H as <-; now right]);
  try (intros (sz' & th' & a' & Es' & Et' & Ea' & F1 & F2 & F3 & F4 & F5);
       rewrite Es in Es'; rewrite Et in Et'; rewrite Ea in Ea';
       injection Es' as <-; injection Et' as <-; injection Ea' as <-;
       tauto).
  - intros _. exists sz, th, a. tauto.
  - intros _. eauto.
Qed.

Lemma paintEvent_succeeds_iff_witness :
  let o := CrosshairOverlay_init 1920 1080 (PStr (u "big")) (PInt 2)
             (QColor_rgba 1 2 3 255) (PInt 255) in
  ((exists ops, paintEvent o = Ok ops)
   <-> exists sz th a,
         py_int (size o) = Ok sz /\ py_int (thickness o) = Ok th
         /\ py_int (transparency o) = Ok a
         /\ fits_c_int th /\ fits_c_int a
         /\ fits_c_int (width o / 2 - sz) /\ fits_c_int (height o / 2 - sz)
         /\ fits_c_int (sz * 2))
  /\ (forall e, paintEvent o = Raise e -> e = TypeError \/ e = OverflowError).
Proof.
  apply (paintEvent_succeeds_iff
           (CrosshairOverlay_init 1920 1080 (PStr (u "big")) (PInt 2)
              (QColor_rgba 1 2 3 255) (PInt 255))).
  reflexivity.
Defined.

(** X5: with a transparency that is an integer outside 0..255, as a
    settings file can give it, [paintEvent] still draws: [QColor] rejects
    the alpha, so the pen and the brush get an invalid colour, and the
    colour of the overlay is not used.  The pen is as wide as the
    thickness when that is within 0..32767, and keeps the width 1 of a
    new pen otherwise. *)
Theorem paintEvent_alpha_out_of_range (o : CrosshairOverlay) (sz th a : Z) :
  QColor_wf (color o) = true ->
  size o = PInt sz -> thickness o = PInt th -> transparency o = PInt a ->
  fits_c_int a -> ~ 0 <= a <= 255 ->
  fits_c_int th ->
  fits_c_int (width o / 2 - sz) -> fits_c_int (height o / 2 - sz) ->
  fits_c_int (sz * 2) ->
  let invalid :=
    {| isValid := false; red := 0; green := 0; blue := 0; alpha := 0 |} in
  paintEvent o
  = Ok [ setPen invalid (QPen_setWidth th 1); setBrush invalid;
         drawEllipse (width o / 2 - sz) (height o / 2 - sz) (sz * 2)
           (sz * 2) ]
  /\ (0 <= th <= 32767 -> QPen_setWidth th 1 = th)
  /\ (~ 0 <= th <= 32767 -> QPen_setWidth th 1 = 1).
Proof.
  intros Hc Es Et Ea Fa Ha Ft Fx Fy Fw invalid. split.
  - rewrite (paintEvent_int o sz th a Hc); [|now rewrite Es|now rewrite Et
                                            |now rewrite Ea].
    rewrite (c_int_fits a Fa), (c_int_fits th Ft), (c_int_fits _ Fx),
      (c_int_fits _ Fy), (c_int_fits _ Fw).
    cbn [bind].
    assert (Hk : channel_ok a = false).
    { apply not_true_is_false. intros H. apply channel_ok_iff in H. tauto. }
    unfold QColor_rgba. rewrite Hk, !andb_false_r. reflexivity.
  - split.
    + intros H. apply QPen_setWidth_in. lia.
    + intros H. unfold QPen_setWidth.
      destruct (Z.leb_spec 0 th); destruct (Z.ltb_spec th 32768);
        cbn [andb]; try reflexivity. lia.
Qed.

Lemma paintEvent_alpha_out_of_range_witness :
  paintEvent (CrosshairOverlay_init 1920 1080 (PInt 3) (PInt 40000)
                (QColor_rgba 255 255 255 255) (PInt 300))
  = Ok [ setPen {| isValid := false; red := 0; green := 0; blue := 0;
                   alpha := 0 |} 1;
         setBrush {| isValid := false; red := 0; green := 0; blue := 0;
                     alpha := 0 |};
         drawEllipse (1920 / 2 - 3) (1080 / 2 - 3) (3 * 2) (3 * 2) ].
Proof.
  apply (paintEvent_alpha_out_of_range
           (CrosshairOverlay_init 1920 1080 (PInt 3) (PInt 40000)
              (QColor_rgba 255 255 255 255) (PInt 300)) 3 40000 300);
    try reflexivity; unfold fits_c_int; cbn; lia.
Defined.

(** What the overlay paints once a dialog has pushed its values. *)
Lemma paintEvent_after_update (w : world) (d : SettingsWindow) :
  dialog_ok d ->
  0 <= width (overlay w) <= 2147483647 ->
  0 <= height (overlay w) <= 2147483647 ->
  paintEvent (overlay (fst (update_settings d w)))
  = Ok [ setPen {| isValid := true; red := 0; green := 0; blue := 0;
                   alpha := value (transparency_slider d) |}
           (value (thickness_slider d));
         setBrush {| isValid := true; red := red (held_color d);
                     green := green (held_color d);
                     blue := blue (held_color d);
                     alpha := value (transparency_slider d) |};
         drawEllipse (width (overlay w) / 2 - value (size_slider d))
           (height (overlay w) / 2 - value (size_slider d))
           (2 * value (size_slider d)) (2 * value (size_slider d)) ].
Proof.
  intros (O1 & O2 & O3 & Hc) Hw Hh.
  destruct O1 as (_ & _ & B1), O2 as (_ & _ & B2), O3 as (_ & _ & B3).
  destruct (QColor_wf_channels _ Hc) as (Hr & Hg & Hb & _).
  apply channel_ok_iff in Hr, Hg, Hb.
  rewrite update_settings_eq. cbn [fst overlay with_overlay].
  unfold set_crosshair_properties.
  match goal with |- paintEvent ?o = _ =>
    rewrite (paintEvent_int o (value (size_slider d))
               (value (thickness_slider d))
               (value (transparency_slider d)) Hc eq_refl eq_refl eq_refl)
  end.
  cbn [width height color].
  assert (Hw2 : 0 <= width (overlay w) / 2 <= 1073741823).
  { Z.div_mod_to_equations. lia. }
  assert (Hh2 : 0 <= height (overlay w) / 2 <= 1073741823).
  { Z.div_mod_to_equations. lia. }
  rewrite !c_int_fits by lia. cbn [bind].
  rewrite !QColor_rgba_in_range by (apply channel_ok_iff; lia).
  rewrite QPen_setWidth_in by lia.
  rewrite (Z.mul_comm _ 2). reflexivity.
Qed.

(** X6: live preview.  When the user moves a slider of the open dialog to
    a new value, the overlay at once paints with the values the dialog
    then shows (the slider that moved at its new position, within its
    range), and the settings file is not touched. *)
Theorem slider_move_repaints (w : world) (d : SettingsWindow)
  (which : slider_id) (pos : Z) :
  reachable w ->
  settings_window (tray_icon w) = Some d -> shown d = true ->
  value (setValue pos (get_slider which d)) <> value (get_slider which d) ->
  0 <= width (overlay w) <= 2147483647 ->
  0 <= height (overlay w) <= 2147483647 ->
  let d' := set_slider which (setValue pos (get_slider which d)) d in
  let w' := fst (handle (SliderMoved which pos) w) in
  snd (handle (SliderMoved which pos) w) = Ok tt
  /\ settings_window (tray_icon w') = Some d'
  /\ fs w' = fs w
  /\ paintEvent (overlay w')
     = Ok [ setPen {| isValid := true; red := 0; green := 0; blue := 0;
                      alpha := value (transparency_slider d') |}
              (value (thickness_slider d'));
            setBrush {| isValid := true; red := red (held_color d);
                        green := green (held_color d);
                        blue := blue (held_color d);
                        alpha := value (transparency_slider d') |};
            drawEllipse (width (overlay w) / 2 - value (size_slider d'))
              (height (overlay w) / 2 - value (size_slider d'))
              (2 * value (size_slider d')) (2 * value (size_slider d')) ].
Proof.
  intros Hr Ed Hs Hne Hw Hh d' w'.
  pose proof (proj1 (inv_dialog w (reachable_inv w Hr) d Ed)) as Hok.
  assert (Hok' : dialog_ok d') by (apply set_slider_ok; exact Hok).
  assert (E : handle (SliderMoved which pos) w
              = update_settings d' (with_dialog d' w)).
  { cbn [handle]. rewrite on_dialog_eq, Ed, Hs.
    unfold slider_moved, pbind, modify.
    apply Z.eqb_neq in Hne. rewrite Hne. reflexivity. }
  subst w'. rewrite E. split; [reflexivity|]. split; [reflexivity|].
  split; [reflexivity|].
  exact (paintEvent_after_update (with_dialog d' w) d' Hok' Hw Hh).
Qed.

Lemma slider_move_repaints_witness :
  let w := fst (handle SettingsClicked default_world) in
  paintEvent (overlay (fst (handle (SliderMoved SizeSlider 50) w)))
  = Ok [ setPen {| isValid := true; red := 0; green := 0; blue := 0;
                   alpha := 255 |} 2;
         setBrush {| isValid := true; red := 255; green := 255; blue := 255;
                     alpha := 255 |};
         drawEllipse (1920 / 2 - 20) (1080 / 2 - 20) (2 * 20) (2 * 20) ].
Proof.
  cbv zeta.
  assert (R : reachable (fst (handle SettingsClicked default_world))).
  { apply reachable_after;
      [exact (reachable_startup _ _ default_world_started)
      |reflexivity|exact I|reflexivity]. }
  refine (proj2 (proj2 (proj2
    (slider_move_repaints _ _ SizeSlider 50 R eq_refl eq_refl _ _ _)))).
  - vm_compute. discriminate.
  - vm_compute. split; discriminate.
  - vm_compute. split; discriminate.
Defined.

(** ** The event loop *)

Lemma exit_app_eq (w : world) :
  exit_app w
  = ({| fs := fs w; overlay := hide (overlay w); tray_icon := tray_icon w;
        dialogs_made := dialogs_made w; exit_requested := Some 0 |}, Ok tt).
Proof. reflexivity. Qed.

Lemma toggle_overlay_eq (w : world) :
  toggle_overlay w
  = (with_tray
       {| is_overlay_visible := negb (is_overlay_visible (tray_icon w));
          toggle_action_text :=
            (if is_overlay_visible (tray_icon w) then u "Show Crosshair"
             else u "Hide Crosshair");
          settings_window := settings_window (tray_icon w) |}
       (with_overlay
          (set_visible (negb (is_overlay_visible (tray_icon w))) (overlay w))
          w), Ok tt).
Proof.
  unfold toggle_overlay, modify.
  destruct (is_overlay_visible (tray_icon w)); reflexivity.
Qed.

Lemma slider_moved_eq (which : slider_id) (pos : Z) (d : SettingsWindow)
  (w : world) :
  slider_moved which pos d w
  = let d' := set_slider which (setValue pos (get_slider which d)) d in
    if value (setValue pos (get_slider which d)) =? value (get_slider which d)
    then (with_dialog d' w, Ok tt)
    else update_settings d' (with_dialog d' w).
Proof.
  unfold slider_moved, pbind, modify, ret. cbv zeta.
  destruct (_ =? _); reflexivity.
Qed.

Lemma open_color_dialog_eq (picked : QColor) (d : SettingsWindow) (w : world) :
  open_color_dialog picked d w
  = if isValid picked
    then update_settings (set_held_color picked d)
           (with_dialog (set_held_color picked d) w)
    else (w, Ok tt).
Proof. unfold open_color_dialog. destruct (isValid picked); reflexivity. Qed.

(** A slot other than [apply_settings] leaves the settings file alone. *)
Lemma handle_keeps_fs (ev : event) (w : world) :
  ev <> ApplyClicked -> fs (fst (handle ev w)) = fs w.
Proof.
  intros Hev. destruct ev; cbn [handle]; try congruence.
  - rewrite toggle_overlay_eq. reflexivity.
  - rewrite open_settings_eq. cbv zeta.
    destruct (SettingsWindow_init _ _); reflexivity.
  - reflexivity.
  - destruct reason; cbn [on_tray_icon_activated];
      try rewrite toggle_overlay_eq; reflexivity.
  - rewrite on_dialog_eq. destruct (settings_window _) as [d|]; [|reflexivity].
    destruct (shown d); [|reflexivity].
    rewrite slider_moved_eq. cbv zeta. destruct (_ =? _); reflexivity.
  - rewrite on_dialog_eq. destruct (settings_window _) as [d|]; [|reflexivity].
    destruct (shown d); [|reflexivity].
    rewrite open_color_dialog_eq. destruct (isValid picked); reflexivity.
Qed.

(** No slot resizes the overlay. *)
Lemma handle_keeps_geometry (ev : event) (w : world) :
  width (overlay (fst (handle ev w))) = width (overlay w)
  /\ height (overlay (fst (handle ev w))) = height (overlay w).
Proof.
  destruct ev; cbn [handle].
  - rewrite toggle_overlay_eq. split; reflexivity.
  - rewrite open_settings_eq. cbv zeta.
    destruct (SettingsWindow_init _ _); split; reflexivity.
  - split; reflexivity.
  - destruct reason; cbn [on_tray_icon_activated];
      try rewrite toggle_overlay_eq; split; reflexivity.
  - rewrite on_dialog_eq.
    destruct (settings_window _) as [d|]; [|split; reflexivity].
    destruct (shown d); [|split; reflexivity].
    rewrite slider_moved_eq. cbv zeta.
    destruct (_ =? _); split; reflexivity.
  - rewrite on_dialog_eq.
    destruct (settings_window _) as [d|]; [|split; reflexivity].
    destruct (shown d); [|split; reflexivity].
    rewrite open_color_dialog_eq.
    destruct (isValid picked); split; reflexivity.
  - rewrite on_dialog_eq.
    destruct (settings_window _) as [d|]; [|split; reflexivity].
    destruct (shown d); [|split; reflexivity].
    rewrite apply_settings_eq. cbv zeta.
    destruct (snd _); split; reflexivity.
Qed.

(** Only [exit_app] asks the event loop to stop. *)
Lemma handle_exit_requested (ev : event) (w : world) :
  ev <> ExitClicked -> exit_requested (fst (handle ev w)) = exit_requested w.
Proof.
  intros Hev. destruct ev; cbn [handle]; try congruence.
  - rewrite toggle_overlay_eq. reflexivity.
  - rewrite open_settings_eq. cbv zeta.
    destruct (SettingsWindow_init _ _); reflexivity.
  - destruct reason; cbn [on_tray_icon_activated];
      try rewrite toggle_overlay_eq; reflexivity.
  - rewrite on_dialog_eq. destruct (settings_window _) as [d|]; [|reflexivity].
    destruct (shown d); [|reflexivity].
    rewrite slider_moved_eq. cbv zeta. destruct (_ =? _); reflexivity.
  - rewrite on_dialog_eq. destruct (settings_window _) as [d|]; [|reflexivity].
    destruct (shown d); [|reflexivity].
    rewrite open_color_dialog_eq. destruct (isValid picked); reflexivity.
  - rewrite on_dialog_eq. destruct (settings_window _) as [d|]; [|reflexivity].
    destruct (shown d); [|reflexivity].
    rewrite apply_settings_eq. cbv zeta. destruct (snd _); reflexivity.
Qed.

Lemma run_events_cons (ev : event) (evs : list event) (w : world) :
  run_events (ev :: evs) w
  = match handle ev w with
    | (w', Ok _) => run_events evs w'
    | (w', Raise e) => (w', Raise e)
    end.
Proof. reflexivity. Qed.

Lemma handle_unit (ev : event) (w : world) (u0 : unit) (w' : world) :
  handle ev w = (w', Ok u0) -> handle ev w = (w', Ok tt).
Proof. destruct u0. tauto. Qed.

(** The event loop that is still running has run every slot. *)
Lemma exec_Running (evs : list event) (w w' : world) :
  exec_ w evs = Running w' ->
  run_events evs w = (w', Ok tt) /\ exit_requested w' = None
  /\ ~ In ExitClicked evs.
Proof.
  revert w. induction evs as [|ev rest IH]; intros w; cbn [exec_].
  - destruct (exit_requested w) eqn:E; [discriminate|].
    intros [= <-]. repeat split; auto.
  - destruct (exit_requested w) eqn:E; [discriminate|].
    rewrite run_events_cons.
    destruct (handle ev w) as [w1 [[]|x]] eqn:H; [|discriminate].
    intros Hr. destruct (IH _ Hr) as (R1 & R2 & R3).
    repeat split; auto.
    intros [->|Hin]; [|tauto].
    cbn [handle] in H. rewrite exit_app_eq in H. injection H as <-.
    destruct rest; cbn in Hr; discriminate.
Qed.

Lemma startup_Ok (e : env) (w : world) :
  startup e = Ok w ->
  exists s t c a,
    tray_available e = true /\ icon_exists e = true
    /\ load_settings (initial_disk e) = Ok (s, t, c, a)
    /\ w = {| fs := initial_disk e;
              overlay := show (CrosshairOverlay_init (screen_width e)
                                 (screen_height e) s t c a);
              tray_icon := {| is_overlay_visible := true;
                              toggle_action_text := u "Hide Crosshair";
                              settings_window := None |};
              dialogs_made := 0%nat; exit_requested := None |}.
Proof.
  unfold startup, SystemTrayIcon_init.
  destruct (tray_available e); [|discriminate]. cbn [negb].
  destruct (load_settings (initial_disk e)) as [[[[s t] c] a]|x];
    [|discriminate].
  cbn [bind]. destruct (icon_exists e); [|discriminate].
  cbn [bind]. intros [= <-]. exists s, t, c, a. repeat split.
Qed.

Lemma run_events_keeps_fs (evs : list event) (w : world) :
  ~ In ApplyClicked evs -> fs (fst (run_events evs w)) = fs w.
Proof.
  revert w. induction evs as [|ev rest IH]; intros w Hin; [reflexivity|].
  rewrite run_events_cons.
  assert (Hev : ev <> ApplyClicked) by (intros ->; apply Hin; now left).
  pose proof (handle_keeps_fs ev w Hev) as Hfs.
  destruct (handle ev w) as [w1 [[]|x]]; cbn [fst] in *.
  - rewrite IH; [exact Hfs|]. intros H; apply Hin; now right.
  - exact Hfs.
Qed.

Lemma run_events_keeps_geometry (evs : list event) (w : world) :
  width (overlay (fst (run_events evs w))) = width (overlay w)
  /\ height (overlay (fst (run_events evs w))) = height (overlay w).
Proof.
  revert w. induction evs as [|ev rest IH]; intros w; [split; reflexivity|].
  rewrite run_events_cons.
  pose proof (handle_keeps_geometry ev w) as [Hw Hh].
  destruct (handle ev w) as [w1 [[]|x]]; cbn [fst] in *.
  - destruct (IH w1) as [Hw1 Hh1]. split; congruence.
  - split; assumption.
Qed.

(** X7: the settings file is written by Apply and by nothing else.
    Whatever the user does after start-up, as long as Apply is not
    clicked the file is as the program found it, also when a slot raised
    on the way. *)
Theorem only_apply_writes (e : env) (w0 : world) (evs : list event) :
  startup e = Ok w0 -> ~ In ApplyClicked evs ->
  fs (fst (run_events evs w0)) = initial_disk e.
Proof.
  intros Hs Hin. rewrite (run_events_keeps_fs evs w0 Hin).
  destruct (startup_Ok e w0 Hs) as (s & t & c & a & _ & _ & _ & ->).
  reflexivity.
Qed.

Lemma only_apply_writes_witness :
  fs (fst (run_events
             [SettingsClicked; SliderMoved SizeSlider 9;
              ColorPicked (QColor_rgba 1 2 3 255); ToggleClicked;
              ExitClicked] default_world))
  = empty_disk 4096.
Proof.
  apply (only_apply_writes (env_with (empty_disk 4096)) default_world
           [SettingsClicked; SliderMoved SizeSlider 9;
            ColorPicked (QColor_rgba 1 2 3 255); ToggleClicked;
            ExitClicked]).
  - exact default_world_started.
  - cbn [In]. intros H. repeat (destruct H as [H|H]; [discriminate H|]).
    exact H.
Defined.

(** X8: the overlay keeps the geometry of the screen it was created on:
    [update_window_geometry] runs in the constructor only, and no slot
    changes the width or the height, whatever the events are. *)
Theorem overlay_keeps_screen_geometry (e : env) (w0 : world)
  (evs : list event) :
  startup e = Ok w0 ->
  width (overlay (fst (run_events evs w0))) = screen_width e
  /\ height (overlay (fst (run_events evs w0))) = screen_height e.
Proof.
  intros Hs. destruct (run_events_keeps_geometry evs w0) as [Hw Hh].
  rewrite Hw, Hh.
  destruct (startup_Ok e w0 Hs) as (s & t & c & a & _ & _ & _ & ->).
  split; reflexivity.
Qed.

Lemma overlay_keeps_screen_geometry_witness :
  width (overlay (fst (run_events
                         [SettingsClicked; SliderMoved SizeSlider 20;
                          ApplyClicked; ToggleClicked] oversized_world)))
  = 1920
  /\ height (overlay (fst (run_events
                            [SettingsClicked; SliderMoved SizeSlider 20;
                             ApplyClicked; ToggleClicked] oversized_world)))
     = 1080.
Proof.
  apply (overlay_keeps_screen_geometry (env_with oversized_disk)
           oversized_world
           [SettingsClicked; SliderMoved SizeSlider 20; ApplyClicked;
            ToggleClicked]).
  exact oversized_world_started.
Defined.

(** ** The tray label *)

Lemma handle_keeps_synced (ev : event) (w : world) :
  tray_synced w -> ev <> ExitClicked -> tray_synced (fst (handle ev w)).
Proof.
  intros [Hf Ht] Hev. unfold tray_synced.
  destruct ev; cbn [handle]; try congruence.
  - rewrite toggle_overlay_eq. cbn. rewrite Hf.
    destruct (visible (overlay w)); split; reflexivity.
  - rewrite open_settings_eq. cbv zeta.
    destruct (SettingsWindow_init _ _); cbn; split; assumption.
  - destruct reason; cbn [on_tray_icon_activated];
      try (cbn; split; assumption).
    rewrite toggle_overlay_eq. cbn. rewrite Hf.
    destruct (visible (overlay w)); split; reflexivity.
  - rewrite on_dialog_eq.
    destruct (settings_window _) as [d|]; [|split; assumption].
    destruct (shown d); [|split; assumption].
    rewrite slider_moved_eq. cbv zeta.
    destruct (_ =? _); cbn; split; assumption.
  - rewrite on_dialog_eq.
    destruct (settings_window _) as [d|]; [|split; assumption].
    destruct (shown d); [|split; assumption].
    rewrite open_color_dialog_eq.
    destruct (isValid picked); cbn; split; assumption.
  - rewrite on_dialog_eq.
    destruct (settings_window _) as [d|]; [|split; assumption].
    destruct (shown d); [|split; assumption].
    rewrite apply_settings_eq. cbv zeta.
    destruct (snd _); cbn; split; assumption.
Qed.

Lemma run_events_keeps_synced (evs : list event) (w : world) :
  tray_synced w -> ~ In ExitClicked evs ->
  tray_synced (fst (run_events evs w)).
Proof.
  revert w. induction evs as [|ev rest IH]; intros w Hs Hin; [exact Hs|].
  rewrite run_events_cons.
  assert (Hev : ev <> ExitClicked) by (intros ->; apply Hin; now left).
  pose proof (handle_keeps_synced ev w Hs Hev) as H1.
  destruct (handle ev w) as [w1 [[]|x]]; cbn [fst] in *; [|exact H1].
  apply IH; [exact H1|]. intros H; apply Hin; now right.
Qed.

(** X10: while the program runs, the tray icon tells the truth: in
    whatever state the event loop is after start-up and any events, the
    flag of the tray icon equals the visibility of the overlay, and the
    first menu item reads Hide Crosshair when the overlay is visible and
    Show Crosshair when it is hidden. *)
Theorem running_tray_synced (e : env) (evs : list event) (w : world) :
  main e evs = Running w ->
  is_overlay_visible (tray_icon w) = visible (overlay w)
  /\ toggle_action_text (tray_icon w)
     = (if visible (overlay w) then u "Hide Crosshair"
        else u "Show Crosshair").
Proof.
  unfold main. destruct (startup e) as [w0|x] eqn:Hs; [|discriminate].
  intros Hr. destruct (exec_Running evs w0 w Hr) as (Hrun & _ & Hin).
  assert (H0 : tray_synced w0).
  { destruct (startup_Ok e w0 Hs) as (s & t & c & a & _ & _ & _ & ->).
    split; reflexivity. }
  pose proof (run_events_keeps_synced evs w0 H0 Hin) as H.
  rewrite Hrun in H. exact H.
Qed.

Lemma running_tray_synced_witness :
  let w := fst (run_events [ToggleClicked; SettingsClicked;
                            SliderMoved SizeSlider 7] default_world) in
  is_overlay_visible (tray_icon w) = visible (overlay w)
  /\ toggle_action_text (tray_icon w)
     = (if visible (overlay w) then u "Hide Crosshair"
        else u "Show Crosshair").
Proof.
  apply (running_tray_synced (env_with (empty_disk 4096))
           [ToggleClicked; SettingsClicked; SliderMoved SizeSlider 7]).
  reflexivity.
Defined.

(** ** What can stop the program *)

Lemma sip_int_raises (v : pyval) (x : exn) :
  sip_int v = Raise x -> x = TypeError \/ x = OverflowError.
Proof.
  unfold sip_int. destruct (py_int_spec v) as [[z ->]| ->]; cbn [bind].
  - destruct (c_int_spec z) as [[_ ->]|[_ ->]]; [discriminate|].
    intros [= <-]. now right.
  - intros [= <-]. now left.
Qed.

Lemma make_slider_raises (lo hi : Z) (v : pyval) (x : exn) :
  make_slider lo hi v = Raise x -> x = TypeError \/ x = OverflowError.
Proof.
  unfold make_slider. cbv zeta.
  destruct (sip_int v) eqn:E; cbn [bind]; [discriminate|].
  intros [= <-]. exact (sip_int_raises v e E).
Qed.

Lemma SettingsWindow_init_raises (id : nat) (o : CrosshairOverlay) (x : exn) :
  SettingsWindow_init id o = Raise x -> x = TypeError \/ x = OverflowError.
Proof.
  unfold SettingsWindow_init.
  destruct (make_slider 1 20 (size o)) eqn:E1; cbn [bind];
    [|intros [= <-]; exact (make_slider_raises _ _ _ _ E1)].
  destruct (make_slider 1 10 (thickness o)) eqn:E2; cbn [bind];
    [|intros [= <-]; exact (make_slider_raises _ _ _ _ E2)].
  destruct (make_slider 0 255 (transparency o)) eqn:E3; cbn [bind];
    [discriminate|intros [= <-]; exact (make_slider_raises _ _ _ _ E3)].
Qed.

Lemma save_settings_raises (s t : pyval) (c : QColor) (a : pyval) (d : disk)
  (x : exn) :
  snd (save_settings s t c a d) = Raise x ->
  x = PermissionError \/ x = OSError.
Proof.
  unfold save_settings, pbind, open_w, write_close.
  destruct (writable d); [|intros [= <-]; now left].
  destruct (_ <=? _)%nat; cbn [snd]; [discriminate|].
  intros [= <-]. now right.
Qed.

(** A slot that raises is [open_settings] or [apply_settings]. *)
Lemma handle_raises (ev : event) (w : world) (x : exn) :
  snd (handle ev w) = Raise x ->
  (ev = SettingsClicked
   /\ SettingsWindow_init (dialogs_made w) (overlay w) = Raise x
   /\ (x = TypeError \/ x = OverflowError))
  \/ (ev = ApplyClicked /\ (x = PermissionError \/ x = OSError)).
Proof.
  destruct ev; cbn [handle].
  - rewrite toggle_overlay_eq. discriminate.
  - rewrite open_settings_eq. cbv zeta.
    destruct (SettingsWindow_init _ _) eqn:E; cbn [snd]; [discriminate|].
    intros [= <-]. left. repeat split.
    exact (SettingsWindow_init_raises _ _ _ E).
  - discriminate.
  - destruct reason; cbn [on_tray_icon_activated];
      try rewrite toggle_overlay_eq; discriminate.
  - rewrite on_dialog_eq.
    destruct (settings_window _) as [d|]; [|discriminate].
    destruct (shown d); [|discriminate].
    rewrite slider_moved_eq. cbv zeta. destruct (_ =? _); discriminate.
  - rewrite on_dialog_eq.
    destruct (settings_window _) as [d|]; [|discriminate].
    destruct (shown d); [|discriminate].
    rewrite open_color_dialog_eq. destruct (isValid picked); discriminate.
  - rewrite on_dialog_eq.
    destruct (settings_window _) as [d|]; [|discriminate].
    destruct (shown d); [|discriminate].
    rewrite apply_settings_eq. cbv zeta.
    destruct (snd (save_settings _ _ _ _ _)) eqn:E; cbn [snd]; [discriminate|].
    intros [= <-]. right. split; [reflexivity|].
    exact (save_settings_raises _ _ _ _ _ _ E).
Qed.

(** With an appearance within the ranges, a dialog can be built. *)
Lemma SettingsWindow_init_in_range (id : nat) (o : CrosshairOverlay) :
  appearance_ok o = true -> exists d, SettingsWindow_init id o = Ok d.
Proof.
  unfold appearance_ok, in_range. rewrite !andb_true_iff.
  intros [[[Hs Ht] _] Ha].
  destruct (size o) as [| | sz| | | |] eqn:Es; try discriminate.
  destruct (thickness o) as [| | th| | | |] eqn:Et; try discriminate.
  destruct (transparency o) as [| | a| | | |] eqn:Ea; try discriminate.
  rewrite andb_true_iff, !Z.leb_le in Hs, Ht, Ha.
  destruct (SettingsWindow_init_int id o sz th a Es Et Ea)
    as (d & Hd & _); try lia.
  exists d. exact Hd.
Qed.

Lemma exec_stopped (w : world) (evs : list event) (c : Z) :
  exit_requested w = Some c -> exec_ w evs = Exited c.
Proof. intros H. destruct evs; cbn [exec_]; rewrite H; reflexivity. Qed.

(** X12: once the appearance is within the ranges, only Apply can stop
    the program.  From a reachable state whose size, thickness, colour and
    transparency are within the ranges, whatever the user does, the
    Settings item always finds a dialog to build, and an exception that
    aborts the event loop is a [PermissionError] or an [OSError] of the
    write of Apply. *)
Theorem in_range_only_apply_aborts (w : world) (evs : list event) (x : exn) :
  reachable w -> exit_requested w = None ->
  appearance_ok (overlay w) = true ->
  Forall event_ok evs ->
  exec_ w evs = Aborted x ->
  In ApplyClicked evs /\ (x = PermissionError \/ x = OSError).
Proof.
  intros Hr Hx Ha Hevs. revert w Hr Hx Ha.
  induction Hevs as [|ev rest Hev Hrest IH]; intros w Hr Hx Ha;
    cbn [exec_]; rewrite Hx; [discriminate|].
  destruct (handle ev w) as [w1 [[]|x0]] eqn:H.
  - intros Hab.
    destruct (exit_requested w1) as [c|] eqn:Hx1.
    { rewrite (exec_stopped w1 rest c Hx1) in Hab. discriminate. }
    assert (Hr1 : reachable w1)
      by exact (reachable_step w w1 ev Hr Hx Hev H).
    assert (Ha1 : appearance_ok (overlay w1) = true).
    { pose proof (handle_keeps_in_range w ev (reachable_inv w Hr) Hev Ha)
        as K. rewrite H in K. exact K. }
    destruct (IH w1 Hr1 Hx1 Ha1 Hab) as [Hin Hx0].
    split; [now right|exact Hx0].
  - intros [= <-].
    assert (Hs : snd (handle ev w) = Raise x0) by now rewrite H.
    destruct (handle_raises ev w x0 Hs) as [(-> & Hi & _)|(-> & Hx0)].
    + destruct (SettingsWindow_init_in_range (dialogs_made w) (overlay w) Ha)
        as [d Hd]. congruence.
    + split; [now left|exact Hx0].
Qed.

Lemma in_range_only_apply_aborts_witness :
  let w := started {| file := None; readable := true; writable := false;
                      capacity := 4096 |}
             (PInt 3) (PInt 2) (QColor_rgba 255 255 255 255) (PInt 255) in
  exec_ w [SettingsClicked; SliderMoved SizeSlider 9; ApplyClicked]
  = Aborted PermissionError
  /\ In ApplyClicked [SettingsClicked; SliderMoved SizeSlider 9; ApplyClicked]
  /\ (PermissionError = PermissionError \/ PermissionError = OSError).
Proof.
  cbv zeta. split; [reflexivity|].
  apply (in_range_only_apply_aborts
           (started {| file := None; readable := true; writable := false;
                       capacity := 4096 |}
              (PInt 3) (PInt 2) (QColor_rgba 255 255 255 255) (PInt 255))
           [SettingsClicked; SliderMoved SizeSlider 9; ApplyClicked]
           PermissionError).
  - apply (reachable_startup
             (env_with {| file := None; readable := true; writable := false;
                          capacity := 4096 |})).
    reflexivity.
  - reflexivity.
  - reflexivity.
  - repeat constructor.
  - reflexivity.
Defined.

(** ** Apply, and the next start *)

Lemma handle_apply_eq (w : world) (d : SettingsWindow) :
  settings_window (tray_icon w) = Some d -> shown d = true ->
  handle ApplyClicked w = apply_settings d w.
Proof.
  intros Hd Hs. cbn [handle]. rewrite on_dialog_eq, Hd, Hs. reflexivity.
Qed.

(** X13: what Apply saves is what the next start shows.  After Apply in
    a running program, a program started on the file Apply wrote gets an
    overlay with the size, the thickness and the transparency of the
    sliders and the red, green and blue of the dialog, within the
    ranges. *)
Theorem apply_then_restart (w : world) (d : SettingsWindow) (e : env) :
  reachable w ->
  settings_window (tray_icon w) = Some d -> shown d = true ->
  writable (fs w) = true ->
  file (fs w) = None \/ readable (fs w) = true ->
  (List.length
     (json_dumps
        (settings_dict (PInt (value (size_slider d)))
           (PInt (value (thickness_slider d))) (held_color d)
           (PInt (value (transparency_slider d)))))
   <= capacity (fs w))%nat ->
  tray_available e = true -> icon_exists e = true ->
  initial_disk e = fs (fst (handle ApplyClicked w)) ->
  exists w0,
    startup e = Ok w0
    /\ size (overlay w0) = PInt (value (size_slider d))
    /\ thickness (overlay w0) = PInt (value (thickness_slider d))
    /\ transparency (overlay w0) = PInt (value (transparency_slider d))
    /\ color (overlay w0)
       = {| isValid := true; red := red (held_color d);
            green := green (held_color d); blue := blue (held_color d);
            alpha := 255 |}
    /\ visible (overlay w0) = true
    /\ appearance_ok (overlay w0) = true.
Proof.
  intros Hr Hd Hs Hw Hrd Hcap Ht Hi He.
  destruct (proj1 (inv_dialog w (reachable_inv w Hr) d Hd))
    as (O1 & O2 & O3 & Hc).
  destruct (QColor_wf_channels _ Hc) as (Cr & Cg & Cb & _).
  rewrite (handle_apply_eq w d Hd Hs), apply_settings_eq in He.
  rewrite update_settings_eq in He. cbv zeta in He.
  cbn [fst overlay with_overlay set_crosshair_properties size thickness
       color transparency fs] in He.
  rewrite (save_settings_ok _ _ _ _ _ Hw Hcap) in He.
  cbn [snd fst with_fs with_dialog with_tray fs] in He.
  assert (Hl : load_settings (initial_disk e)
               = Ok (PInt (value (size_slider d)),
                     PInt (value (thickness_slider d)),
                     QColor_rgba (red (held_color d)) (green (held_color d))
                       (blue (held_color d)) 255,
                     PInt (value (transparency_slider d)))).
  { apply load_settings_int_settings; try assumption.
    - rewrite He. cbn [file]. now rewrite settings_dict_int.
    - rewrite He. cbn [readable].
      destruct Hrd as [-> | Hrd]; [reflexivity|].
      destruct (file (fs w)); [exact Hrd|reflexivity]. }
  unfold startup, SystemTrayIcon_init. rewrite Ht, Hl, Hi. cbn [negb bind].
  eexists. split; [reflexivity|].
  unfold show.
  cbn [overlay set_visible CrosshairOverlay_init size thickness
       transparency color visible].
  repeat split.
  - apply QColor_rgba_in_range; auto.
  - unfold appearance_ok.
    unfold show. cbn [size thickness transparency color set_visible
                      CrosshairOverlay_init].
    rewrite (in_range_slider _ _ _ O1), (in_range_slider _ _ _ O2),
      (in_range_slider _ _ _ O3), QColor_rgba_wf. reflexivity.
Qed.

Lemma apply_then_restart_witness :
  let w := fst (run_events [SettingsClicked; SliderMoved SizeSlider 9;
                            ColorPicked (QColor_rgba 10 20 30 40)]
                  default_world) in
  exists w0,
    startup (env_with (fs (fst (handle ApplyClicked w)))) = Ok w0
    /\ size (overlay w0) = PInt 9
    /\ color (overlay w0) = QColor_rgba 10 20 30 255.
Proof.
  cbv zeta.
  assert (R : reachable
                (fst (run_events [SettingsClicked; SliderMoved SizeSlider 9;
                                  ColorPicked (QColor_rgba 10 20 30 40)]
                        default_world))).
  { apply (reachable_step
             (fst (run_events [SettingsClicked; SliderMoved SizeSlider 9]
                     default_world)) _
             (ColorPicked (QColor_rgba 10 20 30 40)));
      [|reflexivity|reflexivity|reflexivity].
    apply (reachable_step (fst (run_events [SettingsClicked] default_world))
             _ (SliderMoved SizeSlider 9));
      [|reflexivity|exact I|reflexivity].
    apply (reachable_step default_world _ SettingsClicked);
      [|reflexivity|exact I|reflexivity].
    exact (reachable_startup _ _ default_world_started). }
  destruct (apply_then_restart _ _
              (env_with (fs (fst (handle ApplyClicked
                 (fst (run_events [SettingsClicked; SliderMoved SizeSlider 9;
                                   ColorPicked (QColor_rgba 10 20 30 40)]
                         default_world))))))
              R eq_refl eq_refl eq_refl (or_introl eq_refl))
    as (w0 & H0 & H1 & _ & _ & H2 & _).
  - apply Nat.leb_le. vm_compute. reflexivity.
  - reflexivity.
  - reflexivity.
  - reflexivity.
  - exists w0. split; [exact H0|]. split; [exact H1|exact H2].
Defined.

(** X14: when the write of Apply fails, the overlay has the values of
    the dialog all the same, and the dialog is still open: Apply pushes
    the values before it saves, and hides the dialog after.  A file that
    may not be written is left as it was; a device that is full leaves
    the part of the record that fitted. *)
Theorem apply_failure_keeps_dialog (w : world) (d : SettingsWindow)
  (x : exn) :
  settings_window (tray_icon w) = Some d -> shown d = true ->
  snd (handle ApplyClicked w) = Raise x ->
  let w' := fst (handle ApplyClicked w) in
  let record :=
    json_dumps
      (settings_dict (PInt (value (size_slider d)))
         (PInt (value (thickness_slider d))) (held_color d)
         (PInt (value (transparency_slider d)))) in
  overlay w'
  = set_crosshair_properties (PInt (value (size_slider d)))
      (PInt (value (thickness_slider d))) (held_color d)
      (PInt (value (transparency_slider d))) (overlay w)
  /\ tray_icon w' = tray_icon w
  /\ ((x = PermissionError /\ writable (fs w) = false /\ fs w' = fs w)
      \/ (x = OSError /\ writable (fs w) = true
          /\ (capacity (fs w) < List.length record)%nat
          /\ file (fs w') = Some (firstn (capacity (fs w)) record))).
Proof.
  intros Hd Hs. rewrite (handle_apply_eq w d Hd Hs), apply_settings_eq.
  rewrite update_settings_eq. cbv zeta.
  cbn [fst overlay with_overlay set_crosshair_properties size thickness
       color transparency fs].
  unfold save_settings, pbind, open_w, write_close.
  destruct (writable (fs w)) eqn:Hw.
  - cbn [capacity]. destruct (_ <=? _)%nat eqn:Hc; cbn [snd fst];
      [discriminate|].
    intros [= <-]. repeat split. right. repeat split.
    apply Nat.leb_gt. exact Hc.
  - cbn [snd fst]. intros [= <-]. repeat split. left. repeat split.
Qed.

Lemma apply_failure_keeps_dialog_witness :
  let w := fst (run_events [SettingsClicked; SliderMoved SizeSlider 9]
                  (started (empty_disk 10) (PInt 3) (PInt 2)
                     (QColor_rgba 255 255 255 255) (PInt 255))) in
  let w' := fst (handle ApplyClicked w) in
  size (overlay w') = PInt 9
  /\ option_map shown (settings_window (tray_icon w')) = Some true
  /\ file (fs w') = Some (text "{'size': 9").
Proof.
  cbv zeta.
  destruct (apply_failure_keeps_dialog
              (fst (run_events [SettingsClicked; SliderMoved SizeSlider 9]
                      (started (empty_disk 10) (PInt 3) (PInt 2)
                         (QColor_rgba 255 255 255 255) (PInt 255))))
              _ OSError eq_refl eq_refl eq_refl)
    as (Ho & Ht & [(Hx & _)|(_ & _ & _ & Hf)]).
  - discriminate Hx.
  - rewrite Ho, Ht, Hf. repeat split.
Defined.

(** ** Start-up *)

Lemma getitem_raises (v : pyval) (k : pystr) (x : exn) :
  getitem v k = Raise x -> x = KeyError \/ x = TypeError.
Proof.
  unfold getitem. destruct v; try (intros [= <-]; now right).
  destruct (dict_get _ _); [discriminate|intros [= <-]; now left].
Qed.

Lemma QColor3_raises (r g b : pyval) (x : exn) :
  QColor3 r g b = Raise x -> x = TypeError \/ x = OverflowError.
Proof.
  unfold QColor3.
  destruct (sip_int r) eqn:E1; cbn [bind];
    [|intros [= <-]; exact (sip_int_raises _ _ E1)].
  destruct (sip_int g) eqn:E2; cbn [bind];
    [|intros [= <-]; exact (sip_int_raises _ _ E2)].
  destruct (sip_int b) eqn:E3; cbn [bind];
    [discriminate|intros [= <-]; exact (sip_int_raises _ _ E3)].
Qed.

Lemma json_loads_raises (s : pystr) (x : exn) :
  json_loads s = Raise x -> x = JSONDecodeError \/ x = RecursionError.
Proof.
  unfold json_loads. destruct (scan_once _ _) as [v rest| |].
  - destruct (skip_ws rest); [discriminate|intros [= <-]; now left].
  - intros [= <-]; now left.
  - intros [= <-]; now right.
Qed.

(** What escapes [load_settings] is not one of the two exceptions it
    catches, and is no [SystemExit]. *)
Lemma load_settings_raises (d : disk) (x : exn) :
  load_settings d = Raise x ->
  x = PermissionError \/ x = JSONDecodeError \/ x = RecursionError
  \/ x = TypeError \/ x = OverflowError.
Proof.
  unfold load_settings.
  destruct (load_settings_try d) as [v|y] eqn:E; [discriminate|].
  assert (Hy : y = FileNotFoundError \/ y = KeyError \/ y = PermissionError
               \/ y = JSONDecodeError \/ y = RecursionError
               \/ y = TypeError \/ y = OverflowError).
  { revert E. unfold load_settings_try, open_r.
    destruct (file d) as [t|]; cbn [bind]; [|intros [= <-]; tauto].
    destruct (readable d); cbn [bind]; [|intros [= <-]; tauto].
    destruct (json_loads t) as [doc|y0] eqn:EJ; cbn [bind];
      [|intros [= <-]; destruct (json_loads_raises _ _ EJ); tauto].
    repeat match goal with
    | |- bind (getitem ?v ?k) _ = _ -> _ =>
        let EG := fresh "EG" in
        destruct (getitem v k) eqn:EG; cbn [bind];
        [|intros [= <-]; destruct (getitem_raises _ _ _ EG); tauto]
    | |- bind (QColor3 ?r ?g ?b) _ = _ -> _ =>
        let EQ := fresh "EQ" in
        destruct (QColor3 r g b) eqn:EQ; cbn [bind];
        [|intros [= <-]; destruct (QColor3_raises _ _ _ _ EQ); tauto]
    end.
    discriminate. }
  destruct Hy as [->|[->|Hy]]; [discriminate|discriminate|].
  destruct Hy as [->|[->|[->|[->| ->]]]]; intros [= <-]; tauto.
Qed.

(** ** Slots that change nothing, and slots that commute *)

Lemma set_slider_same (which : slider_id) (d : SettingsWindow) :
  set_slider which (get_slider which d) d = d.
Proof. destruct d, which; reflexivity. Qed.

Lemma setValue_same (pos : Z) (s : QSlider) :
  value (setValue pos s) = value s -> setValue pos s = s.
Proof.
  destruct s as [lo hi v]. unfold setValue. cbn [minimum maximum value].
  intros ->. reflexivity.
Qed.

Lemma with_dialog_same (w : world) (d : SettingsWindow) :
  settings_window (tray_icon w) = Some d -> with_dialog d w = w.
Proof.
  destruct w as [f o [v t sw] n x]. cbn. intros ->. reflexivity.
Qed.

(** X16: a slider moved to where it is changes nothing at all.  When the
    position asked for, brought into the range of the slider, is the value
    the slider has, [valueChanged] is not emitted and [update_settings]
    does not run: the state is the same, also an overlay that does not
    show the values of the dialog keeps the ones it has. *)
Theorem slider_move_to_same_value (w : world) (d : SettingsWindow)
  (which : slider_id) (pos : Z) :
  settings_window (tray_icon w) = Some d -> shown d = true ->
  qBound (minimum (get_slider which d)) pos (maximum (get_slider which d))
  = value (get_slider which d) ->
  handle (SliderMoved which pos) w = (w, Ok tt).
Proof.
  intros Hd Hs Hq. cbn [handle]. rewrite on_dialog_eq, Hd, Hs.
  rewrite slider_moved_eq. cbv zeta.
  assert (Hv : value (setValue pos (get_slider which d))
               = value (get_slider which d)) by exact Hq.
  rewrite Hv, Z.eqb_refl, (setValue_same _ _ Hv), set_slider_same.
  now rewrite (with_dialog_same w d Hd).
Qed.

Lemma slider_move_to_same_value_witness :
  let w := fst (handle SettingsClicked oversized_world) in
  handle (SliderMoved SizeSlider 500) w = (w, Ok tt)
  /\ size (overlay w) = PInt 500.
Proof.
  cbv zeta. split; [|reflexivity].
  apply (slider_move_to_same_value
           (fst (handle SettingsClicked oversized_world)) _ SizeSlider 500
           eq_refl eq_refl).
  reflexivity.
Defined.

Lemma toggle_keeps_dialog (w : world) :
  settings_window (tray_icon (fst (toggle_overlay w)))
  = settings_window (tray_icon w).
Proof. rewrite toggle_overlay_eq. reflexivity. Qed.

Lemma toggle_keeps_dialogs_made (w : world) :
  dialogs_made (fst (toggle_overlay w)) = dialogs_made w.
Proof. rewrite toggle_overlay_eq. reflexivity. Qed.

(** A dialog is built from the appearance, not from the visibility. *)
Lemma toggle_keeps_appearance (w : world) (id : nat) :
  SettingsWindow_init id (overlay (fst (toggle_overlay w)))
  = SettingsWindow_init id (overlay w).
Proof. rewrite toggle_overlay_eq. reflexivity. Qed.

(** X17: showing or hiding the overlay commutes with every other slot
    but Exit: the toggle before a slot, or after it, gives the same state
    and the same result, also when the slot raises.  The appearance, the
    dialog and the file do not depend on the visibility, and the toggle
    depends on nothing but its own flag. *)
Theorem toggle_commutes (ev : event) (w : world) :
  ev <> ExitClicked ->
  handle ev (fst (toggle_overlay w))
  = (fst (toggle_overlay (fst (handle ev w))), snd (handle ev w)).
Proof.
  intros Hev. destruct ev; cbn [handle]; try congruence.
  - reflexivity.
  - rewrite !open_settings_eq. cbv zeta.
    rewrite toggle_keeps_dialogs_made, toggle_keeps_appearance.
    destruct (SettingsWindow_init _ _); rewrite !toggle_overlay_eq;
      reflexivity.
  - destruct reason; reflexivity.
  - rewrite !on_dialog_eq, toggle_keeps_dialog.
    destruct (settings_window (tray_icon w)) as [d|]; [|reflexivity].
    destruct (shown d); [|reflexivity].
    rewrite !slider_moved_eq. cbv zeta.
    destruct (_ =? _); rewrite ?update_settings_eq, !toggle_overlay_eq;
      reflexivity.
  - rewrite !on_dialog_eq, toggle_keeps_dialog.
    destruct (settings_window (tray_icon w)) as [d|]; [|reflexivity].
    destruct (shown d); [|reflexivity].
    rewrite !open_color_dialog_eq.
    destruct (isValid picked);
      rewrite ?update_settings_eq, ?toggle_overlay_eq; reflexivity.
  - rewrite !on_dialog_eq, toggle_keeps_dialog.
    destruct (settings_window (tray_icon w)) as [d|]; [|reflexivity].
    destruct (shown d); [|reflexivity].
    rewrite !apply_settings_eq, !update_settings_eq. cbv zeta.
    rewrite (toggle_overlay_eq w).
    cbn [fst overlay fs with_overlay with_tray set_crosshair_properties
         set_visible size thickness color transparency].
    destruct (save_settings _ _ _ _ (fs w)) as [f [[]|x]]; cbn [fst snd];
      rewrite toggle_overlay_eq; reflexivity.
Qed.

Lemma toggle_commutes_witness :
  let w := fst (handle SettingsClicked default_world) in
  handle (SliderMoved SizeSlider 9) (fst (toggle_overlay w))
  = (fst (toggle_overlay (fst (handle (SliderMoved SizeSlider 9) w))),
     Ok tt).
Proof.
  cbv zeta.
  refine (toggle_commutes (SliderMoved SizeSlider 9)
            (fst (handle SettingsClicked default_world)) _).
  discriminate.
Defined.

(** ** An overlay that painted once *)

(** Painting does not depend on the visibility. *)
Lemma paintEvent_set_visible (b : bool) (o : CrosshairOverlay) :
  paintEvent (set_visible b o) = paintEvent o.
Proof. reflexivity. Qed.

(** An overlay that paints holds three C ints. *)
Lemma paints_sip_int (o : CrosshairOverlay) :
  paints o ->
  exists sz th a,
    sip_int (size o) = Ok sz /\ sip_int (thickness o) = Ok th
    /\ sip_int (transparency o) = Ok a.
Proof.
  intros [ops H]. unfold paintEvent, QColor4 in H.
  assert (E0 : sip_int (PInt 0) = Ok 0) by reflexivity.
  rewrite !E0 in H. cbn [bind] in H.
  destruct (sip_int (transparency o)) as [a|] eqn:Ea; [|discriminate H].
  cbn [bind] in H.
  destruct (sip_int (thickness o)) as [th|] eqn:Et; [|discriminate H].
  cbn [bind] in H.
  destruct (sip_int (PInt (red (color o)))); [|discriminate H].
  cbn [bind] in H.
  destruct (sip_int (PInt (green (color o)))); [|discriminate H].
  cbn [bind] in H.
  destruct (sip_int (PInt (blue (color o)))); [|discriminate H].
  cbn [bind] in H.
  destruct (py_int (size o)) as [sz|] eqn:Es; [|discriminate H].
  cbn [bind] in H.
  destruct (c_int (width o / 2 - sz)); [|discriminate H]. cbn [bind] in H.
  destruct (c_int (height o / 2 - sz)); [|discriminate H]. cbn [bind] in H.
  destruct (c_int_spec (sz * 2)) as [[F E]|[_ E]]; rewrite E in H;
    [|discriminate H].
  exists sz, th, a. repeat split.
  unfold sip_int. rewrite Es. cbn [bind]. apply c_int_fits.
  unfold fits_c_int in F. lia.
Qed.

(** For an overlay that paints, a dialog can be built. *)
Lemma paints_SettingsWindow_init (id : nat) (o : CrosshairOverlay) :
  paints o -> exists d, SettingsWindow_init id o = Ok d.
Proof.
  intros H. destruct (paints_sip_int o H) as (sz & th & a & Es & Et & Ea).
  unfold SettingsWindow_init, make_slider. rewrite Es, Et, Ea. cbn [bind].
  eexists. reflexivity.
Qed.

Lemma set_held_color_ok (c : QColor) (d : SettingsWindow) :
  dialog_ok d -> QColor_wf c = true -> dialog_ok (set_held_color c d).
Proof.
  intros (O1 & O2 & O3 & _) Hc.
  split; [exact O1|]. split; [exact O2|]. split; [exact O3|exact Hc].
Qed.

Lemma paints_after_update (w : world) (d : SettingsWindow) :
  dialog_ok d -> screen_ok (overlay w) ->
  paints (overlay (fst (update_settings d w))).
Proof.
  intros Hd [Hw Hh]. eexists.
  exact (paintEvent_after_update w d Hd Hw Hh).
Qed.

(** A slot leaves an overlay that paints an overlay that paints: it keeps
    the appearance, or gives the overlay the values of a dialog. *)
Lemma handle_keeps_paints (ev : event) (w : world) :
  inv w -> event_ok ev -> screen_ok (overlay w) -> paints (overlay w) ->
  paints (overlay (fst (handle ev w))).
Proof.
  intros Hi Hev Hg Hp. destruct ev; cbn [handle].
  - rewrite toggle_overlay_eq. exact Hp.
  - rewrite open_settings_eq. cbv zeta.
    destruct (SettingsWindow_init _ _); exact Hp.
  - exact Hp.
  - destruct reason; cbn [on_tray_icon_activated];
      try rewrite toggle_overlay_eq; exact Hp.
  - rewrite on_dialog_eq.
    destruct (settings_window (tray_icon w)) as [d|] eqn:Ed; [|exact Hp].
    destruct (shown d); [|exact Hp].
    rewrite slider_moved_eq. cbv zeta.
    destruct (_ =? _); [exact Hp|].
    apply paints_after_update; [|exact Hg].
    apply set_slider_ok. exact (proj1 (inv_dialog w Hi d Ed)).
  - rewrite on_dialog_eq.
    destruct (settings_window (tray_icon w)) as [d|] eqn:Ed; [|exact Hp].
    destruct (shown d); [|exact Hp].
    rewrite open_color_dialog_eq.
    destruct (isValid picked); [|exact Hp].
    apply paints_after_update; [|exact Hg].
    apply set_held_color_ok; [|exact Hev].
    exact (proj1 (inv_dialog w Hi d Ed)).
  - rewrite on_dialog_eq.
    destruct (settings_window (tray_icon w)) as [d|] eqn:Ed; [|exact Hp].
    destruct (shown d); [|exact Hp].
    rewrite apply_settings_eq. cbv zeta.
    pose proof (paints_after_update w d (proj1 (inv_dialog w Hi d Ed)) Hg)
      as K.
    destruct (snd _); exact K.
Qed.

Lemma handle_keeps_screen (ev : event) (w : world) :
  screen_ok (overlay w) -> screen_ok (overlay (fst (handle ev w))).
Proof.
  unfold screen_ok. destruct (handle_keeps_geometry ev w) as [-> ->]. tauto.
Qed.

Lemma handle_dialogs_made (ev : event) (w : world) :
  (dialogs_made w <= dialogs_made (fst (handle ev w)))%nat.
Proof.
  destruct ev; cbn [handle].
  - rewrite toggle_overlay_eq. apply Nat.le_refl.
  - rewrite open_settings_eq. cbv zeta.
    destruct (SettingsWindow_init _ _); cbn; lia.
  - apply Nat.le_refl.
  - destruct reason; cbn [on_tray_icon_activated];
      try rewrite toggle_overlay_eq; apply Nat.le_refl.
  - rewrite on_dialog_eq.
    destruct (settings_window _) as [d|]; [|apply Nat.le_refl].
    destruct (shown d); [|apply Nat.le_refl].
    rewrite slider_moved_eq. cbv zeta. destruct (_ =? _); apply Nat.le_refl.
  - rewrite on_dialog_eq.
    destruct (settings_window _) as [d|]; [|apply Nat.le_refl].
    destruct (shown d); [|apply Nat.le_refl].
    rewrite open_color_dialog_eq. destruct (isValid picked); apply Nat.le_refl.
  - rewrite on_dialog_eq.
    destruct (settings_window _) as [d|]; [|apply Nat.le_refl].
    destruct (shown d); [|apply Nat.le_refl].
    rewrite apply_settings_eq. cbv zeta. destruct (snd _); apply Nat.le_refl.
Qed.

(** What holds of a state in which the event loop is still running. *)
Lemma exec_Running_reachable (evs : list event) (w w' : world) :
  reachable w -> Forall event_ok evs -> exec_ w evs = Running w' ->
  reachable w' /\ exit_requested w' = None
  /\ (dialogs_made w <= dialogs_made w')%nat
  /\ (appearance_ok (overlay w) = true ->
      appearance_ok (overlay w') = true)
  /\ (screen_ok (overlay w) -> paints (overlay w) ->
      screen_ok (overlay w') /\ paints (overlay w')).
Proof.
  intros Hr Hevs. revert w Hr.
  induction Hevs as [|ev rest Hev Hrest IH]; intros w Hr; cbn [exec_].
  - destruct (exit_requested w) eqn:Hx; [discriminate|].
    intros [= <-]. split; [exact Hr|]. split; [exact Hx|].
    split; [apply Nat.le_refl|]. split; [tauto|]. intros Hg Hp. now split.
  - destruct (exit_requested w) eqn:Hx; [discriminate|].
    destruct (handle ev w) as [w1 [[]|x]] eqn:H; [|discriminate].
    intros Hrun.
    assert (Hr1 : reachable w1)
      by exact (reachable_step w w1 ev Hr Hx Hev H).
    destruct (IH w1 Hr1 Hrun) as (R & X & N & A & P).
    pose proof (handle_dialogs_made ev w) as N1.
    pose proof (handle_keeps_in_range w ev (reachable_inv w Hr) Hev) as A1.
    pose proof (handle_keeps_paints ev w (reachable_inv w Hr) Hev) as P1.
    pose proof (handle_keeps_screen ev w) as G1.
    rewrite H in N1, A1, P1, G1. cbn [fst] in N1, A1, P1, G1.
    split; [exact R|]. split; [exact X|]. split; [lia|].
    split; [auto|]. intros Hg Hp. apply P; auto.
Qed.

(** The loop that is still running after some events goes on from there. *)
Lemma exec_app (pre rest : list event) (w w' : world) :
  exec_ w pre = Running w' -> exec_ w (pre ++ rest) = exec_ w' rest.
Proof.
  revert w. induction pre as [|ev pre IH]; intros w; cbn [exec_ List.app].
  - destruct (exit_requested w) eqn:Hx; [discriminate|].
    intros [= <-]. reflexivity.
  - destruct (exit_requested w) eqn:Hx; [discriminate|].
    destruct (handle ev w) as [w1 [[]|x]]; [|discriminate].
    apply IH.
Qed.

(** Slots that all return, none of them [exit_app], leave the loop
    running. *)
Lemma run_events_Running (evs : list event) (w : world) :
  exit_requested w = None -> ~ In ExitClicked evs ->
  snd (run_events evs w) = Ok tt ->
  exec_ w evs = Running (fst (run_events evs w)).
Proof.
  revert w. induction evs as [|ev rest IH]; intros w Hx Hin;
    cbn [exec_]; rewrite Hx; [reflexivity|].
  rewrite run_events_cons.
  assert (Hev : ev <> ExitClicked) by (intros ->; apply Hin; now left).
  pose proof (handle_exit_requested ev w Hev) as Hx1. rewrite Hx in Hx1.
  destruct (handle ev w) as [w1 [[]|x]]; cbn [fst snd] in *;
    [|discriminate].
  apply IH; [exact Hx1|]. intros H; apply Hin; now right.
Qed.

(** X9: an Exit click that is reached ends the program with status 0.
    From a reachable state whose overlay paints on a screen, when the
    slots of the events before the click all return, the overlay still
    paints when Exit is clicked, [exec_] returns 0 whatever events come
    after the click, and the slot has hidden the overlay and left the
    settings file alone. *)
Theorem exit_click_ends_loop (w : world) (pre post : list event) :
  reachable w -> exit_requested w = None ->
  screen_ok (overlay w) -> paints (overlay w) ->
  Forall event_ok pre -> ~ In ExitClicked pre ->
  snd (run_events pre w) = Ok tt ->
  let w1 := fst (run_events pre w) in
  paints (overlay w1)
  /\ exec_ w (pre ++ ExitClicked :: post) = Exited 0
  /\ visible (overlay (fst (handle ExitClicked w1))) = false
  /\ fs (fst (handle ExitClicked w1)) = fs w1.
Proof.
  intros Hr Hx Hg Hp Hevs Hin Hrun w1.
  pose proof (run_events_Running pre w Hx Hin Hrun) as E. fold w1 in E.
  destruct (exec_Running_reachable pre w w1 Hr Hevs E)
    as (_ & Hx1 & _ & _ & P).
  split; [exact (proj2 (P Hg Hp))|]. split; [|split; reflexivity].
  rewrite (exec_app pre (ExitClicked :: post) w w1 E).
  cbn [exec_]. rewrite Hx1. cbn [handle]. rewrite exit_app_eq.
  apply exec_stopped. reflexivity.
Qed.

Lemma exit_click_ends_loop_witness :
  exec_ default_world
    ([ToggleClicked; SettingsClicked; SliderMoved SizeSlider 9]
     ++ ExitClicked :: [ApplyClicked; ToggleClicked])
  = Exited 0.
Proof.
  refine (proj1 (proj2
    (exit_click_ends_loop default_world
       [ToggleClicked; SettingsClicked; SliderMoved SizeSlider 9]
       [ApplyClicked; ToggleClicked] _ eq_refl _ _ _ _ eq_refl))).
  - exact (reachable_startup _ _ default_world_started).
  - unfold screen_ok. cbn. lia.
  - eexists. reflexivity.
  - repeat constructor.
  - cbn [In]. intros [H|[H|[H|H]]];
      [discriminate H|discriminate H|discriminate H|exact H].
Defined.

Lemma exec_Aborted_paints (evs : list event) (w : world) (x : exn) :
  reachable w -> exit_requested w = None ->
  screen_ok (overlay w) -> paints (overlay w) ->
  Forall event_ok evs ->
  exec_ w evs = Aborted x ->
  In ApplyClicked evs /\ (x = PermissionError \/ x = OSError).
Proof.
  intros Hr Hx Hg Hp Hevs. revert w Hr Hx Hg Hp.
  induction Hevs as [|ev rest Hev Hrest IH]; intros w Hr Hx Hg Hp;
    cbn [exec_]; rewrite Hx; [discriminate|].
  destruct (handle ev w) as [w1 [[]|x0]] eqn:H.
  - intros Hab.
    destruct (exit_requested w1) as [c|] eqn:Hx1.
    { rewrite (exec_stopped w1 rest c Hx1) in Hab. discriminate. }
    assert (Hr1 : reachable w1)
      by exact (reachable_step w w1 ev Hr Hx Hev H).
    pose proof (handle_keeps_paints ev w (reachable_inv w Hr) Hev Hg Hp)
      as P1.
    pose proof (handle_keeps_screen ev w Hg) as G1.
    rewrite H in P1, G1. cbn [fst] in P1, G1.
    destruct (IH w1 Hr1 Hx1 G1 P1 Hab) as [Hin Hx0].
    split; [now right|exact Hx0].
  - intros [= <-].
    assert (Hs : snd (handle ev w) = Raise x0) by now rewrite H.
    destruct (handle_raises ev w x0 Hs) as [(-> & Hi & _)|(-> & Hx0)].
    + destruct (paints_SettingsWindow_init (dialogs_made w) (overlay w) Hp)
        as [d Hd]. congruence.
    + split; [now left|exact Hx0].
Qed.

(** X11: an overlay that painted once goes on painting, and then only
    Apply can stop the program.  From a reachable state whose overlay
    paints on a screen, whatever the user does, the overlay paints in
    every state in which the event loop is running and the Settings item
    finds a dialog to build there; an exception that aborts the event loop
    is a [PermissionError] or an [OSError] of the write of Apply. *)
Theorem painted_overlay_only_apply_aborts (w : world) (evs : list event) :
  reachable w -> exit_requested w = None ->
  screen_ok (overlay w) -> paints (overlay w) ->
  Forall event_ok evs ->
  (forall pre post w',
     evs = pre ++ post -> exec_ w pre = Running w' ->
     paints (overlay w') /\ snd (handle SettingsClicked w') = Ok tt)
  /\ (forall x,
        exec_ w evs = Aborted x ->
        In ApplyClicked evs /\ (x = PermissionError \/ x = OSError)).
Proof.
  intros Hr Hx Hg Hp Hevs. split.
  - intros pre post w' -> Hrun.
    apply Forall_app in Hevs. destruct Hevs as [Hpre _].
    destruct (exec_Running_reachable pre w w' Hr Hpre Hrun)
      as (_ & _ & _ & _ & P).
    destruct (P Hg Hp) as [_ Hp']. split; [exact Hp'|].
    destruct (paints_SettingsWindow_init (dialogs_made w') (overlay w') Hp')
      as [d Hd].
    cbn [handle]. rewrite open_settings_eq. cbv zeta. rewrite Hd.
    reflexivity.
  - intros x. exact (exec_Aborted_paints evs w x Hr Hx Hg Hp Hevs).
Qed.

Lemma painted_overlay_only_apply_aborts_witness :
  let w' := fst (run_events [SettingsClicked; SliderMoved ThicknessSlider 7;
                             ToggleClicked] oversized_world) in
  paints (overlay w') /\ snd (handle SettingsClicked w') = Ok tt.
Proof.
  cbv zeta.
  refine (proj1
    (painted_overlay_only_apply_aborts oversized_world
       [SettingsClicked; SliderMoved ThicknessSlider 7; ToggleClicked]
       _ eq_refl _ _ _)
    [SettingsClicked; SliderMoved ThicknessSlider 7; ToggleClicked] [] _
    eq_refl eq_refl).
  - exact (reachable_startup _ _ oversized_world_started).
  - unfold screen_ok. cbn. lia.
  - eexists. reflexivity.
  - repeat constructor.
Defined.

(** X15: a settings file that cannot be loaded.  With a system tray, an
    exception that escapes [load_settings] ends the process with status 1
    before an overlay or a tray icon exists, whatever the icon, the
    screen and the events; it is never one of the two exceptions that
    [load_settings] catches. *)
Theorem load_failure_exits_one (e : env) (evs : list event) (x : exn) :
  tray_available e = true ->
  load_settings (initial_disk e) = Raise x ->
  startup e = Raise x /\ main e evs = Exited 1
  /\ x <> FileNotFoundError /\ x <> KeyError.
Proof.
  intros Ht Hl. unfold main, startup. rewrite Ht, Hl. cbn [negb bind].
  destruct (load_settings_raises _ _ Hl) as [->|[->|[->|[->| ->]]]];
    cbn [exit_status]; repeat split; discriminate.
Qed.

Lemma load_failure_exits_one_witness :
  main {| tray_available := true; icon_exists := false;
          screen_width := 1920; screen_height := 1080;
          initial_disk := disk_holding (text "{'size': 3, 'thick") 4096 |}
    [SettingsClicked; ExitClicked] = Exited 1.
Proof.
  apply (load_failure_exits_one
           {| tray_available := true; icon_exists := false;
              screen_width := 1920; screen_height := 1080;
              initial_disk := disk_holding (text "{'size': 3, 'thick") 4096 |}
           [SettingsClicked; ExitClicked] JSONDecodeError).
  - reflexivity.
  - vm_compute. reflexivity.
Defined.

(** ** The dialogs that follow an Apply *)

Lemma appearance_ok_ints (o : CrosshairOverlay) :
  appearance_ok o = true ->
  exists s t a,
    size o = PInt s /\ thickness o = PInt t /\ transparency o = PInt a
    /\ 1 <= s <= 20 /\ 1 <= t <= 10 /\ 0 <= a <= 255.
Proof.
  unfold appearance_ok, in_range. rewrite !andb_true_iff.
  intros [[[Hs Ht] _] Ha].
  destruct (size o) as [| | s| | | |]; try discriminate.
  destruct (thickness o) as [| | t| | | |]; try discriminate.
  destruct (transparency o) as [| | a| | | |]; try discriminate.
  rewrite andb_true_iff, !Z.leb_le in Hs, Ht, Ha.
  exists s, t, a. repeat split; lia.
Qed.

(** C9, amended: Apply hides the dialog, and the tray icon keeps holding
    it.  Whatever is done afterwards while the program runs, every open
    of Settings constructs a new dialog: it is not the dialog that was
    applied nor the one the tray icon held, it replaces that one, is
    shown, and has the slider positions and the colour that the overlay
    holds at that moment.  For the open that follows Apply directly these
    are the positions and the colour of the dialog that was applied. *)
Theorem reopen_after_apply (w : world) (d : SettingsWindow)
  (evs : list event) (w2 : world) :
  reachable w ->
  settings_window (tray_icon w) = Some d -> shown d = true ->
  writable (fs w) = true ->
  (List.length
     (json_dumps
        (settings_dict (PInt (value (size_slider d)))
           (PInt (value (thickness_slider d))) (held_color d)
           (PInt (value (transparency_slider d)))))
   <= capacity (fs w))%nat ->
  Forall event_ok evs ->
  exec_ (fst (handle ApplyClicked w)) evs = Running w2 ->
  let w1 := fst (handle ApplyClicked w) in
  (snd (handle ApplyClicked w) = Ok tt
   /\ settings_window (tray_icon w1) = Some (set_shown false d))
  /\ exists w3 d',
       handle SettingsClicked w2 = (w3, Ok tt)
       /\ settings_window (tray_icon w3) = Some d' /\ shown d' = true
       /\ ident d' = dialogs_made w2 /\ (ident d < ident d')%nat
       /\ (forall d2, settings_window (tray_icon w2) = Some d2 ->
           (ident d2 < ident d')%nat)
       /\ size (overlay w2) = PInt (value (size_slider d'))
       /\ thickness (overlay w2) = PInt (value (thickness_slider d'))
       /\ transparency (overlay w2) = PInt (value (transparency_slider d'))
       /\ held_color d' = color (overlay w2)
       /\ (evs = [] ->
           value (size_slider d') = value (size_slider d)
           /\ value (thickness_slider d') = value (thickness_slider d)
           /\ value (transparency_slider d')
              = value (transparency_slider d)
           /\ held_color d' = held_color d).
Proof.
  intros Hr Ed Hs Hw Hcap Hevs Hrun w1.
  destruct (inv_dialog w (reachable_inv w Hr) d Ed) as (Hok & Hid).
  destruct (apply_settings_writes w d Hw Hcap)
    as (w1' & E1 & Ho & _ & Ht & Hn & Hx).
  assert (E : handle ApplyClicked w = (w1', Ok tt)).
  { cbn [handle]. now rewrite on_dialog_eq, Ed, Hs. }
  assert (Ew : w1 = w1') by (subst w1; now rewrite E).
  rewrite E in Hrun. cbn [fst] in Hrun. rewrite E, Ew. cbn [snd].
  clear w1 Ew.
  assert (Hx1 : exit_requested w1' = None).
  { destruct (exit_requested w1') eqn:K; [|reflexivity].
    rewrite (exec_stopped w1' evs _ K) in Hrun. discriminate. }
  assert (Hr1 : reachable w1').
  { apply (reachable_step w w1' ApplyClicked Hr); [congruence|exact I|].
    exact E. }
  assert (Ha1 : appearance_ok (overlay w1') = true).
  { rewrite Ho. pose proof (update_settings_in_range d w Hok) as K.
    rewrite update_settings_eq in K. exact K. }
  destruct (exec_Running_reachable evs w1' w2 Hr1 Hevs Hrun)
    as (Hr2 & _ & Hn2 & Ha2 & _).
  specialize (Ha2 Ha1).
  destruct (appearance_ok_ints _ Ha2)
    as (s & t & a & Es & Et & Ea & Bs & Bt & Ba).
  destruct (open_settings_int w2 s t a Es Et Ea)
    as (d0 & _ & E2 & Hid0 & V1 & V2 & V3 & Hc0); try lia.
  rewrite qBound_id in V1, V2, V3 by lia.
  split; [split; [reflexivity|now rewrite Ht]|].
  eexists. exists (set_shown true d0). split; [exact E2|].
  cbn [tray_icon with_dialog with_tray settings_window set_shown shown ident
       size_slider thickness_slider transparency_slider held_color].
  split; [reflexivity|]. split; [reflexivity|]. split; [exact Hid0|].
  split; [lia|]. split.
  { intros d2 Ed2.
    pose proof (proj2 (inv_dialog w2 (reachable_inv w2 Hr2) d2 Ed2)). lia. }
  rewrite V1, V2, V3. split; [exact Es|]. split; [exact Et|].
  split; [exact Ea|]. split; [exact Hc0|].
  intros ->. cbn [exec_] in Hrun. rewrite Hx1 in Hrun.
  injection Hrun as <-. rewrite Ho in Es, Et, Ea, Hc0.
  cbn [set_crosshair_properties size thickness transparency color]
    in Es, Et, Ea, Hc0.
  injection Es as <-. injection Et as <-. injection Ea as <-.
  repeat split. exact Hc0.
Qed.

Lemma reopen_after_apply_witness :
  let w := fst (run_events [SettingsClicked] default_world) in
  let w2 := fst (run_events [ApplyClicked; SettingsClicked;
                             SliderMoved SizeSlider 9] w) in
  exists w3 d',
    handle SettingsClicked w2 = (w3, Ok tt)
    /\ settings_window (tray_icon w3) = Some d'
    /\ ident d' = 2%nat /\ size (overlay w2) = PInt 9
    /\ value (size_slider d') = 9.
Proof.
  cbv zeta.
  assert (R : reachable (fst (run_events [SettingsClicked] default_world))).
  { apply (reachable_step default_world _ SettingsClicked);
      [|reflexivity|exact I|reflexivity].
    exact (reachable_startup _ _ default_world_started). }
  destruct (reopen_after_apply
              (fst (run_events [SettingsClicked] default_world)) _
              [SettingsClicked; SliderMoved SizeSlider 9]
              (fst (run_events [ApplyClicked; SettingsClicked;
                                SliderMoved SizeSlider 9]
                      (fst (run_events [SettingsClicked] default_world))))
              R eq_refl eq_refl eq_refl)
    as (_ & w3 & d' & E & Ed & _ & Hid & _ & _ & Hsz & _).
  - apply Nat.leb_le. vm_compute. reflexivity.
  - repeat constructor.
  - vm_compute. reflexivity.
  - assert (K : PInt 9 = PInt (value (size_slider d'))).
    { rewrite <- Hsz. vm_compute. reflexivity. }
    exists w3, d'. split; [exact E|]. split; [exact Ed|].
    split; [rewrite Hid; vm_compute; reflexivity|].
    split; [vm_compute; reflexivity|].
    now injection K as <-.
Defined.
